(** * Junction-box monitoring server (app.py): a shallow embedding

    The Flask application keeps three pieces of process state (the alert
    list, the power-status dictionary and the files it writes) and serves
    a handful of routes.  Handlers are embedded as computations in a small
    state-and-exception monad over a [world] record; Python strings are
    sequences of code points, Python objects that travel through JSON are
    values of the inductive type [json]. *)

From Stdlib Require Import ZArith NArith List String Ascii Bool Lia.
From stdpp Require Import base option list gmap.
Import ListNotations.

Local Open Scope N_scope.

(** ** Python strings *)

(** A Python [str] is a sequence of code points. *)
Abbreviation pystr := (list N).

Definition py (s : string) : list N :=
  map (fun a => N.of_nat (nat_of_ascii a)) (list_ascii_of_string s).
Arguments py s%_string.

(** [p == s] on strings. *)
Definition str_eqb (p s : list N) : bool := bool_decide (p = s).

(** [s.startswith(p)] *)
Fixpoint startswith (p s : list N) : bool :=
  match p, s with
  | [], _ => true
  | _ :: _, [] => false
  | a :: p', b :: s' => (a =? b) && startswith p' s'
  end.

(** [p in s]: [p] occurs in [s] as a contiguous run. *)
Fixpoint contains (p s : list N) : bool :=
  startswith p s ||
  match s with
  | [] => false
  | _ :: s' => contains p s'
  end.

(** What "the message contains [p]" means, independently of the search. *)
Definition substring (p s : list N) : Prop :=
  exists pre post, s = pre ++ p ++ post.

(** ** The message classifier (receive_from_esp32, lines 201-210) *)

Definition classify_message (message : list N) : list N :=
  if contains (py "Access status changed") message then py "Access Status Change"
  else if contains (py "Vibration detected") message then py "Vibration Alert"
  else if contains (py "ALERT:") message && contains (py "Access Denied") message
       then py "Critical Alert"
  else if contains (py "Door opened") message then py "Door Alert"
  else py "General Alert".

(** The rule table of the specification, section 4.3: an ordered list of
    (test, label) pairs, evaluated first match wins. *)
Definition rule : Type := (list N -> bool) * list N.

Definition classifier_rules : list rule :=
  [ (contains (py "Access status changed"), py "Access Status Change");
    (contains (py "Vibration detected"), py "Vibration Alert");
    (fun m => contains (py "ALERT:") m && contains (py "Access Denied") m,
     py "Critical Alert");
    (contains (py "Door opened"), py "Door Alert") ].

Fixpoint first_match (rules : list rule) (default : list N) (m : list N) : list N :=
  match rules with
  | [] => default
  | (test, label) :: rest => if test m then label else first_match rest default m
  end.

(** The taxonomy of section 4.3. *)
Definition alert_labels : list (list N) :=
  [ py "Access Status Change"; py "Vibration Alert"; py "Critical Alert";
    py "Door Alert"; py "General Alert" ].

(** ** Python objects that travel through JSON *)

(** [None], [bool], [int], [str], [list] and [dict] with string keys.  A
    [dict] keeps its insertion order, so it is an association list; Python
    keeps its keys distinct (part of [json_ok] below).  Floats are not
    modelled: no handler of the application creates one, and a history
    file that holds one is outside the embedding of the decoder below. *)
#[warnings="-register-all"]
Inductive json : Type :=
| JNull
| JBool (b : bool)
| JInt (z : Z)
| JStr (s : list N)
| JList (items : list json)
| JDict (pairs : list (list N * json)).

(** Truth value of an object in a condition. *)
Definition truthy (v : json) : bool :=
  match v with
  | JNull => false
  | JBool b => b
  | JInt z => negb (z =? 0)%Z
  | JStr [] => false
  | JStr (_ :: _) => true
  | JList [] => false
  | JList (_ :: _) => true
  | JDict [] => false
  | JDict (_ :: _) => true
  end.

(** [d.get(key, default)] on the pairs of a dict. *)
Fixpoint dict_get (d : list (list N * json)) (key : list N) (default : json) : json :=
  match d with
  | [] => default
  | (k, v) :: rest => if str_eqb k key then v else dict_get rest key default
  end.

(** [d[key] = v]: an existing key keeps its place, a new one goes last. *)
Fixpoint dict_set (d : list (list N * json)) (key : list N) (v : json)
  : list (list N * json) :=
  match d with
  | [] => [(key, v)]
  | (k, x) :: rest =>
      if str_eqb k key then (k, v) :: rest else (k, x) :: dict_set rest key v
  end.

(** [MultiDict.get(key, default)] of [request.args] and [request.form]: the
    first value sent under [key]. *)
Fixpoint multi_get (l : list (list N * list N)) (key default : list N) : list N :=
  match l with
  | [] => default
  | (k, v) :: rest => if str_eqb k key then v else multi_get rest key default
  end.

(** ** Time *)

Record datetime := {
  year : N; month : N; day : N;
  hour : N; minute : N; second : N; microsecond : N }.

Definition digit (n : N) : N := 48 + n mod 10.
Definition dec2 (n : N) : list N := [digit (n / 10); digit n].
Definition dec4 (n : N) : list N :=
  [digit (n / 1000); digit (n / 100); digit (n / 10); digit n].

(** [t.strftime("%Y-%m-%d %H:%M:%S")] *)
Definition strftime_stamp (t : datetime) : list N :=
  dec4 (year t) ++ py "-" ++ dec2 (month t) ++ py "-" ++ dec2 (day t) ++ py " "
  ++ dec2 (hour t) ++ py ":" ++ dec2 (minute t) ++ py ":" ++ dec2 (second t).

(** [t.strftime("%Y%m%d_%H%M%S")] *)
Definition strftime_compact (t : datetime) : list N :=
  dec4 (year t) ++ dec2 (month t) ++ dec2 (day t) ++ py "_"
  ++ dec2 (hour t) ++ dec2 (minute t) ++ dec2 (second t).

(** ** Process state and its surroundings *)

Record power_entry := {
  main : json;
  backup : json;
  last_update : datetime }.

(** [alerts] and [power_status] are the module's globals; [files] holds
    the text files by path (ALERTS_FILE, MSG_FILE), [blobs] the binary
    files written under SAVE_DIR.  [clock] and [entropy] are what the
    successive calls of [datetime.now()] and of the random generator
    answer; [ticks] and [draws] count the calls made so far. *)
Record world := {
  alerts : json;
  power_status : gmap (list N) power_entry;
  files : gmap (list N) (list N);
  blobs : gmap (list N) (list Byte.byte);
  clock : nat -> datetime;
  ticks : nat;
  entropy : nat -> nat;
  draws : nat }.

Definition with_alerts (v : json) (w : world) : world :=
  {| alerts := v; power_status := power_status w; files := files w;
     blobs := blobs w; clock := clock w; ticks := ticks w;
     entropy := entropy w; draws := draws w |}.

Definition with_power_status (p : gmap (list N) power_entry) (w : world) : world :=
  {| alerts := alerts w; power_status := p; files := files w;
     blobs := blobs w; clock := clock w; ticks := ticks w;
     entropy := entropy w; draws := draws w |}.

Definition with_files (f : gmap (list N) (list N)) (w : world) : world :=
  {| alerts := alerts w; power_status := power_status w; files := f;
     blobs := blobs w; clock := clock w; ticks := ticks w;
     entropy := entropy w; draws := draws w |}.

Definition with_blobs (b : gmap (list N) (list Byte.byte)) (w : world) : world :=
  {| alerts := alerts w; power_status := power_status w; files := files w;
     blobs := b; clock := clock w; ticks := ticks w;
     entropy := entropy w; draws := draws w |}.

Definition with_ticks (n : nat) (w : world) : world :=
  {| alerts := alerts w; power_status := power_status w; files := files w;
     blobs := blobs w; clock := clock w; ticks := n;
     entropy := entropy w; draws := draws w |}.

Definition with_draws (n : nat) (w : world) : world :=
  {| alerts := alerts w; power_status := power_status w; files := files w;
     blobs := blobs w; clock := clock w; ticks := ticks w;
     entropy := entropy w; draws := n |}.

(** ** Computations: state plus exceptions *)

(** The exceptions of the interpreter that matter here, and the
    [HTTPException] of the framework, which carries its status code. *)
Inductive exn :=
| TypeError | AttributeError | IndexError | KeyError | ValueError | OSError
| HTTPException (code : N).

Inductive outcome (A : Type) : Type :=
| Return (a : A)
| Raise (e : exn).
Arguments Return {A} a.
Arguments Raise {A} e.

(** A statement runs in a world and either returns or raises; what it
    changed before raising stays changed. *)
Definition M (A : Type) : Type := world -> outcome A * world.

#[global] Instance M_ret : MRet M := fun A a w => (Return a, w).

#[global] Instance M_bind : MBind M := fun A B f m w =>
  match m w with
  | (Return a, w') => f a w'
  | (Raise e, w') => (Raise e, w')
  end.

Definition raise {A : Type} (e : exn) : M A := fun w => (Raise e, w).

(** A call that returns or raises and leaves the state alone. *)
Definition lift {A : Type} (o : outcome A) : M A := fun w => (o, w).

(** [try: body / except: handler] with a bare [except]. *)
Definition try_except {A : Type} (body handler : M A) : M A := fun w =>
  match body w with
  | (Return a, w') => (Return a, w')
  | (Raise _, w') => handler w'
  end.

Definition get_alerts : M json := fun w => (Return (alerts w), w).
Definition put_alerts (v : json) : M unit := fun w => (Return tt, with_alerts v w).

(** [datetime.now()] *)
Definition now : M datetime := fun w =>
  (Return (clock w (ticks w)), with_ticks (S (ticks w)) w).

(** [random.choice(seq)] *)
Definition random_choice {A : Type} (seq : list A) : M A := fun w =>
  match seq !! (entropy w (draws w) mod length seq)%nat with
  | Some x => (Return x, with_draws (S (draws w)) w)
  | None => (Raise IndexError, w)
  end.

(** [os.path.exists(path)] for a text file *)
Definition path_exists (path : list N) : M bool := fun w =>
  (Return (bool_decide (is_Some (files w !! path))), w).

(** [open(path, "r")] and [f.read()] *)
Definition read_text (path : list N) : M (list N) := fun w =>
  match files w !! path with
  | Some text => (Return text, w)
  | None => (Raise OSError, w)
  end.

(** [open(path, "w")] and [f.write(text)] *)
Definition write_text (path text : list N) : M unit := fun w =>
  (Return tt, with_files (<[path := text]> (files w)) w).

(** [open(path, "a")] and [f.write(text)] *)
Definition append_text (path text : list N) : M unit := fun w =>
  (Return tt, with_files (<[path := default [] (files w !! path) ++ text]> (files w)) w).

(** [open(path, "wb")] and [f.write(data)] *)
Definition write_bytes (path : list N) (data : list Byte.byte) : M unit := fun w =>
  (Return tt, with_blobs (<[path := data]> (blobs w)) w).

(** [len(o)] *)
Definition py_len (o : json) : M Z :=
  match o with
  | JStr s => mret (Z.of_nat (length s))
  | JList l => mret (Z.of_nat (length l))
  | JDict d => mret (Z.of_nat (length d))
  | JNull | JBool _ | JInt _ => raise TypeError
  end.

(** [alerts.append(x)] *)
Definition alerts_append (x : json) : M unit :=
  a ← get_alerts;
  match a with
  | JList l => put_alerts (JList (l ++ [x]))
  | _ => raise AttributeError
  end.

(** [o.get(key)] *)
Definition py_get (o : json) (key : list N) : M json :=
  match o with
  | JDict d => mret (dict_get d key JNull)
  | _ => raise AttributeError
  end.

(** [device_id in power_status].  The keys of [power_status] are strings,
    so a member is a string; a list or a dict cannot be hashed. *)
Definition registered (device_id : json) : M (option (list N)) := fun w =>
  match device_id with
  | JStr s => (Return (if bool_decide (is_Some (power_status w !! s))
                       then Some s else None), w)
  | JNull | JBool _ | JInt _ => (Return None, w)
  | JList _ | JDict _ => (Raise TypeError, w)
  end.

(** [power_status[key] = entry] *)
Definition set_power_status (key : list N) (entry : power_entry) : M unit := fun w =>
  (Return tt, with_power_status (<[key := entry]> (power_status w)) w).

(** ** The JSON text of an object: [json.dump(obj, f, indent=2)] *)

Definition hexdigit (n : N) : N := if n <? 10 then 48 + n else 87 + n.

(** ['{0:04x}'.format(n)] *)
Definition hex4 (n : N) : list N :=
  [hexdigit (n / 4096 mod 16); hexdigit (n / 256 mod 16);
   hexdigit (n / 16 mod 16); hexdigit (n mod 16)].

(** The replacement of one character in [encode_basestring_ascii]: the
    short escapes, printable ASCII as it is, [\uXXXX] for the rest, with a
    surrogate pair above the basic plane. *)
Definition ascii_escape (c : N) : list N :=
  if c =? 34 then [92; 34]
  else if c =? 92 then [92; 92]
  else if c =? 8 then [92; 98]
  else if c =? 12 then [92; 102]
  else if c =? 10 then [92; 110]
  else if c =? 13 then [92; 114]
  else if c =? 9 then [92; 116]
  else if (32 <=? c) && (c <=? 126) then [c]
  else if c <? 65536 then 92 :: 117 :: hex4 c
  else
    let n := c - 65536 in
    let s1 := N.lor 55296 (N.land (N.shiftr n 10) 1023) in
    let s2 := N.lor 56320 (N.land n 1023) in
    (92 :: 117 :: hex4 s1) ++ (92 :: 117 :: hex4 s2).

Definition encode_basestring_ascii (s : list N) : list N :=
  34 :: flat_map ascii_escape s ++ [34].

(** Decimal digits of a natural number, most significant first. *)
Fixpoint decimal_digits (fuel : nat) (n : N) (acc : list N) : list N :=
  match fuel with
  | O => acc
  | S f =>
      let acc' := (48 + n mod 10) :: acc in
      if n <? 10 then acc' else decimal_digits f (n / 10) acc'
  end.

Definition decimal (n : N) : list N := decimal_digits (S (N.to_nat (N.log2 n))) n [].

(** [int.__repr__] *)
Definition intstr (z : Z) : list N :=
  match z with
  | Z0 => decimal 0
  | Zpos p => decimal (Npos p)
  | Zneg p => 45 :: decimal (Npos p)
  end.

(** ['\n' + ' ' * (2 * level)] *)
Definition newline_indent (level : nat) : list N := 10 :: repeat 32 (2 * level)%nat.

Fixpoint join (sep : list N) (chunks : list (list N)) : list N :=
  match chunks with
  | [] => []
  | [c] => c
  | c :: rest => c ++ sep ++ join sep rest
  end.

(** The chunks of [_iterencode] at a nesting level, concatenated. *)
Fixpoint iterencode (level : nat) (o : json) : list N :=
  match o with
  | JStr s => encode_basestring_ascii s
  | JNull => py "null"
  | JBool true => py "true"
  | JBool false => py "false"
  | JInt z => intstr z
  | JList [] => py "[]"
  | JList items =>
      py "[" ++ newline_indent (S level)
      ++ join (py "," ++ newline_indent (S level)) (map (iterencode (S level)) items)
      ++ newline_indent level ++ py "]"
  | JDict [] => py "{}"
  | JDict pairs =>
      py "{" ++ newline_indent (S level)
      ++ join (py "," ++ newline_indent (S level))
           (map (fun kv => encode_basestring_ascii (fst kv) ++ py ": "
                           ++ iterencode (S level) (snd kv)) pairs)
      ++ newline_indent level ++ py "}"
  end.

Definition json_dumps (o : json) : list N := iterencode 0 o.

(** One member of a dict as [_iterencode_dict] writes it. *)
Definition encode_pair (level : nat) (kv : list N * json) : list N :=
  encode_basestring_ascii (fst kv) ++ 58 :: 32 :: iterencode level (snd kv).

(** ** Reading JSON text: [json.load(f)] *)

Definition is_ws (c : N) : bool := (c =? 32) || (c =? 9) || (c =? 10) || (c =? 13).

Fixpoint skip_ws (s : list N) : list N :=
  match s with
  | [] => []
  | c :: r => if is_ws c then skip_ws r else s
  end.

Definition is_digit (c : N) : bool := (48 <=? c) && (c <=? 57).

Definition unhex (c : N) : option N :=
  if is_digit c then Some (c - 48)
  else if (97 <=? c) && (c <=? 102) then Some (c - 87)
  else if (65 <=? c) && (c <=? 70) then Some (c - 55)
  else None.

Definition unhex4 (a b c d : N) : option N :=
  match unhex a, unhex b, unhex c, unhex d with
  | Some x, Some y, Some z, Some t => Some (((x * 16 + y) * 16 + z) * 16 + t)
  | _, _, _, _ => None
  end.

Definition is_high_surrogate (u : N) : bool := (55296 <=? u) && (u <=? 56319).
Definition is_low_surrogate (u : N) : bool := (56320 <=? u) && (u <=? 57343).

Definition join_surrogates (u u2 : N) : N :=
  65536 + N.lor (N.shiftl (u - 55296) 10) (u2 - 56320).

(** The BACKSLASH table of the decoder. *)
Definition unescape (e : N) : option N :=
  if e =? 34 then Some 34
  else if e =? 92 then Some 92
  else if e =? 47 then Some 47
  else if e =? 98 then Some 8
  else if e =? 102 then Some 12
  else if e =? 110 then Some 10
  else if e =? 114 then Some 13
  else if e =? 116 then Some 9
  else None.

Definition cons_char (c : N) (r : option (list N * list N)) : option (list N * list N) :=
  match r with
  | Some (s, rest) => Some (c :: s, rest)
  | None => None
  end.

(** [scanstring], entered after the opening quote, in strict mode: the
    string read and the text after its closing quote. *)
Fixpoint scanstring (s : list N) : option (list N * list N) :=
  match s with
  | [] => None
  | c :: r =>
      if c =? 34 then Some ([], r)
      else if c =? 92 then
        match r with
        | [] => None
        | e :: r1 =>
            if e =? 117 then
              match r1 with
              | a :: b :: c' :: d :: r2 =>
                  match unhex4 a b c' d with
                  | None => None
                  | Some uni =>
                      if is_high_surrogate uni then
                        match r2 with
                        | bs :: u :: a2 :: b2 :: c2 :: d2 :: r3 =>
                            if (bs =? 92) && (u =? 117) then
                              match unhex4 a2 b2 c2 d2 with
                              | None => None
                              | Some uni2 =>
                                  if is_low_surrogate uni2
                                  then cons_char (join_surrogates uni uni2) (scanstring r3)
                                  else cons_char uni (scanstring r2)
                              end
                            else cons_char uni (scanstring r2)
                        | _ => cons_char uni (scanstring r2)
                        end
                      else cons_char uni (scanstring r2)
                  end
              | _ => None
              end
            else
              match unescape e with
              | Some ch => cons_char ch (scanstring r1)
              | None => None
              end
        end
      else if c <? 32 then None
      else cons_char c (scanstring r)
  end.

Fixpoint scan_digits (s : list N) (acc : N) : N * list N :=
  match s with
  | [] => (acc, [])
  | c :: r => if is_digit c then scan_digits r (10 * acc + (c - 48)) else (acc, s)
  end.

(** A fraction or an exponent after the integer part makes the number a
    float. *)
Definition starts_fraction (s : list N) : bool :=
  match s with
  | c :: d :: _ => (c =? 46) && is_digit d
  | _ => false
  end.

Definition starts_exponent (s : list N) : bool :=
  match s with
  | e :: c :: r =>
      ((e =? 101) || (e =? 69)) &&
      (if (c =? 45) || (c =? 43)
       then match r with d :: _ => is_digit d | [] => false end
       else is_digit c)
  | _ => false
  end.

(** The number rule of the scanner, for integers.  Floats are outside the
    embedding: a literal with a fraction or an exponent, which the library
    reads as a float, is answered with [None] here. *)
Definition match_number (s : list N) : option (Z * list N) :=
  let '(neg, s1) :=
    match s with
    | c :: r => if c =? 45 then (true, r) else (false, s)
    | [] => (false, s)
    end in
  let finish (n : N) (r : list N) :=
    if starts_fraction r || starts_exponent r then None
    else Some (if neg then (- Z.of_N n)%Z else Z.of_N n, r) in
  match s1 with
  | [] => None
  | c :: r =>
      if c =? 48 then finish 0 r
      else if is_digit c then let '(n, r') := scan_digits r (c - 48) in finish n r'
      else None
  end.

(** [dict(pairs)] *)
Definition dict_of_pairs (pairs : list (list N * json)) : list (list N * json) :=
  fold_left (fun d kv => dict_set d (fst kv) (snd kv)) pairs [].

Section Containers.

(** The scanner for one value, as [JSONArray] and [JSONObject] receive it. *)
Variable scan_value : list N -> option (json * list N).

(** The loop of [JSONArray], entered at the first character of a value. *)
Fixpoint array_items (fuel : nat) (s : list N) : option (list json * list N) :=
  match fuel with
  | O => None
  | S f =>
      match scan_value s with
      | None => None
      | Some (v, r) =>
          match skip_ws r with
          | [] => None
          | c :: r' =>
              if c =? 93 then Some ([v], r')
              else if c =? 44 then
                match array_items f (skip_ws r') with
                | Some (vs, r'') => Some (v :: vs, r'')
                | None => None
                end
              else None
          end
      end
  end.

(** [JSONArray], entered after the opening bracket. *)
Definition JSONArray (fuel : nat) (s : list N) : option (json * list N) :=
  match skip_ws s with
  | [] => None
  | c :: r =>
      if c =? 93 then Some (JList [], r)
      else match array_items fuel (c :: r) with
           | Some (vs, r') => Some (JList vs, r')
           | None => None
           end
  end.

(** The loop of [JSONObject], entered after the opening quote of a key. *)
Fixpoint object_items (fuel : nat) (s : list N)
  : option (list (list N * json) * list N) :=
  match fuel with
  | O => None
  | S f =>
      match scanstring s with
      | None => None
      | Some (key, r) =>
          match skip_ws r with
          | [] => None
          | c :: r1 =>
              if c =? 58 then
                match scan_value (skip_ws r1) with
                | None => None
                | Some (v, r2) =>
                    match skip_ws r2 with
                    | [] => None
                    | c2 :: r3 =>
                        if c2 =? 125 then Some ([(key, v)], r3)
                        else if c2 =? 44 then
                          match skip_ws r3 with
                          | [] => None
                          | q :: r4 =>
                              if q =? 34 then
                                match object_items f r4 with
                                | Some (kvs, r5) => Some ((key, v) :: kvs, r5)
                                | None => None
                                end
                              else None
                          end
                        else None
                    end
                end
              else None
          end
      end
  end.

(** [JSONObject], entered after the opening brace. *)
Definition JSONObject (fuel : nat) (s : list N) : option (json * list N) :=
  match skip_ws s with
  | [] => None
  | c :: r =>
      if c =? 125 then Some (JDict [], r)
      else if c =? 34 then
        match object_items fuel r with
        | Some (kvs, r') => Some (JDict (dict_of_pairs kvs), r')
        | None => None
        end
      else None
  end.

End Containers.

(** [scan_once]: one value at the head of the text and the text after it.
    [fuel] bounds the nesting depth and the number of members read.  The
    constants [NaN], [Infinity] and [-Infinity], which the library reads
    as floats, are answered with [None] as float literals are. *)
Fixpoint scan_once (fuel : nat) (s : list N) : option (json * list N) :=
  match fuel with
  | O => None
  | S f =>
      match s with
      | [] => None
      | c :: r =>
          if c =? 34 then
            match scanstring r with
            | Some (str, r') => Some (JStr str, r')
            | None => None
            end
          else if c =? 123 then JSONObject (scan_once f) f r
          else if c =? 91 then JSONArray (scan_once f) f r
          else if startswith (py "null") s then Some (JNull, drop 4 s)
          else if startswith (py "true") s then Some (JBool true, drop 4 s)
          else if startswith (py "false") s then Some (JBool false, drop 5 s)
          else
            match match_number s with
            | Some (z, r') => Some (JInt z, r')
            | None => None
            end
      end
  end.

(** [json.loads(text)] on the part of JSON that has no floats: one value
    between optional white space, and nothing after it.  The fuel is more
    than the scanner can use ([json_loads_fuel]).  The decoder is the one
    of the C accelerator (four hexadecimal digits after [\u], ASCII digits
    in numbers).  [Some v]: the text denotes [v].  [None]: the library
    raises, or the text holds a float.  The interpreter's limits on
    nesting depth and on the number of digits of an integer are not
    modelled either.  What the server does with the answer of
    [json.load] is therefore stated for an arbitrary reader
    ([load_alerts_using]); this decoder is the reader of the texts the
    server writes and reads back. *)
Definition json_loads (text : list N) : option json :=
  match scan_once (S (length text)) (skip_ws text) with
  | Some (v, r) =>
      match skip_ws r with
      | [] => Some v
      | _ :: _ => None
      end
  | None => None
  end.

(** ** The application *)

Definition SAVE_DIR : list N := py "received_images".
Definition MSG_FILE : list N := py "messages.txt".
Definition ALERTS_FILE : list N := py "alerts_history.json".

(** [os.path.join(a, b)] on a POSIX system. *)
Definition os_path_join (a b : list N) : list N :=
  if startswith (py "/") b then b
  else match last a with
       | None => b
       | Some c => if c =? 47 then a ++ b else a ++ py "/" ++ b
       end.

Inductive http_method := GET | POST.

(** What a handler reads of the request: [request.method],
    [request.content_type], [request.data], [request.args],
    [request.form] and [request.json].  Reading [request.json] returns
    the parsed body or raises what the framework raises in its place:
    [UnsupportedMediaType] (415) when the content type of the request is
    not JSON, [BadRequest] (400) when the body does not parse. *)
Record request := {
  method : http_method;
  content_type : option (list N);
  data : list Byte.byte;
  args : list (list N * list N);
  form : list (list N * list N);
  json_body : outcome json }.

Definition UnsupportedMediaType : exn := HTTPException 415.
Definition BadRequest : exn := HTTPException 400.

(** [request.json] *)
Definition request_json (request : request) : M json := lift (json_body request).

(** What a handler answers: a text, [jsonify] of an object, [jsonify] of
    the status report of the simulator (it carries a [datetime]), or a
    rendered template.  [ErrorPage] is the page the framework writes for
    an [HTTPException]. *)
Inductive payload :=
| Text (s : list N)
| Jsonify (o : json)
| PowerReport (outcome : list N) (entry : power_entry)
| Template (name : list N)
| ErrorPage.

Record response := { body : payload; status : N }.

Definition device_not_found : response :=
  {| body := Jsonify (JDict [(py "error", JStr (py "Device not found"))]);
     status := 404 |}.

Definition success : response :=
  {| body := Jsonify (JDict [(py "status", JStr (py "success"))]); status := 200 |}.

(** [json.load(f)] on the text of the file, within the part of JSON the
    decoder above covers: the object read, or the exception raised. *)
Definition json_load (text : list N) : outcome json :=
  match json_loads text with
  | Some v => Return v
  | None => Raise ValueError
  end.

(** [load_alerts_from_file], lines 26-35, with [load] in the place of
    [json.load]: what the function does with the answer of the library,
    whatever the library reads and whatever it raises. *)
Definition load_alerts_using (load : list N -> outcome json) : M json :=
  present ← path_exists ALERTS_FILE;
  (if present : bool then
     try_except
       (text ← read_text ALERTS_FILE;
        v ← lift (load text);
        put_alerts v)
       (put_alerts (JList []))
   else mret tt);;
  get_alerts.

(** [load_alerts_from_file], lines 26-35 *)
Definition load_alerts_from_file : M json := load_alerts_using json_load.

(** [save_alerts_to_file], lines 37-40 *)
Definition save_alerts_to_file : M unit :=
  a ← get_alerts;
  write_text ALERTS_FILE (json_dumps a).

(** The state of the process once the module is loaded (lines 7-43):
    the globals are set, then the history is read. *)
Definition module_globals (files : gmap (list N) (list N))
    (blobs : gmap (list N) (list Byte.byte))
    (clock : nat -> datetime) (entropy : nat -> nat) : world :=
  {| alerts := JList [];
     power_status :=
       {[ py "DEV001" :=
            {| main := JBool true; backup := JBool true; last_update := clock O |} ]};
     files := files; blobs := blobs;
     clock := clock; ticks := 1; entropy := entropy; draws := 0 |}.

Definition startup_using (load : list N -> outcome json)
    (files : gmap (list N) (list N))
    (blobs : gmap (list N) (list Byte.byte))
    (clock : nat -> datetime) (entropy : nat -> nat) : world :=
  snd (load_alerts_using load (module_globals files blobs clock entropy)).

Definition startup (files : gmap (list N) (list N))
    (blobs : gmap (list N) (list Byte.byte))
    (clock : nat -> datetime) (entropy : nat -> nat) : world :=
  snd (load_alerts_from_file (module_globals files blobs clock entropy)).

(** [o[key]] for a string key *)
Definition py_getitem (o : json) (key : list N) : M json :=
  match o with
  | JDict d =>
      match list_find (fun kv => fst kv = key) d with
      | Some (_, kv) => mret (snd kv)
      | None => raise KeyError
      end
  | _ => raise TypeError
  end.

(** [x == s] for a string [s] *)
Definition eq_str (x : json) (s : list N) : bool :=
  match x with
  | JStr t => str_eqb t s
  | _ => false
  end.

(** The elements a [for] loop over [o] visits. *)
Definition py_iter (o : json) : M (list json) :=
  match o with
  | JList l => mret l
  | JDict d => mret (map (fun kv => JStr (fst kv)) d)
  | JStr s => mret (map (fun c => JStr [c]) s)
  | JNull | JBool _ | JInt _ => raise TypeError
  end.

Fixpoint filter_device (device_id : list N) (l : list json) : M (list json) :=
  match l with
  | [] => mret []
  | a :: rest =>
      d ← py_getitem a (py "device_id");
      kept ← filter_device device_id rest;
      mret (if eq_str d device_id then a :: kept else kept)
  end.

(** [get_device_alerts], lines 53-57 *)
Definition get_device_alerts (device_id : list N) : M response :=
  a ← get_alerts;
  l ← py_iter a;
  device_alerts ← filter_device device_id l;
  mret {| body := Jsonify (JList device_alerts); status := 200 |}.

(** [get_alerts_history], lines 59-62 *)
Definition get_alerts_history : M response :=
  a ← get_alerts;
  mret {| body := Jsonify a; status := 200 |}.

(** [power_status[key]] *)
Definition get_power_entry (key : list N) : M power_entry := fun w =>
  match power_status w !! key with
  | Some e => (Return e, w)
  | None => (Raise KeyError, w)
  end.

(** The label and the severity of a pair of supplies, lines 74-86. *)
Definition power_state (main backup : json) : list N * list N :=
  if truthy main && truthy backup
  then (py "Normal - Both supplies active", py "success")
  else if negb (truthy main) && truthy backup
  then (py "Running on BACKUP power", py "warning")
  else if truthy main && negb (truthy backup)
  then (py "Main supply active, backup offline", py "info")
  else (py "No Power Available - CRITICAL", py "danger").

Definition on_off (v : json) : json :=
  JStr (if truthy v then py "ON" else py "OFF").

(** [get_power_status], lines 64-95 *)
Definition get_power_status (device_id : list N) : M response :=
  found ← registered (JStr device_id);
  match found with
  | None => mret device_not_found
  | Some key =>
      entry ← get_power_entry key;
      let '(state, state_class) := power_state (main entry) (backup entry) in
      mret {| body := Jsonify (JDict
                [ (py "device_id", JStr device_id);
                  (py "main_supply", on_off (main entry));
                  (py "backup_supply", on_off (backup entry));
                  (py "state", JStr state);
                  (py "state_class", JStr state_class);
                  (py "last_update", JStr (strftime_stamp (last_update entry))) ]);
              status := 200 |}
  end.

(** [update_power_status], lines 97-113 *)
Definition update_power_status (request : request) : M response :=
  device_id ← (o ← request_json request; py_get o (py "device_id"));
  main_supply ← (o ← request_json request; py_get o (py "main_supply"));
  backup_supply ← (o ← request_json request; py_get o (py "backup_supply"));
  found ← registered device_id;
  match found with
  | None => mret device_not_found
  | Some key =>
      t ← now;
      set_power_status key
        {| main := main_supply; backup := backup_supply; last_update := t |};;
      mret success
  end.

Record scenario := { sc_main : bool; sc_backup : bool }.

(** The candidate outcomes of the simulator, lines 124-132. *)
Definition scenarios : list scenario :=
  [ {| sc_main := true; sc_backup := true |};
    {| sc_main := true; sc_backup := true |};
    {| sc_main := true; sc_backup := true |};
    {| sc_main := true; sc_backup := true |};
    {| sc_main := true; sc_backup := true |};
    {| sc_main := true; sc_backup := true |};
    {| sc_main := true; sc_backup := true |} ].

(** The alert dictionary the handlers build: [len(alerts) + 1] is
    computed first, the time is read when the [timestamp] entry is. *)
Definition new_alert (device_id : json) (alert_type message : list N)
    (timestamp : M (list N)) (image : list N) : M json :=
  a ← get_alerts;
  n ← py_len a;
  stamp ← timestamp;
  mret (JDict
    [ (py "id", JInt (n + 1));
      (py "device_id", device_id);
      (py "alert_type", JStr alert_type);
      (py "message", JStr message);
      (py "timestamp", JStr stamp);
      (py "image", JStr image) ]).

Definition stamp_now : M (list N) := t ← now; mret (strftime_stamp t).

(** [simulate_power_change], lines 115-165 *)
Definition simulate_power_change (request : request) : M response :=
  device_id ← (o ← request_json request; py_get o (py "device_id"));
  found ← registered device_id;
  match found with
  | None => mret device_not_found
  | Some key =>
      scenario ← random_choice scenarios;
      t ← now;
      set_power_status key
        {| main := JBool (sc_main scenario); backup := JBool (sc_backup scenario);
           last_update := t |};;
      (if negb (sc_main scenario) && sc_backup scenario then
         alert ← new_alert device_id (py "Power Alert")
                   (py "Main supply failed - Running on BACKUP power")
                   stamp_now (py "placeholder.jpg");
         alerts_append alert;;
         save_alerts_to_file
       else if negb (sc_main scenario) && negb (sc_backup scenario) then
         alert ← new_alert device_id (py "Critical Power Alert")
                   (py "CRITICAL: No Power Available")
                   stamp_now (py "placeholder.jpg");
         alerts_append alert;;
         save_alerts_to_file
       else mret tt);;
      entry ← get_power_entry key;
      mret {| body := PowerReport (py "success") entry; status := 200 |}
  end.

(** [receive_from_esp32], lines 167-247.  The page rendered on GET reads
    the message file and the image directory and changes nothing; its
    template arguments are left out. *)
Definition receive_from_esp32 (request : request) : M response :=
  match method request with
  | POST =>
      if bool_decide (content_type request = Some (py "image/jpeg")) then
        t ← now;
        let fname := strftime_compact t ++ py ".jpg" in
        write_bytes (os_path_join SAVE_DIR fname) (data request);;
        let device_id := multi_get (args request) (py "device_id") (py "UNKNOWN") in
        alert ← new_alert (JStr device_id) (py "Image Captured")
                  (py "Photo captured by device") stamp_now fname;
        alerts_append alert;;
        save_alerts_to_file;;
        mret {| body := Text (py "Image received"); status := 200 |}
      else if bool_decide (content_type request
                           = Some (py "application/x-www-form-urlencoded")) then
        let message := multi_get (form request) (py "message") [] in
        let device_id := multi_get (args request) (py "device_id") (py "UNKNOWN") in
        timestamp ← stamp_now;
        let alert_type := classify_message message in
        alert ← new_alert (JStr device_id) alert_type message
                  (mret timestamp) (py "placeholder.jpg");
        alerts_append alert;;
        save_alerts_to_file;;
        append_text MSG_FILE
          (timestamp ++ py " | " ++ device_id ++ py " | " ++ message ++ [10]);;
        mret {| body := Text (py "Message received"); status := 200 |}
      else
        mret {| body := Text (py "Unsupported Content-Type"); status := 400 |}
  | GET => mret {| body := Template (py "index.html"); status := 200 |}
  end.

(** ** The server: routes, and requests served one after the other *)

Inductive call :=
| Old (r : request)
| UpdatePowerStatus (r : request)
| SimulatePowerChange (r : request)
| GetPowerStatus (device_id : list N)
| GetDeviceAlerts (device_id : list N)
| GetAlertsHistory.

Definition dispatch (c : call) : M response :=
  match c with
  | Old r => receive_from_esp32 r
  | UpdatePowerStatus r => update_power_status r
  | SimulatePowerChange r => simulate_power_change r
  | GetPowerStatus d => get_power_status d
  | GetDeviceAlerts d => get_device_alerts d
  | GetAlertsHistory => get_alerts_history
  end.

(** The answer of the server to an exception that leaves a handler. *)
Definition internal_error : response :=
  {| body := Text (py "Internal Server Error"); status := 500 |}.

(** What the framework answers when an exception leaves a handler: an
    [HTTPException] becomes the response, under its own status code; any
    other exception is answered with status 500. *)
Definition error_response (e : exn) : response :=
  match e with
  | HTTPException code => {| body := ErrorPage; status := code |}
  | _ => internal_error
  end.

Definition serve (c : call) (w : world) : response * world :=
  match dispatch c w with
  | (Return r, w') => (r, w')
  | (Raise e, w') => (error_response e, w')
  end.

Definition run (calls : list call) (w : world) : world :=
  fold_left (fun w c => snd (serve c w)) calls w.

(** The submissions that append an alert: a POST to [/old] with one of
    the two content types the handler knows. *)
Definition creates_alert (c : call) : bool :=
  match c with
  | Old r =>
      match method r with
      | POST =>
          bool_decide (content_type r = Some (py "image/jpeg"))
          || bool_decide (content_type r = Some (py "application/x-www-form-urlencoded"))
      | GET => false
      end
  | _ => false
  end.

(** [a["id"]] of a stored alert, when it has one. *)
Definition alert_id (a : json) : option json :=
  match a with
  | JDict d => snd <$> (snd <$> list_find (fun kv => fst kv = py "id") d)
  | _ => None
  end.

(** The four (label, severity) pairs of section 4.2. *)
Definition power_states : list (list N * list N) :=
  [ (py "Normal - Both supplies active", py "success");
    (py "Running on BACKUP power", py "warning");
    (py "Main supply active, backup offline", py "info");
    (py "No Power Available - CRITICAL", py "danger") ].

(** Messages that match more than one rule of the classifier. *)
Definition msg_access_vibration_door : list N :=
  py "Access status changed. Vibration detected. Door opened".

Definition msg_vibration_denied : list N :=
  py "Vibration detected. ALERT: Access Denied".

Definition msg_vibration_door : list N :=
  py "Vibration detected while Door opened".

Definition msg_denied : list N := py "ALERT: Access Denied at gate 2".

Definition msg_alert_only : list N := py "ALERT: tamper switch".

(** Requests and worlds used as examples. *)
Definition noon : datetime :=
  {| year := 2024; month := 3; day := 7; hour := 12; minute := 0; second := 0;
     microsecond := 0 |}.

Definition fresh_world : world :=
  startup ∅ ∅ (fun _ => noon) (fun n => n).

Definition json_request (o : json) : request :=
  {| method := POST; content_type := Some (py "application/json"); data := [];
     args := []; form := []; json_body := Return o |}.

Definition text_plain_post : request :=
  {| method := POST; content_type := Some (py "text/plain"); data := [];
     args := [(py "device_id", py "DEV001")]; form := [];
     json_body := Raise UnsupportedMediaType |}.

Definition update_dev999 : request :=
  json_request (JDict [ (py "device_id", JStr (py "DEV999"));
                        (py "main_supply", JBool false);
                        (py "backup_supply", JBool true) ]).

Definition update_dev001 : request :=
  json_request (JDict [ (py "device_id", JStr (py "DEV001"));
                        (py "main_supply", JBool false);
                        (py "backup_supply", JBool true) ]).

Definition update_unchecked : request :=
  json_request (JDict [ (py "device_id", JStr (py "DEV001"));
                        (py "main_supply", JStr (py "maybe")) ]).

Definition simulate_dev001 : request :=
  json_request (JDict [ (py "device_id", JStr (py "DEV001")) ]).

Definition image_post : request :=
  {| method := POST; content_type := Some (py "image/jpeg");
     data := [Byte.xff; Byte.xd8; Byte.xff; Byte.xd9];
     args := [(py "device_id", py "DEV001")]; form := [];
     json_body := Raise UnsupportedMediaType |}.

Definition door_post : request :=
  {| method := POST; content_type := Some (py "application/x-www-form-urlencoded");
     data := []; args := [(py "device_id", py "DEV001")];
     form := [(py "message", py "Door opened at front gate")];
     json_body := Raise UnsupportedMediaType |}.

(** The ids [first .. first + n - 1] as stored alerts carry them. *)
Definition id_range (first n : nat) : list (option json) :=
  map (fun i => Some (JInt (Z.of_nat i))) (seq first n).

(** Contents of the history file used as examples. *)
Definition corrupt_history : list N := py "[{oops".

Definition stored_history : list N := json_dumps (alerts (run [Old door_post] fresh_world)).

(** ** Objects whose JSON text reads back as written *)

(** A [str] the encoder and the decoder agree on: every code point is
    below 0x110000, and no high surrogate is directly followed by a low
    surrogate (the encoder writes the two as two escapes, the decoder
    reads two such escapes as one character). *)
Fixpoint text_ok (s : list N) : bool :=
  match s with
  | [] => true
  | c :: r =>
      (c <? 1114112)
      && negb (is_high_surrogate c
               && match r with d :: _ => is_low_surrogate d | [] => false end)
      && text_ok r
  end.

(** All strings are such, and the keys of every dict are distinct (as
    the keys of a Python dict are). *)
Fixpoint json_ok (o : json) : bool :=
  match o with
  | JNull | JBool _ | JInt _ => true
  | JStr s => text_ok s
  | JList items => forallb json_ok items
  | JDict pairs =>
      bool_decide (NoDup (map fst pairs))
      && forallb (fun kv => text_ok (fst kv) && json_ok (snd kv)) pairs
  end.

(** The number of values in an object, itself included. *)
Fixpoint json_size (o : json) : nat :=
  match o with
  | JList items => S (list_sum (map json_size items))
  | JDict pairs => S (list_sum (map (fun kv => json_size (snd kv)) pairs))
  | _ => 1
  end.

(** The text after a high-surrogate escape starts with the escape of a
    low surrogate (or with an escape that cannot be read). *)
Definition pairs_with_low (r : list N) : bool :=
  match r with
  | [] => false
  | bs :: r1 =>
      (bs =? 92) &&
      match r1 with
      | [] => false
      | u :: r2 =>
          (u =? 117) &&
          match r2 with
          | a :: b :: c :: d :: _ =>
              match unhex4 a b c d with
              | Some u2 => is_low_surrogate u2
              | None => true
              end
          | _ => false
          end
      end
  end.

(** What may follow a value in a text the encoder writes: nothing, a
    comma or a newline. *)
Definition delimited (rest : list N) : bool :=
  match rest with
  | [] => true
  | c :: _ => (c =? 44) || (c =? 10)
  end.

Definition digit_value (a c : N) : N := 10 * a + (c - 48).

(** A character a value can start with is neither white space nor one
    of the punctuation marks of lists and dicts. *)
Definition value_head (c : N) : Prop :=
  is_ws c = false /\ c <> 93 /\ c <> 125 /\ c <> 44 /\ c <> 58.

(** The text a request carries in the two fields the handlers store. *)
Definition request_ok (r : request) : bool :=
  text_ok (multi_get (args r) (py "device_id") (py "UNKNOWN"))
  && text_ok (multi_get (form r) (py "message") []).

Definition call_ok (c : call) : bool :=
  match c with
  | Old r => request_ok r
  | _ => true
  end.

(** ** What the decoder can return *)

(** A code point of a text decoded from bytes: a Unicode scalar value. *)
Definition scalar (c : N) : bool :=
  (c <? 55296) || ((57343 <? c) && (c <? 1114112)).

(** How [scanstring] reads the first character [x] of a string from the
    head [k] of the text: as it stands, from a short escape, from one
    [\uXXXX] escape that is not paired with the text [s'] after it, or
    from a surrogate pair. *)
Definition read_as (k : list N) (x : N) (s' : list N) : Prop :=
  (k = [x] /\ x <> 34 /\ x <> 92 /\ 32 <= x)
  \/ (exists e, k = [92; e] /\ e <> 117 /\ unescape e = Some x)
  \/ (exists a b c d,
        k = [92; 117; a; b; c; d] /\ unhex4 a b c d = Some x
        /\ is_high_surrogate x && pairs_with_low s' = false)
  \/ (exists a b c d a2 b2 c2 d2 u1 u2,
        k = [92; 117; a; b; c; d; 92; 117; a2; b2; c2; d2]
        /\ unhex4 a b c d = Some u1 /\ is_high_surrogate u1 = true
        /\ unhex4 a2 b2 c2 d2 = Some u2 /\ is_low_surrogate u2 = true
        /\ x = join_surrogates u1 u2).

(** [rest] is what is left of the text [s] once something was read. *)
Definition consumed (rest s : list N) : Prop :=
  rest `suffix_of` s /\ (length rest < length s)%nat.

(** A text decoded from bytes, as [open(path, "r")] hands it to the
    decoder: a sequence of Unicode scalar values. *)
Definition decoded_text (s : list N) : Prop := Forall (fun c => scalar c = true) s.

(** The history file, when there is one, holds a decoded text. *)
Definition history_decoded (fs : gmap (list N) (list N)) : Prop :=
  forall text, fs !! ALERTS_FILE = Some text -> decoded_text text.

(** A string with a high surrogate directly before a low one, which the
    JSON text does not keep apart. *)
Definition split_pair : json := JStr [55357; 56832].

(** ** Further vocabulary for the routes *)

(** The routes that only read. *)
Definition reads_only (c : call) : bool :=
  match c with
  | Old r => match method r with GET => true | POST => false end
  | GetPowerStatus _ | GetDeviceAlerts _ | GetAlertsHistory => true
  | UpdatePowerStatus _ | SimulatePowerChange _ => false
  end.

Definition is_image_post (r : request) : bool :=
  match method r with
  | POST => bool_decide (content_type r = Some (py "image/jpeg"))
  | GET => false
  end.

Definition is_form_post (r : request) : bool :=
  match method r with
  | POST => bool_decide (content_type r = Some (py "application/x-www-form-urlencoded"))
  | GET => false
  end.

(** How the two power routes answer a request they do not act on: the
    answer of the framework when [request.json] raises (415, 400), 500 for
    a body that is no object or a [device_id] that cannot be hashed, 404
    for any other [device_id] that is not a registered key.  [None]: the
    request is acted on. *)
Definition rejection (w : world) (r : request) : option response :=
  match json_body r with
  | Raise e => Some (error_response e)
  | Return (JDict d) =>
      match dict_get d (py "device_id") JNull with
      | JStr key =>
          match power_status w !! key with
          | Some _ => None
          | None => Some device_not_found
          end
      | JNull | JBool _ | JInt _ => Some device_not_found
      | JList _ | JDict _ => Some internal_error
      end
  | Return _ => Some internal_error
  end.

Definition scalar_body : request := json_request (JInt 7).

(** A request that says it carries JSON and whose body does not parse. *)
Definition malformed_json_post : request :=
  {| method := POST; content_type := Some (py "application/json"); data := [];
     args := []; form := []; json_body := Raise BadRequest |}.

Definition update_list_id : request :=
  json_request (JDict [ (py "device_id", JList [JStr (py "DEV001")]) ]).

Definition update_no_id : request :=
  json_request (JDict [ (py "main_supply", JBool true) ]).

Definition update_words : request :=
  json_request (JDict [ (py "device_id", JStr (py "DEV001"));
                        (py "main_supply", JStr (py "false"));
                        (py "backup_supply", JInt 0) ]).

Definition update_both_off : request :=
  json_request (JDict [ (py "device_id", JStr (py "DEV001"));
                        (py "main_supply", JBool false);
                        (py "backup_supply", JBool false) ]).

Definition get_page : request :=
  {| method := GET; content_type := None; data := []; args := []; form := [];
     json_body := Raise UnsupportedMediaType |}.

(** A server that knows a second device. *)
Definition two_devices : world :=
  with_power_status
    (<[py "DEV002" := {| main := JBool false; backup := JBool true;
                         last_update := noon |}]> (power_status fresh_world))
    fresh_world.

(** The object [get_power_status] answers with for an entry. *)
Definition power_report (device_id : list N) (e : power_entry) : response :=
  {| body := Jsonify (JDict
       [ (py "device_id", JStr device_id);
         (py "main_supply", on_off (main e));
         (py "backup_supply", on_off (backup e));
         (py "state", JStr (fst (power_state (main e) (backup e))));
         (py "state_class", JStr (snd (power_state (main e) (backup e))));
         (py "last_update", JStr (strftime_stamp (last_update e))) ]);
     status := 200 |}.

(** ** What an ingestion request stores *)

(** [request.args.get('device_id', 'UNKNOWN')] and
    [request.form.get("message", "")] *)
Definition device_of_request (r : request) : list N :=
  multi_get (args r) (py "device_id") (py "UNKNOWN").

Definition message_of_request (r : request) : list N :=
  multi_get (form r) (py "message") [].

(** The record of a form message, stored as number [n + 1]. *)
Definition form_alert (r : request) (n : nat) (stamp : list N) : json :=
  JDict
    [ (py "id", JInt (Z.of_nat n + 1));
      (py "device_id", JStr (device_of_request r));
      (py "alert_type", JStr (classify_message (message_of_request r)));
      (py "message", JStr (message_of_request r));
      (py "timestamp", JStr stamp);
      (py "image", JStr (py "placeholder.jpg")) ].

(** The record of an image, stored as number [n + 1]. *)
Definition image_alert (r : request) (n : nat) (stamp fname : list N) : json :=
  JDict
    [ (py "id", JInt (Z.of_nat n + 1));
      (py "device_id", JStr (device_of_request r));
      (py "alert_type", JStr (py "Image Captured"));
      (py "message", JStr (py "Photo captured by device"));
      (py "timestamp", JStr stamp);
      (py "image", JStr fname) ].

(** The line of the message file. *)
Definition audit_line (stamp device message : list N) : list N :=
  stamp ++ py " | " ++ device ++ py " | " ++ message ++ [10].

(** The name an image is saved under. *)
Definition image_name (t : datetime) : list N := strftime_compact t ++ py ".jpg".

(** The store a restart would load from the files. *)
Definition reload (fs : gmap (list N) (list N)) : json :=
  match fs !! ALERTS_FILE with
  | None => JList []
  | Some text =>
      match json_loads text with
      | Some v => v
      | None => JList []
      end
  end.

Definition bare_form_post : request :=
  {| method := POST; content_type := Some (py "application/x-www-form-urlencoded");
     data := []; args := []; form := [];
     json_body := Raise UnsupportedMediaType |}.

Definition second_image_post : request :=
  {| method := POST; content_type := Some (py "image/jpeg");
     data := [Byte.x00; Byte.x01];
     args := [(py "device_id", py "DEV001")]; form := [];
     json_body := Raise UnsupportedMediaType |}.

(** A history file pruned by hand: the second of three records is gone. *)
Definition pruned_history : list N :=
  json_dumps (JList
    [ form_alert door_post 0 (py "2024-03-07 11:00:00");
      form_alert door_post 2 (py "2024-03-07 11:30:00") ]).

Definition pruned_world : world :=
  startup {[ ALERTS_FILE := pruned_history ]} ∅ (fun _ => noon) (fun n => n).

(** A history file that holds an object instead of a list. *)
Definition object_world : world :=
  startup {[ ALERTS_FILE := py "{}" ]} ∅ (fun _ => noon) (fun n => n).

(** The requests that write to the message file. *)
Definition logs_message (c : call) : bool :=
  match c with
  | Old r => is_form_post r
  | _ => false
  end.

(** The text of the message file, empty when there is none. *)
Definition message_log (w : world) : list N := default [] (files w !! MSG_FILE).

(** ** The records of the store *)

Definition alert_keys : list (list N) :=
  [ py "id"; py "device_id"; py "alert_type"; py "message"; py "timestamp";
    py "image" ].

(** The alert types the ingestion route stores. *)
Definition ingested_types : list (list N) := py "Image Captured" :: alert_labels.

Definition is_str (v : json) : bool :=
  match v with JStr _ => true | _ => false end.

(** A record as the ingestion route builds it: the six keys in order, an
    integer id, strings elsewhere, and one of the six alert types. *)
Definition ingested_record (a : json) : bool :=
  match a with
  | JDict d =>
      bool_decide (map fst d = alert_keys)
      && match map snd d with
         | JInt _ :: values => forallb is_str values
         | _ => false
         end
      && match dict_get d (py "alert_type") JNull with
         | JStr t => bool_decide (t ∈ ingested_types)
         | _ => false
         end
  | _ => false
  end.

(** [a["device_id"]] of a record, when it has one. *)
Definition device_id_of (a : json) : option json :=
  match a with
  | JDict d =>
      match list_find (fun kv => fst kv = py "device_id") d with
      | Some (_, kv) => Some (snd kv)
      | None => None
      end
  | _ => None
  end.

(** The test of the list comprehension of [get_device_alerts]. *)
Definition from_device (device_id : list N) (a : json) : bool :=
  match device_id_of a with
  | Some x => eq_str x device_id
  | None => false
  end.

(** A history with a record that has no [device_id]. *)
Definition nameless_world : world :=
  startup {[ ALERTS_FILE :=
               json_dumps (JList [ form_alert door_post 0 (py "2024-03-07 11:00:00");
                                   JDict [(py "id", JInt 2)] ]) ]}
    ∅ (fun _ => noon) (fun n => n).

(** ** The messages of the page served on GET (lines 233-237) *)

(** Reading a text file line by line: every line break of the file is
    read as a newline. *)
Fixpoint translate_newlines (s : list N) : list N :=
  match s with
  | [] => []
  | c :: r =>
      if c =? 13 then
        match r with
        | d :: r' => if d =? 10 then 10 :: translate_newlines r'
                     else 10 :: translate_newlines r
        | [] => [10]
        end
      else c :: translate_newlines r
  end.

(** [f.readlines()]: the lines, each with its newline, the last one
    possibly without. *)
Fixpoint readlines (s : list N) : list (list N) :=
  match s with
  | [] => []
  | c :: r =>
      if c =? 10 then [10] :: readlines r
      else match readlines r with
           | [] => [[c]]
           | line :: lines => (c :: line) :: lines
           end
  end.

(** [c.isspace()] *)
Definition is_space (c : N) : bool :=
  ((9 <=? c) && (c <=? 13)) || ((28 <=? c) && (c <=? 32))
  || (c =? 133) || (c =? 160) || (c =? 5760)
  || ((8192 <=? c) && (c <=? 8202))
  || (c =? 8232) || (c =? 8233) || (c =? 8239) || (c =? 8287) || (c =? 12288).

Fixpoint lstrip (s : list N) : list N :=
  match s with
  | [] => []
  | c :: r => if is_space c then lstrip r else s
  end.

Definition rstrip (s : list N) : list N := rev (lstrip (rev s)).

(** [line.strip()] *)
Definition strip (s : list N) : list N := lstrip (rstrip s).

(** The [messages] handed to the template: the last five lines of the
    message file, newest first, stripped. *)
Definition recent_messages (w : world) : list (list N) :=
  match files w !! MSG_FILE with
  | Some text => take 5 (map strip (rev (readlines (translate_newlines text))))
  | None => []
  end.

(** A text without line breaks. *)
Definition one_line (s : list N) : Prop := Forall (fun c => c <> 10 /\ c <> 13) s.

(** The text of a file made of these lines. *)
Definition lines_text (ls : list (list N)) : list N :=
  concat (map (fun l => l ++ [10]) ls).

Definition two_line_post : request :=
  {| method := POST; content_type := Some (py "application/x-www-form-urlencoded");
     data := []; args := [(py "device_id", py "DEV001")];
     form := [(py "message", py "Door opened" ++ [10] ++ py "2024-01-01 00:00:00 | DEV009 | forged")];
     json_body := Raise UnsupportedMediaType |}.

(** A line of the message file without its newline. *)
Definition audit_entry (stamp device message : list N) : list N :=
  stamp ++ py " | " ++ device ++ py " | " ++ message.

(** A character of a plain ASCII text file: printable, or a newline. *)
Definition plain_ascii (c : N) : Prop := c = 10 \/ 32 <= c <= 126.

Definition unicode_post : request :=
  {| method := POST; content_type := Some (py "application/x-www-form-urlencoded");
     data := []; args := [(py "device_id", py "DEV001")];
     form := [(py "message", py "Door opened " ++ [233; 8364; 128512; 9])];
     json_body := Raise UnsupportedMediaType |}.
(** * Proofs *)

(** ** Facts about substring search *)

Lemma contains_unfold (p s : list N) :
  contains p s =
  startswith p s || match s with [] => false | _ :: s' => contains p s' end.
Proof. destruct s; reflexivity. Qed.

Lemma startswith_app (p s : list N) : startswith p (p ++ s) = true.
Proof.
  induction p as [|a p IH]; simpl; [reflexivity|].
  rewrite N.eqb_refl. exact IH.
Qed.

Lemma startswith_inv (p s : list N) :
  startswith p s = true -> exists post, s = p ++ post.
Proof.
  revert s. induction p as [|a p IH]; intros s H.
  - exists s. reflexivity.
  - destruct s as [|b s]; simpl in H; [discriminate|].
    apply andb_true_iff in H as [Hab Hps].
    apply N.eqb_eq in Hab. subst b.
    destruct (IH _ Hps) as [post ->]. exists post. reflexivity.
Qed.

Lemma contains_substring (p s : list N) :
  contains p s = true <-> substring p s.
Proof.
  split.
  - induction s as [|b s IH]; simpl; intros H.
    + rewrite orb_false_r in H. apply startswith_inv in H as [post ->].
      exists [], post. reflexivity.
    + apply orb_true_iff in H as [H|H].
      * apply startswith_inv in H as [post ->]. exists [], post. reflexivity.
      * destruct (IH H) as (pre & post & ->). exists (b :: pre), post. reflexivity.
  - intros (pre & post & ->). induction pre as [|b pre IH].
    + rewrite contains_unfold. cbn [app]. rewrite startswith_app. reflexivity.
    + cbn [app]. rewrite contains_unfold, IH. apply orb_true_r.
Qed.

Lemma contains_false (p s : list N) :
  contains p s = false <-> ~ substring p s.
Proof.
  rewrite <- contains_substring. destruct (contains p s); split; intros H;
    try reflexivity; try discriminate; try (intros ?; discriminate).
  exfalso. apply H. reflexivity.
Qed.

Lemma substring_app_l (p q s : list N) : substring (p ++ q) s -> substring p s.
Proof.
  intros (pre & post & ->). exists pre, (q ++ post).
  rewrite <- app_assoc. reflexivity.
Qed.

Lemma substring_app_r (p q s : list N) : substring (p ++ q) s -> substring q s.
Proof.
  intros (pre & post & ->). exists (pre ++ p), post.
  rewrite <- !app_assoc. reflexivity.
Qed.

(** ** The message classifier *)

Lemma classify_message_rules (m : list N) :
  classify_message m = first_match classifier_rules (py "General Alert") m.
Proof.
  unfold classify_message, classifier_rules, first_match.
  repeat match goal with |- context [if ?b then _ else _] => destruct b end;
    reflexivity.
Qed.

Lemma classify_message_label (m : list N) : In (classify_message m) alert_labels.
Proof.
  unfold classify_message, alert_labels.
  repeat match goal with |- context [if ?b then _ else _] => destruct b end;
    simpl; tauto.
Qed.

(** C2, as the code has it: the classifier is the first-match evaluation
    of the ordered rule table and always answers one label of the
    taxonomy; a message that contains both "Vibration detected" and "Door
    opened" is a Vibration Alert provided it does not contain "Access
    status changed", which the first rule would catch. *)
Theorem classify_message_first_match (m : list N) :
  classify_message m = first_match classifier_rules (py "General Alert") m
  /\ In (classify_message m) alert_labels
  /\ (substring (py "Vibration detected") m ->
      substring (py "Door opened") m ->
      ~ substring (py "Access status changed") m ->
      classify_message m = py "Vibration Alert").
Proof.
  split; [apply classify_message_rules|].
  split; [apply classify_message_label|].
  intros Hv _ Ha.
  apply contains_substring in Hv. apply contains_false in Ha.
  unfold classify_message. rewrite Ha, Hv. reflexivity.
Qed.

Lemma classify_message_first_match_witness :
  classify_message msg_vibration_door = py "Vibration Alert".
Proof.
  apply (classify_message_first_match msg_vibration_door).
  - apply contains_substring. vm_compute. reflexivity.
  - apply contains_substring. vm_compute. reflexivity.
  - apply contains_false. vm_compute. reflexivity.
Defined.

(** C2 as stated fails: this message contains "Vibration detected" and
    "Door opened" and is an Access Status Change. *)
Lemma classify_vibration_door_not_always :
  substring (py "Vibration detected") msg_access_vibration_door
  /\ substring (py "Door opened") msg_access_vibration_door
  /\ classify_message msg_access_vibration_door = py "Access Status Change"
  /\ classify_message msg_access_vibration_door <> py "Vibration Alert".
Proof.
  repeat split; try (apply contains_substring; vm_compute; reflexivity).
  vm_compute. discriminate.
Qed.

(** C3, as the code has it: a message containing "ALERT: Access Denied" is
    a Critical Alert when neither of the two earlier rules matches it, and
    a message containing "ALERT:" and none of "Access Denied", "Access
    status changed", "Vibration detected", "Door opened" is a General
    Alert. *)
Theorem classify_message_access_denied (m : list N) :
  (substring (py "ALERT: Access Denied") m ->
   ~ substring (py "Access status changed") m ->
   ~ substring (py "Vibration detected") m ->
   classify_message m = py "Critical Alert")
  /\ (substring (py "ALERT:") m ->
      ~ substring (py "Access Denied") m ->
      ~ substring (py "Access status changed") m ->
      ~ substring (py "Vibration detected") m ->
      ~ substring (py "Door opened") m ->
      classify_message m = py "General Alert").
Proof.
  split.
  - intros Hd Ha Hv.
    assert (H1 : substring (py "ALERT:") m)
      by exact (substring_app_l (py "ALERT:") (py " Access Denied") m Hd).
    assert (H2 : substring (py "Access Denied") m)
      by exact (substring_app_r (py "ALERT: ") (py "Access Denied") m Hd).
    apply contains_substring in H1, H2. apply contains_false in Ha, Hv.
    unfold classify_message. rewrite Ha, Hv, H1, H2. reflexivity.
  - intros _ Hd Ha Hv Ho.
    apply contains_false in Hd, Ha, Hv, Ho.
    unfold classify_message. rewrite Ha, Hv, Hd, Ho, andb_false_r. reflexivity.
Qed.

Lemma classify_message_access_denied_witness :
  classify_message msg_denied = py "Critical Alert"
  /\ classify_message msg_alert_only = py "General Alert".
Proof.
  split.
  - apply (classify_message_access_denied msg_denied).
    + apply contains_substring. vm_compute. reflexivity.
    + apply contains_false. vm_compute. reflexivity.
    + apply contains_false. vm_compute. reflexivity.
  - apply (classify_message_access_denied msg_alert_only).
    + apply contains_substring. vm_compute. reflexivity.
    + apply contains_false. vm_compute. reflexivity.
    + apply contains_false. vm_compute. reflexivity.
    + apply contains_false. vm_compute. reflexivity.
    + apply contains_false. vm_compute. reflexivity.
Defined.

(** C3 as stated fails: this message contains "ALERT: Access Denied" and
    is a Vibration Alert. *)
Lemma classify_access_denied_not_always :
  substring (py "ALERT: Access Denied") msg_vibration_denied
  /\ classify_message msg_vibration_denied = py "Vibration Alert"
  /\ classify_message msg_vibration_denied <> py "Critical Alert".
Proof.
  repeat split; try (apply contains_substring; vm_compute; reflexivity).
  vm_compute. discriminate.
Qed.

(** ** Dictionaries *)

Lemma str_eqb_eq (a b : list N) : str_eqb a b = true <-> a = b.
Proof. unfold str_eqb. apply bool_decide_eq_true. Qed.

Lemma str_eqb_refl (a : list N) : str_eqb a a = true.
Proof. apply str_eqb_eq. reflexivity. Qed.

Lemma str_eqb_neq (a b : list N) : a <> b -> str_eqb a b = false.
Proof. unfold str_eqb. apply bool_decide_eq_false_2. Qed.

Lemma dict_get_absent (d : list (list N * json)) (k : list N) (def : json) :
  ~ In k (map fst d) -> dict_get d k def = def.
Proof.
  induction d as [|[k' v'] d IH]; simpl; intros H; [reflexivity|].
  rewrite str_eqb_neq by tauto. apply IH. tauto.
Qed.

Lemma dict_get_In (d : list (list N * json)) (k : list N) (v def : json) :
  NoDup (map fst d) -> In (k, v) d -> dict_get d k def = v.
Proof.
  induction d as [|[k' v'] d IH]; simpl; intros Hnd Hin; [tauto|].
  apply NoDup_cons in Hnd as [Hk' Hnd].
  destruct Hin as [Heq|Hin].
  - inversion Heq; subst. rewrite str_eqb_refl. reflexivity.
  - rewrite str_eqb_neq.
    + apply IH; assumption.
    + intros ->. apply Hk'. apply list_elem_of_In.
      apply (in_map fst) in Hin. exact Hin.
Qed.

(** ** The power-state table and its route *)

(** C4: the four pairs of booleans map to the four (label, severity)
    pairs of the table, whatever is stored the answer is one of these
    four, and the route reports exactly this classification of the
    stored pair without changing the state. *)
Theorem power_state_table :
  power_state (JBool true) (JBool true)
    = (py "Normal - Both supplies active", py "success")
  /\ power_state (JBool false) (JBool true)
    = (py "Running on BACKUP power", py "warning")
  /\ power_state (JBool true) (JBool false)
    = (py "Main supply active, backup offline", py "info")
  /\ power_state (JBool false) (JBool false)
    = (py "No Power Available - CRITICAL", py "danger")
  /\ (forall main backup : json, In (power_state main backup) power_states)
  /\ (forall (w : world) (device_id : list N) (e : power_entry),
        power_status w !! device_id = Some e ->
        serve (GetPowerStatus device_id) w =
        ({| body := Jsonify (JDict
              [ (py "device_id", JStr device_id);
                (py "main_supply", on_off (main e));
                (py "backup_supply", on_off (backup e));
                (py "state", JStr (fst (power_state (main e) (backup e))));
                (py "state_class", JStr (snd (power_state (main e) (backup e))));
                (py "last_update", JStr (strftime_stamp (last_update e))) ]);
            status := 200 |}, w)).
Proof.
  repeat (split; [reflexivity|]).
  split.
  - intros main backup. unfold power_state, power_states.
    destruct (truthy main), (truthy backup); simpl; tauto.
  - intros w device_id e He.
    unfold serve, dispatch, get_power_status, registered, get_power_entry,
      mbind, M_bind, mret, M_ret.
    rewrite He. simpl. rewrite He.
    destruct (power_state (main e) (backup e)). reflexivity.
Qed.

Lemma power_state_table_witness :
  status (fst (serve (GetPowerStatus (py "DEV001")) fresh_world)) = 200.
Proof.
  destruct power_state_table as (_ & _ & _ & _ & _ & H).
  rewrite (H fresh_world (py "DEV001")
             {| main := JBool true; backup := JBool true; last_update := noon |}).
  - reflexivity.
  - vm_compute. reflexivity.
Defined.

(** ** Unsupported content types *)

(** C9: a POST to the ingestion route whose content type is neither
    image/jpeg nor application/x-www-form-urlencoded is answered with
    status 400 and leaves the whole state as it was: alert store,
    power-status map, text files (history and audit log) and image
    files. *)
Theorem unsupported_content_type (r : request) (w : world) :
  method r = POST ->
  content_type r <> Some (py "image/jpeg") ->
  content_type r <> Some (py "application/x-www-form-urlencoded") ->
  serve (Old r) w
    = ({| body := Text (py "Unsupported Content-Type"); status := 400 |}, w)
  /\ alerts (snd (serve (Old r) w)) = alerts w
  /\ power_status (snd (serve (Old r) w)) = power_status w
  /\ files (snd (serve (Old r) w)) = files w
  /\ blobs (snd (serve (Old r) w)) = blobs w.
Proof.
  intros Hm H1 H2.
  assert (E : serve (Old r) w
    = ({| body := Text (py "Unsupported Content-Type"); status := 400 |}, w)).
  { unfold serve, dispatch, receive_from_esp32. rewrite Hm.
    rewrite !bool_decide_eq_false_2 by assumption. reflexivity. }
  rewrite E. repeat split.
Qed.

Lemma unsupported_content_type_witness :
  serve (Old text_plain_post) fresh_world
    = ({| body := Text (py "Unsupported Content-Type"); status := 400 |}, fresh_world).
Proof.
  apply (unsupported_content_type text_plain_post fresh_world).
  - reflexivity.
  - vm_compute. discriminate.
  - vm_compute. discriminate.
Defined.

(** ** Power-status updates *)

Lemma update_power_status_store (r : request) (w : world) :
  alerts (snd (update_power_status r w)) = alerts w
  /\ files (snd (update_power_status r w)) = files w
  /\ blobs (snd (update_power_status r w)) = blobs w.
Proof.
  unfold update_power_status, request_json, lift, py_get, registered, mbind, M_bind,
    mret, M_ret.
  destruct (json_body r) as [[| | | |l|d]|e]; simpl; auto.
  destruct (dict_get d (py "device_id") JNull) as [| | |s|l|d']; simpl; auto.
  destruct (power_status w !! s); simpl; auto.
Qed.

Lemma serve_snd (c : call) (w : world) : snd (serve c w) = snd (dispatch c w).
Proof. unfold serve. destruct (dispatch c w) as [[a|e] w']; reflexivity. Qed.

Lemma update_power_status_ok (r : request) (w : world)
    (d : list (list N * json)) (key : list N) :
  json_body r = Return (JDict d) ->
  dict_get d (py "device_id") JNull = JStr key ->
  is_Some (power_status w !! key) ->
  serve (UpdatePowerStatus r) w =
  (success,
   with_power_status
     (<[key := {| main := dict_get d (py "main_supply") JNull;
                  backup := dict_get d (py "backup_supply") JNull;
                  last_update := clock w (ticks w) |}]> (power_status w))
     (with_ticks (S (ticks w)) w)).
Proof.
  intros Hb Hd [e He].
  unfold serve, dispatch, update_power_status, request_json, lift, py_get, registered,
    mbind, M_bind, mret, M_ret.
  rewrite Hb, Hd, He. reflexivity.
Qed.

(** C6: an update that names an unregistered device is answered with
    404 and leaves the state as it was; one that names a registered
    device is answered with success, replaces both supply values and the
    time of the last update in one assignment, and appends no alert. *)
Theorem update_power_status_not_found_or_stored (r : request) (w : world)
    (d : list (list N * json)) (key : list N) :
  json_body r = Return (JDict d) ->
  dict_get d (py "device_id") JNull = JStr key ->
  (power_status w !! key = None ->
     serve (UpdatePowerStatus r) w = (device_not_found, w)
     /\ status device_not_found = 404)
  /\ (is_Some (power_status w !! key) ->
      let w' := snd (serve (UpdatePowerStatus r) w) in
      fst (serve (UpdatePowerStatus r) w) = success
      /\ status success = 200
      /\ power_status w'
         = <[key := {| main := dict_get d (py "main_supply") JNull;
                       backup := dict_get d (py "backup_supply") JNull;
                       last_update := clock w (ticks w) |}]> (power_status w)
      /\ alerts w' = alerts w /\ files w' = files w /\ blobs w' = blobs w).
Proof.
  intros Hb Hd. split.
  - intros Hk. split; [|reflexivity].
    unfold serve, dispatch, update_power_status, request_json, lift, py_get, registered,
      mbind, M_bind, mret, M_ret.
    rewrite Hb, Hd, Hk. reflexivity.
  - intros Hk. cbv zeta.
    rewrite (update_power_status_ok r w d key Hb Hd Hk).
    repeat split.
Qed.

Lemma update_power_status_not_found_or_stored_witness :
  serve (UpdatePowerStatus update_dev999) fresh_world = (device_not_found, fresh_world)
  /\ fst (serve (UpdatePowerStatus update_dev001) fresh_world) = success.
Proof.
  split.
  - apply (update_power_status_not_found_or_stored update_dev999 fresh_world
             _ (py "DEV999") eq_refl eq_refl).
    vm_compute. reflexivity.
  - apply (update_power_status_not_found_or_stored update_dev001 fresh_world
             _ (py "DEV001") eq_refl eq_refl).
    vm_compute. eexists. reflexivity.
Defined.

(** C10: an accepted update stores the two supply values exactly as the
    body gives them, whatever their type, and [None] for a field the
    body does not have. *)
Theorem update_power_status_stores_verbatim (r : request) (w : world)
    (d : list (list N * json)) (key : list N) :
  json_body r = Return (JDict d) ->
  NoDup (map fst d) ->
  dict_get d (py "device_id") JNull = JStr key ->
  is_Some (power_status w !! key) ->
  exists e,
    power_status (snd (serve (UpdatePowerStatus r) w)) !! key = Some e
    /\ (forall v, In (py "main_supply", v) d -> main e = v)
    /\ (forall v, In (py "backup_supply", v) d -> backup e = v)
    /\ (~ In (py "main_supply") (map fst d) -> main e = JNull)
    /\ (~ In (py "backup_supply") (map fst d) -> backup e = JNull).
Proof.
  intros Hb Hnd Hd Hk.
  rewrite (update_power_status_ok r w d key Hb Hd Hk). simpl.
  eexists. split; [apply lookup_insert_eq|]. simpl.
  repeat split; intros; auto using dict_get_In, dict_get_absent.
Qed.

Lemma update_power_status_stores_verbatim_witness :
  exists e,
    power_status (snd (serve (UpdatePowerStatus update_unchecked) fresh_world))
      !! py "DEV001" = Some e
    /\ main e = JStr (py "maybe") /\ backup e = JNull.
Proof.
  destruct (update_power_status_stores_verbatim update_unchecked fresh_world
              _ (py "DEV001") eq_refl) as (e & He & Hm & _ & _ & Hb).
  - vm_compute. repeat constructor; rewrite list_elem_of_In; simpl; intuition discriminate.
  - reflexivity.
  - vm_compute. eexists. reflexivity.
  - exists e. split; [exact He|]. split.
    + apply Hm. simpl. tauto.
    + apply Hb. simpl. intuition discriminate.
Defined.
Lemma scenarios_all (i : nat) :
  (i < 7)%nat -> scenarios !! i = Some {| sc_main := true; sc_backup := true |}.
Proof.
  intros H. do 7 (destruct i as [|i]; [reflexivity|]). lia.
Qed.

Lemma random_choice_scenarios (w : world) :
  random_choice scenarios w
  = (Return {| sc_main := true; sc_backup := true |}, with_draws (S (draws w)) w).
Proof.
  unfold random_choice. rewrite scenarios_all; [reflexivity|].
  apply Nat.mod_upper_bound. discriminate.
Qed.

Lemma simulate_power_change_ok (r : request) (w : world)
    (d : list (list N * json)) (key : list N) :
  json_body r = Return (JDict d) ->
  dict_get d (py "device_id") JNull = JStr key ->
  is_Some (power_status w !! key) ->
  let e := {| main := JBool true; backup := JBool true;
              last_update := clock w (ticks w) |} in
  simulate_power_change r w =
  (Return {| body := PowerReport (py "success") e; status := 200 |},
   with_power_status (<[key := e]> (power_status w))
     (with_ticks (S (ticks w)) (with_draws (S (draws w)) w))).
Proof.
  intros Hb Hd [e0 He0] e.
  unfold simulate_power_change, request_json, lift, py_get, registered, mbind, M_bind, mret, M_ret.
  rewrite Hb, Hd, He0. simpl.
  rewrite random_choice_scenarios. simpl.
  unfold get_power_entry. simpl. rewrite lookup_insert_eq. reflexivity.
Qed.

Lemma simulate_power_change_store (r : request) (w : world) :
  alerts (snd (simulate_power_change r w)) = alerts w
  /\ files (snd (simulate_power_change r w)) = files w
  /\ blobs (snd (simulate_power_change r w)) = blobs w.
Proof.
  unfold simulate_power_change, request_json, lift, py_get, registered, mbind, M_bind,
    mret, M_ret.
  destruct (json_body r) as [[| | | |l|d]|e]; simpl; auto.
  destruct (dict_get d (py "device_id") JNull) as [| | |s|l|d']; simpl; auto.
  destruct (power_status w !! s); simpl; auto.
  rewrite random_choice_scenarios. simpl.
  unfold get_power_entry. simpl. rewrite lookup_insert_eq. simpl. auto.
Qed.

(** C5: whatever the random generator answers, the draw is the outcome
    with both supplies on; a run of the simulator for a registered device
    leaves that device with both supplies on, and a run of the simulator
    never changes the alert store or the history file. *)
Theorem simulate_power_change_both_active (r : request) (w : world) :
  fst (random_choice scenarios w) = Return {| sc_main := true; sc_backup := true |}
  /\ alerts (snd (serve (SimulatePowerChange r) w)) = alerts w
  /\ files (snd (serve (SimulatePowerChange r) w)) = files w
  /\ (forall (d : list (list N * json)) (key : list N),
        json_body r = Return (JDict d) ->
        dict_get d (py "device_id") JNull = JStr key ->
        is_Some (power_status w !! key) ->
        status (fst (serve (SimulatePowerChange r) w)) = 200
        /\ power_status (snd (serve (SimulatePowerChange r) w)) !! key
           = Some {| main := JBool true; backup := JBool true;
                     last_update := clock w (ticks w) |}).
Proof.
  split; [rewrite random_choice_scenarios; reflexivity|].
  rewrite serve_snd. simpl dispatch.
  destruct (simulate_power_change_store r w) as (Ha & Hf & _).
  split; [exact Ha|]. split; [exact Hf|].
  intros d key Hb Hd Hk.
  unfold serve. simpl dispatch.
  rewrite (simulate_power_change_ok r w d key Hb Hd Hk). simpl.
  split; [reflexivity|]. apply lookup_insert_eq.
Qed.

Lemma simulate_power_change_both_active_witness :
  power_status (snd (serve (SimulatePowerChange simulate_dev001) fresh_world))
    !! py "DEV001"
  = Some {| main := JBool true; backup := JBool true; last_update := noon |}.
Proof.
  destruct (simulate_power_change_both_active simulate_dev001 fresh_world)
    as (_ & _ & _ & H).
  apply (H _ (py "DEV001") eq_refl eq_refl).
  vm_compute. eexists. reflexivity.
Defined.

(** ** The alert store under a sequence of requests *)

Lemma filter_device_world (device_id : list N) (l : list json) (w : world) :
  snd (filter_device device_id l w) = w.
Proof.
  induction l as [|a l IH]; [reflexivity|].
  simpl. unfold mbind, M_bind.
  destruct (py_getitem a (py "device_id") w) as [[x|e] w1] eqn:E1.
  - assert (w1 = w) as ->.
    { unfold py_getitem in E1. destruct a; try (inversion E1; reflexivity).
      destruct (list_find _ pairs) as [[? ?]|]; inversion E1; reflexivity. }
    destruct (filter_device device_id l w) as [[k|e] w2]; simpl in *; congruence.
  - unfold py_getitem in E1. destruct a; try (inversion E1; reflexivity).
    destruct (list_find _ pairs) as [[? ?]|]; inversion E1; reflexivity.
Qed.

Lemma read_routes_world (c : call) (w : world) :
  match c with
  | GetPowerStatus _ | GetDeviceAlerts _ | GetAlertsHistory => snd (dispatch c w) = w
  | _ => True
  end.
Proof.
  destruct c; try exact I; simpl.
  - unfold get_power_status, registered, get_power_entry, mbind, M_bind, mret, M_ret.
    destruct (power_status w !! device_id) eqn:E; simpl; [|reflexivity].
    rewrite E. destruct (power_state _ _). reflexivity.
  - unfold get_device_alerts, get_alerts, mbind, M_bind, mret, M_ret.
    destruct (py_iter (alerts w) w) as [[l|e] w1] eqn:E1.
    + assert (w1 = w) as ->.
      { unfold py_iter in E1. destruct (alerts w); inversion E1; reflexivity. }
      pose proof (filter_device_world device_id l w) as Hf.
      destruct (filter_device device_id l w) as [[k|e] w2]; simpl in *; congruence.
    + unfold py_iter in E1. destruct (alerts w); inversion E1; reflexivity.
  - reflexivity.
Qed.

#[local] Opaque json_dumps strftime_stamp strftime_compact classify_message
  os_path_join multi_get.

(** One request: a submission to the ingestion route appends one alert
    whose id is the number of stored alerts plus one; no other request
    touches the store. *)
Lemma serve_alerts (c : call) (w : world) (l : list json) :
  alerts w = JList l ->
  if creates_alert c
  then exists a, alerts (snd (serve c w)) = JList (l ++ [a])
                 /\ alert_id a = Some (JInt (Z.of_nat (length l) + 1))
  else alerts (snd (serve c w)) = JList l.
Proof.
  intros Hl. rewrite serve_snd.
  destruct c as [r|r|r|d|d|].
  - simpl. unfold receive_from_esp32. destruct (method r); [exact Hl|].
    destruct w as [a p f b c t e d]. simpl in Hl. subst a.
    destruct (bool_decide (content_type r = Some (py "image/jpeg"))) eqn:E1.
    + simpl. eexists. split; reflexivity.
    + destruct (bool_decide (content_type r
                  = Some (py "application/x-www-form-urlencoded"))) eqn:E2.
      * simpl. eexists. split; reflexivity.
      * reflexivity.
  - simpl. destruct (update_power_status_store r w) as (-> & _). exact Hl.
  - simpl. destruct (simulate_power_change_store r w) as (-> & _). exact Hl.
  - pose proof (read_routes_world (GetPowerStatus d) w) as H. simpl in H.
    simpl. rewrite H. exact Hl.
  - pose proof (read_routes_world (GetDeviceAlerts d) w) as H. simpl in H.
    simpl. rewrite H. exact Hl.
  - exact Hl.
Qed.

#[local] Transparent json_dumps strftime_stamp strftime_compact classify_message
  os_path_join multi_get.

Lemma id_range_cons (first n : nat) :
  id_range first (S n) = Some (JInt (Z.of_nat first)) :: id_range (S first) n.
Proof. reflexivity. Qed.

Lemma run_alerts (calls : list call) :
  forall (w : world) (l : list json),
    alerts w = JList l ->
    exists new,
      alerts (run calls w) = JList (l ++ new)
      /\ length new = length (List.filter creates_alert calls)
      /\ map alert_id new = id_range (S (length l)) (length new).
Proof.
  induction calls as [|c calls IH]; intros w l Hl.
  - exists []. rewrite app_nil_r. auto.
  - pose proof (serve_alerts c w l Hl) as Hc.
    change (run (c :: calls) w) with (run calls (snd (serve c w))).
    simpl List.filter. destruct (creates_alert c).
    + destruct Hc as (a & Ha & Hid).
      destruct (IH _ _ Ha) as (new & Hrun & Hlen & Hids).
      exists (a :: new). rewrite Hrun, <- app_assoc. split; [reflexivity|].
      split; [simpl; congruence|].
      simpl length. rewrite id_range_cons. simpl map. rewrite Hid, Hids.
      rewrite length_app. simpl length.
      replace (Z.of_nat (length l) + 1)%Z with (Z.of_nat (S (length l))) by lia.
      replace (length l + 1)%nat with (S (length l)) by lia. reflexivity.
    + destruct (IH _ _ Hc) as (new & Hrun & Hlen & Hids).
      exists new. auto.
Qed.

Lemma id_range_NoDup (first n : nat) : NoDup (id_range first n).
Proof.
  unfold id_range.
  assert (Hinj : Inj eq eq (fun i : nat => Some (JInt (Z.of_nat i)))).
  { intros i j H. inversion H. lia. }
  apply (NoDup_fmap_2 _). apply NoDup_seq.
Qed.

(** C1: served one after the other from an empty store, N submissions
    that create an alert (image or form posts to the ingestion route;
    the simulator never emits one) among any other requests leave a store
    of exactly N alerts whose ids are 1, 2, ..., N in this order, each
    once; every append takes the number of stored alerts plus one. *)
Theorem alert_ids_dense (calls : list call) (w : world) :
  alerts w = JList [] ->
  exists l,
    alerts (run calls w) = JList l
    /\ length l = length (List.filter creates_alert calls)
    /\ map alert_id l = id_range 1 (length l)
    /\ NoDup (map alert_id l).
Proof.
  intros Hw. destruct (run_alerts calls w [] Hw) as (new & Hrun & Hlen & Hids).
  exists new. simpl in Hrun, Hids.
  repeat split; try assumption. rewrite Hids. apply id_range_NoDup.
Qed.

Lemma alert_ids_dense_witness :
  exists l,
    alerts (run [Old door_post; SimulatePowerChange simulate_dev001;
                 Old image_post; Old text_plain_post; Old door_post] fresh_world)
      = JList l
    /\ length l = 3%nat
    /\ map alert_id l = [Some (JInt 1); Some (JInt 2); Some (JInt 3)].
Proof.
  destruct (alert_ids_dense
              [Old door_post; SimulatePowerChange simulate_dev001;
               Old image_post; Old text_plain_post; Old door_post] fresh_world)
    as (l & Hl & Hlen & Hids & _).
  - reflexivity.
  - exists l. split; [exact Hl|]. split; [exact Hlen|].
    rewrite Hids, Hlen. reflexivity.
Defined.

(** ** Loading the history *)

(** The answer and the effect of the load: the store is replaced when
    there is a file, by what the library read or by the empty list, and
    nothing else changes. *)
Lemma load_alerts_using_run (load : list N -> outcome json) (w : world) :
  load_alerts_using load w
  = match files w !! ALERTS_FILE with
    | None => (Return (alerts w), w)
    | Some text =>
        match load text with
        | Return v => (Return v, with_alerts v w)
        | Raise _ => (Return (JList []), with_alerts (JList []) w)
        end
    end.
Proof.
  unfold load_alerts_using, path_exists, read_text, try_except, put_alerts,
    get_alerts, lift, mbind, M_bind, mret, M_ret.
  destruct (files w !! ALERTS_FILE) as [text|] eqn:E; simpl; [|reflexivity].
  rewrite E. destruct (load text); reflexivity.
Qed.

Lemma startup_using_world (load : list N -> outcome json)
    (fs : gmap (list N) (list N)) (bs : gmap (list N) (list Byte.byte))
    (clk : nat -> datetime) (ent : nat -> nat) :
  startup_using load fs bs clk ent
  = with_alerts
      match fs !! ALERTS_FILE with
      | None => JList []
      | Some text =>
          match load text with
          | Return v => v
          | Raise _ => JList []
          end
      end
      (module_globals fs bs clk ent).
Proof.
  unfold startup_using. rewrite load_alerts_using_run. cbn [files module_globals].
  destruct (fs !! ALERTS_FILE) as [text|]; [|reflexivity].
  destruct (load text); reflexivity.
Qed.

Lemma load_alerts_from_file_run (w : world) :
  load_alerts_from_file w
  = match files w !! ALERTS_FILE with
    | None => (Return (alerts w), w)
    | Some text =>
        match json_loads text with
        | Some v => (Return v, with_alerts v w)
        | None => (Return (JList []), with_alerts (JList []) w)
        end
    end.
Proof.
  unfold load_alerts_from_file. rewrite load_alerts_using_run.
  destruct (files w !! ALERTS_FILE) as [text|]; [|reflexivity].
  unfold json_load. destruct (json_loads text); reflexivity.
Qed.

Lemma load_alerts_from_file_returns (w : world) :
  fst (load_alerts_from_file w) = Return (alerts (snd (load_alerts_from_file w))).
Proof.
  rewrite load_alerts_from_file_run.
  destruct (files w !! ALERTS_FILE) as [text|]; [|reflexivity].
  destruct (json_loads text); reflexivity.
Qed.

Lemma startup_alerts (fs : gmap (list N) (list N))
    (bs : gmap (list N) (list Byte.byte))
    (clk : nat -> datetime) (ent : nat -> nat) :
  alerts (startup fs bs clk ent)
  = match fs !! ALERTS_FILE with
    | None => JList []
    | Some text =>
        match json_loads text with
        | Some v => v
        | None => JList []
        end
    end.
Proof.
  unfold startup. rewrite load_alerts_from_file_run. cbn [files module_globals].
  destruct (fs !! ALERTS_FILE) as [text|]; [|reflexivity].
  destruct (json_loads text); reflexivity.
Qed.

(** C7: at startup the load never raises and touches nothing but the
    store.  With no history file the store is the empty list; with a
    file on which [json.load] raises, whatever the exception, it is the
    empty list; with a file [json.load] reads it is the object read.
    This holds whatever [json.load] is: the statement is about lines
    26-35, not about the library. *)
Theorem load_alerts_at_startup (load : list N -> outcome json)
    (fs : gmap (list N) (list N)) (bs : gmap (list N) (list Byte.byte))
    (clk : nat -> datetime) (ent : nat -> nat) :
  fst (load_alerts_using load (module_globals fs bs clk ent))
    = Return (alerts (startup_using load fs bs clk ent))
  /\ startup_using load fs bs clk ent
     = with_alerts (alerts (startup_using load fs bs clk ent))
         (module_globals fs bs clk ent)
  /\ (fs !! ALERTS_FILE = None ->
        alerts (startup_using load fs bs clk ent) = JList [])
  /\ (forall text e, fs !! ALERTS_FILE = Some text -> load text = Raise e ->
        alerts (startup_using load fs bs clk ent) = JList [])
  /\ (forall text v, fs !! ALERTS_FILE = Some text -> load text = Return v ->
        alerts (startup_using load fs bs clk ent) = v).
Proof.
  split.
  { unfold startup_using. rewrite load_alerts_using_run. cbn [files module_globals].
    destruct (fs !! ALERTS_FILE) as [text|]; [|reflexivity].
    destruct (load text); reflexivity. }
  rewrite startup_using_world. cbn [alerts with_alerts].
  split; [reflexivity|]. repeat split.
  - intros ->. reflexivity.
  - intros text e -> ->. reflexivity.
  - intros text v -> ->. reflexivity.
Qed.

Lemma load_alerts_at_startup_witness :
  alerts (startup_using json_load ∅ ∅ (fun _ => noon) (fun n => n)) = JList []
  /\ alerts (startup_using json_load {[ ALERTS_FILE := corrupt_history ]} ∅
               (fun _ => noon) (fun n => n))
     = JList []
  /\ alerts (startup_using json_load {[ ALERTS_FILE := stored_history ]} ∅
               (fun _ => noon) (fun n => n))
     = alerts (run [Old door_post] fresh_world).
Proof.
  split; [|split].
  - destruct (load_alerts_at_startup json_load ∅ ∅ (fun _ => noon) (fun n => n))
      as (_ & _ & H & _).
    apply H. reflexivity.
  - destruct (load_alerts_at_startup json_load {[ ALERTS_FILE := corrupt_history ]} ∅
                (fun _ => noon) (fun n => n)) as (_ & _ & _ & H & _).
    apply (H corrupt_history ValueError).
    + vm_compute. reflexivity.
    + vm_compute. reflexivity.
  - destruct (load_alerts_at_startup json_load {[ ALERTS_FILE := stored_history ]} ∅
                (fun _ => noon) (fun n => n)) as (_ & _ & _ & _ & H).
    apply (H stored_history).
    + vm_compute. reflexivity.
    + vm_compute. reflexivity.
Defined.

(** ** Writing and reading strings *)

Lemma hex4_value (n : N) : n < 65536 ->
  ((n / 4096 mod 16 * 16 + n / 256 mod 16) * 16 + n / 16 mod 16) * 16 + n mod 16 = n.
Proof.
  intros H.
  change 4096 with (16 * 16 * 16). change 256 with (16 * 16).
  rewrite <- !N.Div0.div_div.
  pose proof (N.div_mod n 16). pose proof (N.div_mod (n / 16) 16).
  pose proof (N.div_mod (n / 16 / 16) 16).
  pose proof (N.mod_small (n / 16 / 16 / 16) 16).
  pose proof (N.Div0.div_lt_upper_bound n 16 4096).
  pose proof (N.Div0.div_lt_upper_bound (n / 16) 16 256).
  pose proof (N.Div0.div_lt_upper_bound (n / 16 / 16) 16 16).
  lia.
Qed.

Lemma hexdigit_unhex (d : N) : d < 16 -> unhex (hexdigit d) = Some d.
Proof.
  intros H. unfold unhex, hexdigit, is_digit.
  destruct (d <? 10) eqn:E.
  - apply N.ltb_lt in E.
    replace (48 <=? 48 + d) with true by (symmetry; apply N.leb_le; lia).
    replace (48 + d <=? 57) with true by (symmetry; apply N.leb_le; lia).
    simpl. f_equal. lia.
  - apply N.ltb_ge in E.
    replace (87 + d <=? 57) with false by (symmetry; apply N.leb_gt; lia).
    rewrite andb_false_r.
    replace (97 <=? 87 + d) with true by (symmetry; apply N.leb_le; lia).
    replace (87 + d <=? 102) with true by (symmetry; apply N.leb_le; lia).
    simpl. f_equal. lia.
Qed.

Lemma unhex4_hex4 (n : N) : n < 65536 ->
  unhex4 (hexdigit (n / 4096 mod 16)) (hexdigit (n / 256 mod 16))
         (hexdigit (n / 16 mod 16)) (hexdigit (n mod 16)) = Some n.
Proof.
  intros H. unfold unhex4.
  rewrite !hexdigit_unhex by (apply N.mod_lt; discriminate).
  f_equal. apply hex4_value. exact H.
Qed.

Lemma lor_shiftl_low (hi lo k : N) :
  lo < 2 ^ k -> N.lor (N.shiftl hi k) lo = hi * 2 ^ k + lo.
Proof.
  intros H.
  assert (Hland : N.land (N.shiftl hi k) lo = 0).
  { apply N.bits_inj. intros i. rewrite N.land_spec, N.bits_0.
    destruct (N.lt_ge_cases i k) as [Hi|Hi].
    - rewrite N.shiftl_spec_low by exact Hi. reflexivity.
    - rewrite <- (N.mod_small lo (2 ^ k)) by exact H.
      rewrite N.mod_pow2_bits_high by exact Hi. apply andb_false_r. }
  rewrite <- N.lxor_lor by exact Hland.
  rewrite <- N.add_nocarry_lxor by exact Hland.
  rewrite N.shiftl_mul_pow2. reflexivity.
Qed.

(** The two halves of a character above the basic plane. *)
Lemma surrogate_pair (c : N) :
  65536 <= c -> c < 1114112 ->
  let n := c - 65536 in
  let s1 := N.lor 55296 (N.land (N.shiftr n 10) 1023) in
  let s2 := N.lor 56320 (N.land n 1023) in
  s1 < 65536 /\ s2 < 65536
  /\ is_high_surrogate s1 = true /\ is_low_surrogate s2 = true
  /\ join_surrogates s1 s2 = c.
Proof.
  intros Hlo Hhi n s1 s2.
  assert (Hn : n < 1048576) by (unfold n; lia).
  assert (Hc : c = n + 65536) by (unfold n; lia).
  clearbody n.
  assert (Hq : n / 1024 < 1024)
    by (apply N.Div0.div_lt_upper_bound; exact Hn).
  assert (Hr : n mod 1024 < 1024) by (apply N.mod_lt; discriminate).
  assert (Hdm : n = 1024 * (n / 1024) + n mod 1024)
    by (apply N.div_mod; discriminate).
  assert (E1 : s1 = 55296 + n / 1024).
  { unfold s1. change 1023 with (N.ones 10). rewrite N.land_ones.
    rewrite N.shiftr_div_pow2. change (2 ^ 10) with 1024.
    rewrite (N.mod_small _ _ Hq).
    change 55296 with (N.shiftl 54 10) at 1.
    rewrite lor_shiftl_low by exact Hq. reflexivity. }
  assert (E2 : s2 = 56320 + n mod 1024).
  { unfold s2. change 1023 with (N.ones 10). rewrite N.land_ones.
    change (2 ^ 10) with 1024.
    change 56320 with (N.shiftl 55 10) at 1.
    rewrite lor_shiftl_low by exact Hr. reflexivity. }
  clearbody s1 s2. subst s1 s2.
  unfold is_high_surrogate, is_low_surrogate, join_surrogates.
  set (q := n / 1024) in *. set (r := n mod 1024) in *. clearbody q r.
  replace (55296 + q - 55296) with q by lia.
  replace (56320 + r - 56320) with r by lia.
  rewrite lor_shiftl_low by exact Hr. change (2 ^ 10) with 1024.
  split; [lia|]. split; [lia|].
  split; [apply andb_true_iff; split; apply N.leb_le; lia|].
  split; [apply andb_true_iff; split; apply N.leb_le; lia|].
  lia.
Qed.

(** One step of [scanstring], case by case. *)

Lemma scanstring_quote (r : list N) : scanstring (34 :: r) = Some ([], r).
Proof. reflexivity. Qed.

Lemma scanstring_plain (c : N) (r : list N) :
  c <> 34 -> c <> 92 -> 32 <= c ->
  scanstring (c :: r) = cons_char c (scanstring r).
Proof.
  intros H1 H2 H3. cbn [scanstring].
  apply N.eqb_neq in H1, H2. rewrite H1, H2.
  replace (c <? 32) with false by (symmetry; apply N.ltb_ge; exact H3).
  reflexivity.
Qed.

Lemma scanstring_short (e ch : N) (r : list N) :
  e <> 117 -> unescape e = Some ch ->
  scanstring (92 :: e :: r) = cons_char ch (scanstring r).
Proof.
  intros H1 H2. cbn [scanstring]. change (92 =? 34) with false.
  change (92 =? 92) with true. cbv iota.
  apply N.eqb_neq in H1. rewrite H1, H2. reflexivity.
Qed.

Lemma scanstring_escape (a b c d uni : N) (r : list N) :
  unhex4 a b c d = Some uni ->
  is_high_surrogate uni && pairs_with_low r = false ->
  scanstring (92 :: 117 :: a :: b :: c :: d :: r) = cons_char uni (scanstring r).
Proof.
  intros Hu Hp. cbn [scanstring]. change (92 =? 34) with false.
  change (92 =? 92) with true. change (117 =? 117) with true. cbv iota.
  rewrite Hu. destruct (is_high_surrogate uni); [|reflexivity].
  simpl in Hp. unfold pairs_with_low in Hp.
  destruct r as [|bs [|u [|a2 [|b2 [|c2 [|d2 r3]]]]]]; try reflexivity.
  destruct (bs =? 92); [|reflexivity].
  destruct (u =? 117); [|reflexivity].
  simpl in Hp. simpl andb. cbv iota.
  destruct (unhex4 a2 b2 c2 d2); [|discriminate].
  rewrite Hp. reflexivity.
Qed.

Lemma scanstring_pair (a b c d a2 b2 c2 d2 u1 u2 : N) (r : list N) :
  unhex4 a b c d = Some u1 -> is_high_surrogate u1 = true ->
  unhex4 a2 b2 c2 d2 = Some u2 -> is_low_surrogate u2 = true ->
  scanstring (92 :: 117 :: a :: b :: c :: d :: 92 :: 117 :: a2 :: b2 :: c2 :: d2 :: r)
  = cons_char (join_surrogates u1 u2) (scanstring r).
Proof.
  intros H1 Hh H2 Hl. cbn [scanstring]. change (92 =? 34) with false.
  change (92 =? 92) with true. change (117 =? 117) with true. cbv iota.
  rewrite H1, Hh. simpl andb. cbv iota. rewrite H2, Hl. reflexivity.
Qed.

Ltac split_test c k :=
  let E := fresh "E" in
  destruct (c =? k) eqn:E;
  [apply N.eqb_eq in E; subst c | apply N.eqb_neq in E].

(** Reading back the escape of one character. *)
Lemma scanstring_char (c : N) (tail : list N) :
  c < 1114112 ->
  is_high_surrogate c && pairs_with_low tail = false ->
  scanstring (ascii_escape c ++ tail) = cons_char c (scanstring tail).
Proof.
  intros Hc Hp. unfold ascii_escape.
  split_test c 34; [apply (scanstring_short 34 34); [discriminate|reflexivity]|].
  split_test c 92; [apply (scanstring_short 92 92); [discriminate|reflexivity]|].
  split_test c 8; [apply (scanstring_short 98 8); [discriminate|reflexivity]|].
  split_test c 12; [apply (scanstring_short 102 12); [discriminate|reflexivity]|].
  split_test c 10; [apply (scanstring_short 110 10); [discriminate|reflexivity]|].
  split_test c 13; [apply (scanstring_short 114 13); [discriminate|reflexivity]|].
  split_test c 9; [apply (scanstring_short 116 9); [discriminate|reflexivity]|].
  destruct ((32 <=? c) && (c <=? 126)) eqn:Ep.
  - apply andb_true_iff in Ep as [Ep _]. apply N.leb_le in Ep.
    apply scanstring_plain; assumption.
  - destruct (c <? 65536) eqn:Eb.
    + apply N.ltb_lt in Eb. unfold hex4. cbn [app].
      apply scanstring_escape; [apply unhex4_hex4; exact Eb | exact Hp].
    + apply N.ltb_ge in Eb.
      destruct (surrogate_pair c Eb Hc) as (H1 & H2 & Hh & Hl & Hj).
      cbv zeta. unfold hex4. cbn [app].
      rewrite (scanstring_pair _ _ _ _ _ _ _ _ _ _ tail
                 (unhex4_hex4 _ H1) Hh (unhex4_hex4 _ H2) Hl).
      rewrite Hj. reflexivity.
Qed.

(** The escape of a character that is not a low surrogate does not
    start like the escape of one. *)
Lemma pairs_with_low_char (c : N) (tail : list N) :
  c < 1114112 -> is_low_surrogate c = false ->
  pairs_with_low (ascii_escape c ++ tail) = false.
Proof.
  intros Hc Hl. unfold ascii_escape.
  split_test c 34; [reflexivity|].
  split_test c 92; [reflexivity|].
  split_test c 8; [reflexivity|].
  split_test c 12; [reflexivity|].
  split_test c 10; [reflexivity|].
  split_test c 13; [reflexivity|].
  split_test c 9; [reflexivity|].
  destruct ((32 <=? c) && (c <=? 126)) eqn:Ep.
  - cbn [app pairs_with_low]. apply N.eqb_neq in E0. rewrite E0. reflexivity.
  - destruct (c <? 65536) eqn:Eb.
    + apply N.ltb_lt in Eb. unfold hex4. cbn [app pairs_with_low].
      rewrite (unhex4_hex4 _ Eb). exact Hl.
    + apply N.ltb_ge in Eb.
      destruct (surrogate_pair c Eb Hc) as (H1 & H2 & Hh & _ & _).
      cbv zeta. unfold hex4. cbn [app pairs_with_low].
      rewrite (unhex4_hex4 _ H1).
      match goal with
      | |- (_ =? _) && ((_ =? _) && ?b) = false => change (b = false)
      end.
      unfold is_high_surrogate in Hh. unfold is_low_surrogate.
      apply andb_true_iff in Hh as [_ Hh]. apply N.leb_le in Hh.
      apply andb_false_iff. left. apply N.leb_gt. lia.
Qed.

Lemma text_ok_cons (c : N) (s : list N) :
  text_ok (c :: s) = true ->
  c < 1114112
  /\ is_high_surrogate c
     && match s with d :: _ => is_low_surrogate d | [] => false end = false
  /\ text_ok s = true.
Proof.
  cbn [text_ok]. intros H.
  apply andb_true_iff in H as [H H3]. apply andb_true_iff in H as [H1 H2].
  apply N.ltb_lt in H1. apply negb_true_iff in H2. auto.
Qed.

Lemma pairs_with_low_text (c : N) (s rest : list N) :
  text_ok (c :: s) = true ->
  is_high_surrogate c
  && pairs_with_low (flat_map ascii_escape s ++ 34 :: rest) = false.
Proof.
  intros H. apply text_ok_cons in H as (Hc & Hp & Hs).
  destruct (is_high_surrogate c); [|reflexivity]. simpl in *.
  destruct s as [|d s]; [reflexivity|].
  apply text_ok_cons in Hs as (Hd & _ & _).
  cbn [flat_map]. rewrite <- app_assoc.
  apply pairs_with_low_char; assumption.
Qed.

(** [scanstring] reads back what [encode_basestring_ascii] writes. *)
Lemma scanstring_encoded (s rest : list N) :
  text_ok s = true ->
  scanstring (flat_map ascii_escape s ++ 34 :: rest) = Some (s, rest).
Proof.
  induction s as [|c s IH]; intros H.
  - apply scanstring_quote.
  - pose proof (pairs_with_low_text c s rest H) as Hp.
    apply text_ok_cons in H as (Hc & _ & Hs).
    cbn [flat_map]. rewrite <- app_assoc.
    rewrite scanstring_char by assumption.
    rewrite (IH Hs). reflexivity.
Qed.

(** ** Writing and reading integers *)

Lemma is_digit_spec (c : N) : is_digit c = true <-> 48 <= c <= 57.
Proof.
  unfold is_digit. rewrite andb_true_iff, !N.leb_le. reflexivity.
Qed.

Lemma decimal_digits_spec (fuel : nat) :
  forall (n : N) (acc : list N),
    n < 2 ^ N.of_nat (S fuel) ->
    exists d ds,
      decimal_digits (S fuel) n acc = d :: ds ++ acc
      /\ is_digit d = true /\ forallb is_digit ds = true
      /\ (0 < n -> d <> 48)
      /\ fold_left digit_value (d :: ds) 0 = n.
Proof.
  assert (Hsmall : forall f n acc, n < 10 ->
    exists d ds,
      decimal_digits (S f) n acc = d :: ds ++ acc
      /\ is_digit d = true /\ forallb is_digit ds = true
      /\ (0 < n -> d <> 48)
      /\ fold_left digit_value (d :: ds) 0 = n).
  { intros f n acc Hn. exists (48 + n mod 10), [].
    cbn [decimal_digits]. apply N.ltb_lt in Hn as Hb. rewrite Hb.
    rewrite (N.mod_small n 10) by exact Hn.
    split; [reflexivity|]. split; [apply is_digit_spec; lia|].
    split; [reflexivity|]. split; [lia|].
    cbn [fold_left]. unfold digit_value. lia. }
  induction fuel as [|f IH]; intros n acc Hn.
  - apply Hsmall. change (2 ^ N.of_nat 1) with 2 in Hn. lia.
  - destruct (N.lt_ge_cases n 10) as [Hlt|Hge]; [apply Hsmall; exact Hlt|].
    assert (Hq : n / 10 < 2 ^ N.of_nat (S f)).
    { apply N.Div0.div_lt_upper_bound.
      rewrite (Nat2N.inj_succ (S f)), N.pow_succ_r' in Hn.
      assert (0 < 2 ^ N.of_nat (S f)) by (apply N.neq_0_lt_0, N.pow_nonzero; discriminate).
      lia. }
    destruct (IH (n / 10) ((48 + n mod 10) :: acc) Hq)
      as (d & ds & Heq & Hd & Hds & Hnz & Hval).
    exists d, (ds ++ [48 + n mod 10]).
    assert (Hr : n mod 10 < 10) by (apply N.mod_lt; discriminate).
    assert (Hdm : n = 10 * (n / 10) + n mod 10) by (apply N.div_mod; discriminate).
    split.
    { change (decimal_digits (S (S f)) n acc)
        with (if n <? 10 then (48 + n mod 10) :: acc
              else decimal_digits (S f) (n / 10) ((48 + n mod 10) :: acc)).
      replace (n <? 10) with false by (symmetry; apply N.ltb_ge; exact Hge).
      rewrite Heq, <- app_assoc. reflexivity. }
    split; [exact Hd|].
    split.
    { rewrite forallb_app, Hds. cbn [forallb]. rewrite andb_true_r.
      apply is_digit_spec.
      set (r := n mod 10) in *. clearbody r. lia. }
    split.
    { intros _. apply Hnz.
      set (q := n / 10) in *. set (r := n mod 10) in *. clearbody q r. lia. }
    change (d :: ds ++ [48 + n mod 10]) with ((d :: ds) ++ [48 + n mod 10]).
    rewrite fold_left_app, Hval. cbn [fold_left]. unfold digit_value.
    set (q := n / 10) in *. set (r := n mod 10) in *. clearbody q r. lia.
Qed.

Lemma decimal_spec (n : N) :
  exists d ds,
    decimal n = d :: ds
    /\ is_digit d = true /\ forallb is_digit ds = true
    /\ (0 < n -> d <> 48)
    /\ fold_left digit_value (d :: ds) 0 = n.
Proof.
  unfold decimal.
  destruct (decimal_digits_spec (N.to_nat (N.log2 n)) n []) as (d & ds & H).
  - rewrite Nat2N.inj_succ, N2Nat.id.
    destruct n as [|p]; [reflexivity|]. apply N.log2_spec. reflexivity.
  - exists d, ds. rewrite app_nil_r in H. exact H.
Qed.

Lemma delimited_head (rest : list N) :
  delimited rest = true ->
  match rest with [] => True | c :: _ => c = 44 \/ c = 10 end.
Proof.
  destruct rest as [|c r]; [trivial|]. cbn [delimited].
  rewrite orb_true_iff, !N.eqb_eq. trivial.
Qed.

Lemma scan_digits_app (ds rest : list N) (a : N) :
  forallb is_digit ds = true -> delimited rest = true ->
  scan_digits (ds ++ rest) a = (fold_left digit_value ds a, rest).
Proof.
  intros Hds Hrest. revert a. induction ds as [|d ds IH]; intros a.
  - cbn [app fold_left]. apply delimited_head in Hrest.
    destruct rest as [|c r]; [reflexivity|].
    cbn [scan_digits].
    destruct Hrest as [-> | ->]; reflexivity.
  - cbn [forallb] in Hds. apply andb_true_iff in Hds as [Hd Hds].
    cbn [app scan_digits fold_left]. rewrite Hd. apply IH. exact Hds.
Qed.

Lemma delimited_not_float (rest : list N) :
  delimited rest = true ->
  starts_fraction rest || starts_exponent rest = false.
Proof.
  intros H. apply delimited_head in H.
  destruct rest as [|c r]; [reflexivity|].
  destruct H as [-> | ->]; destruct r; reflexivity.
Qed.

Lemma match_number_natural (n : N) (rest : list N) :
  delimited rest = true ->
  exists d ds,
    decimal n = d :: ds /\ d <> 45
    /\ forall neg : bool,
         (let finish (k : N) (r : list N) :=
            if starts_fraction r || starts_exponent r then None
            else Some (if neg then (- Z.of_N k)%Z else Z.of_N k, r) in
          if d =? 48 then finish 0 (ds ++ rest)
          else if is_digit d
               then let '(k, r') := scan_digits (ds ++ rest) (d - 48) in finish k r'
               else None)
         = Some (if neg then (- Z.of_N n)%Z else Z.of_N n, rest).
Proof.
  intros Hrest.
  destruct (decimal_spec n) as (d & ds & Hdec & Hd & Hds & Hnz & Hval).
  exists d, ds. split; [exact Hdec|].
  apply is_digit_spec in Hd as Hd'.
  split; [lia|]. intros neg. cbv zeta.
  destruct (N.eq_0_gt_0_cases n) as [Hz|Hpos].
  - assert (d :: ds = [48]) as E by (rewrite <- Hdec, Hz; reflexivity).
    rewrite Hz. inversion E; subst d ds. cbn [app].
    change (48 =? 48) with true. cbv iota.
    rewrite delimited_not_float by exact Hrest. reflexivity.
  - specialize (Hnz Hpos). apply N.eqb_neq in Hnz. rewrite Hnz, Hd.
    rewrite scan_digits_app by assumption.
    rewrite delimited_not_float by exact Hrest.
    cbn [fold_left] in Hval. unfold digit_value at 2 in Hval.
    change (10 * 0 + (d - 48)) with (d - 48) in Hval. rewrite Hval. reflexivity.
Qed.

(** [match_number] reads back what [int.__repr__] writes. *)
Lemma match_number_intstr (z : Z) (rest : list N) :
  delimited rest = true ->
  match_number (intstr z ++ rest) = Some (z, rest).
Proof.
  intros Hrest. unfold intstr, match_number.
  destruct z as [|p|p].
  - destruct (match_number_natural 0 rest Hrest) as (d & ds & Hdec & Hm & H).
    rewrite Hdec. cbn [app]. apply N.eqb_neq in Hm. rewrite Hm.
    exact (H false).
  - destruct (match_number_natural (Npos p) rest Hrest) as (d & ds & Hdec & Hm & H).
    rewrite Hdec. cbn [app]. apply N.eqb_neq in Hm. rewrite Hm.
    exact (H false).
  - destruct (match_number_natural (Npos p) rest Hrest) as (d & ds & Hdec & Hm & H).
    rewrite Hdec. cbn [app]. change (45 =? 45) with true. cbv iota.
    exact (H true).
Qed.

(** ** Induction over nested objects *)

Lemma json_nested_ind (P : json -> Prop) :
  P JNull ->
  (forall b, P (JBool b)) ->
  (forall z, P (JInt z)) ->
  (forall s, P (JStr s)) ->
  (forall items, Forall P items -> P (JList items)) ->
  (forall pairs, Forall (fun kv => P (snd kv)) pairs -> P (JDict pairs)) ->
  forall o, P o.
Proof.
  intros Hnull Hbool Hint Hstr Hlist Hdict.
  fix IH 1. intros [|b|z|s|items|pairs].
  - exact Hnull.
  - apply Hbool.
  - apply Hint.
  - apply Hstr.
  - apply Hlist. induction items as [|x items IHl].
    + constructor.
    + constructor; [apply IH | exact IHl].
  - apply Hdict. induction pairs as [|kv pairs IHl].
    + constructor.
    + constructor; [apply IH | exact IHl].
Qed.

(** ** White space and the first character of a value *)

Lemma skip_ws_indent (level : nat) (t : list N) :
  skip_ws (newline_indent level ++ t) = skip_ws t.
Proof.
  unfold newline_indent. cbn [app skip_ws]. change (is_ws 10) with true. cbv iota.
  induction (2 * level)%nat as [|n IH]; [reflexivity|].
  cbn [repeat app skip_ws]. exact IH.
Qed.

Lemma skip_ws_head (c : N) (t : list N) : is_ws c = false -> skip_ws (c :: t) = c :: t.
Proof. intros H. cbn [skip_ws]. rewrite H. reflexivity. Qed.

Lemma intstr_head (z : Z) :
  exists c r, intstr z = c :: r /\ (is_digit c = true \/ c = 45).
Proof.
  unfold intstr. destruct z as [|p|p].
  - destruct (decimal_spec 0) as (d & ds & -> & Hd & _). eauto.
  - destruct (decimal_spec (Npos p)) as (d & ds & -> & Hd & _). eauto.
  - eauto.
Qed.

Lemma number_head (c : N) : is_digit c = true \/ c = 45 -> value_head c.
Proof.
  intros H. unfold value_head, is_ws.
  assert (Hc : 45 <= c <= 57) by (destruct H as [H| ->]; [apply is_digit_spec in H|]; lia).
  repeat split; try lia.
  repeat (apply orb_false_iff; split); apply N.eqb_neq; lia.
Qed.

Lemma iterencode_head (level : nat) (o : json) :
  exists c r, iterencode level o = c :: r /\ value_head c.
Proof.
  assert (Hv : forall c, In c [110; 116; 102; 34; 91; 123] -> value_head c).
  { intros c Hc. simpl in Hc.
    repeat (destruct Hc as [<-|Hc]; [repeat split; discriminate|]). contradiction. }
  destruct o as [|[|]|z|s|[|x l]|[|kv l]];
    try (eexists; eexists; split; [reflexivity|]; apply Hv; simpl; tauto).
  destruct (intstr_head z) as (c & r & E & Hc).
  exists c, r. split; [exact E|]. apply number_head. exact Hc.
Qed.

(** ** Writing and reading lists and dicts *)

Lemma iterencode_list (level : nat) (x : json) (xs : list json) :
  iterencode level (JList (x :: xs))
  = 91 :: newline_indent (S level)
    ++ join (44 :: newline_indent (S level)) (map (iterencode (S level)) (x :: xs))
    ++ newline_indent level ++ [93].
Proof. reflexivity. Qed.

Lemma iterencode_dict (level : nat) (kv : list N * json) (kvs : list (list N * json)) :
  iterencode level (JDict (kv :: kvs))
  = 123 :: newline_indent (S level)
    ++ join (44 :: newline_indent (S level)) (map (encode_pair (S level)) (kv :: kvs))
    ++ newline_indent level ++ [125].
Proof. reflexivity. Qed.

Lemma join_one_app (sep c tail : list N) : join sep [c] ++ tail = c ++ tail.
Proof. reflexivity. Qed.

Lemma join_more_app (sep c c' : list N) (chunks : list (list N)) (tail : list N) :
  join sep (c :: c' :: chunks) ++ tail = c ++ sep ++ join sep (c' :: chunks) ++ tail.
Proof. cbn [join]. rewrite <- !app_assoc. reflexivity. Qed.

Lemma skip_ws_value (level : nat) (o : json) (t : list N) :
  skip_ws (iterencode level o ++ t) = iterencode level o ++ t.
Proof.
  destruct (iterencode_head level o) as (c & r & -> & Hc & _).
  apply skip_ws_head. exact Hc.
Qed.

Lemma array_items_join (scan : list N -> option (json * list N))
    (k level : nat) (rest : list N) :
  forall (items : list json) (fuel : nat),
    items <> [] -> (length items <= fuel)%nat ->
    (forall x rest', In x items -> delimited rest' = true ->
       scan (iterencode k x ++ rest') = Some (x, rest')) ->
    array_items scan fuel
      (join (44 :: newline_indent k) (map (iterencode k) items)
       ++ newline_indent level ++ 93 :: rest)
    = Some (items, rest).
Proof.
  induction items as [|x xs IH]; intros fuel Hne Hlen Hscan; [contradiction|].
  destruct fuel as [|fuel]; [simpl in Hlen; lia|].
  destruct xs as [|y ys].
  - cbn [map]. rewrite join_one_app. cbn [array_items].
    rewrite Hscan; [|left; reflexivity|reflexivity].
    rewrite skip_ws_indent. reflexivity.
  - cbn [map]. rewrite join_more_app. cbn [array_items].
    rewrite Hscan; [|left; reflexivity|reflexivity].
    cbn [app skip_ws]. change (is_ws 44) with false. cbv iota.
    change (44 =? 93) with false. change (44 =? 44) with true. cbv iota.
    rewrite skip_ws_indent.
    assert (Hsk : forall t, skip_ws (join (44 :: newline_indent k)
                                       (map (iterencode k) (y :: ys)) ++ t)
                            = join (44 :: newline_indent k)
                                (map (iterencode k) (y :: ys)) ++ t).
    { intros t. cbn [map]. destruct (map (iterencode k) ys).
      - rewrite join_one_app. apply skip_ws_value.
      - rewrite join_more_app. apply skip_ws_value. }
    change (iterencode k y :: map (iterencode k) ys)
      with (map (iterencode k) (y :: ys)).
    rewrite Hsk. rewrite IH.
    + reflexivity.
    + discriminate.
    + simpl in Hlen |- *. lia.
    + intros x' rest' Hin. apply Hscan. right. exact Hin.
Qed.

Lemma skip_ws_space (t : list N) : skip_ws (32 :: t) = skip_ws t.
Proof. reflexivity. Qed.

Lemma encode_pair_app (level : nat) (kv : list N * json) (t : list N) :
  encode_pair level kv ++ t
  = 34 :: flat_map ascii_escape (fst kv)
    ++ 34 :: 58 :: 32 :: iterencode level (snd kv) ++ t.
Proof.
  unfold encode_pair, encode_basestring_ascii.
  cbn [app]. rewrite <- !app_assoc. reflexivity.
Qed.

Lemma object_items_join (scan : list N -> option (json * list N))
    (k level : nat) (rest : list N) :
  forall (pairs : list (list N * json)) (fuel : nat),
    pairs <> [] -> (length pairs <= fuel)%nat ->
    (forall kv rest', In kv pairs -> delimited rest' = true ->
       text_ok (fst kv) = true
       /\ scan (iterencode k (snd kv) ++ rest') = Some (snd kv, rest')) ->
    exists body,
      join (44 :: newline_indent k) (map (encode_pair k) pairs)
      ++ newline_indent level ++ 125 :: rest = 34 :: body
      /\ object_items scan fuel body = Some (pairs, rest).
Proof.
  induction pairs as [|[key v] ps IH]; intros fuel Hne Hlen Hscan; [contradiction|].
  destruct fuel as [|fuel]; [simpl in Hlen; lia|].
  destruct ps as [|kv' ps'].
  - cbn [map]. rewrite join_one_app, encode_pair_app. cbn [fst snd].
    eexists. split; [reflexivity|].
    cbn [object_items].
    destruct (Hscan (key, v) (newline_indent level ++ 125 :: rest)
                (or_introl eq_refl) eq_refl) as [Hk Hv].
    cbn [fst snd] in Hk, Hv.
    rewrite (scanstring_encoded key _ Hk).
    cbn [skip_ws]. change (is_ws 58) with false. cbv iota.
    change (58 =? 58) with true. cbv iota.
    rewrite skip_ws_space.
    rewrite skip_ws_value, Hv, skip_ws_indent. reflexivity.
  - cbn [map]. rewrite join_more_app, encode_pair_app. cbn [fst snd].
    eexists. split; [reflexivity|].
    cbn [object_items].
    change (encode_pair k kv' :: map (encode_pair k) ps')
      with (map (encode_pair k) (kv' :: ps')).
    destruct (Hscan (key, v)
                ((44 :: newline_indent k)
                 ++ join (44 :: newline_indent k) (map (encode_pair k) (kv' :: ps'))
                 ++ newline_indent level ++ 125 :: rest)
                (or_introl eq_refl) eq_refl) as [Hk Hv].
    cbn [fst snd] in Hk, Hv.
    rewrite (scanstring_encoded key _ Hk).
    cbn [skip_ws]. change (is_ws 58) with false. cbv iota.
    change (58 =? 58) with true. cbv iota.
    rewrite skip_ws_space.
    rewrite skip_ws_value, Hv.
    cbn [app skip_ws]. change (is_ws 44) with false. cbv iota.
    change (44 =? 125) with false. change (44 =? 44) with true. cbv iota.
    rewrite skip_ws_indent.
    destruct (IH fuel) as (body & Hbody & Hitems).
    + discriminate.
    + simpl in Hlen |- *. lia.
    + intros kv rest' Hin. apply Hscan. right. exact Hin.
    + rewrite Hbody. cbn [skip_ws]. change (is_ws 34) with false. cbv iota.
      change (34 =? 34) with true. cbv iota.
      rewrite Hitems. reflexivity.
Qed.

Lemma dict_set_fresh (d : list (list N * json)) (key : list N) (v : json) :
  ~ In key (map fst d) -> dict_set d key v = d ++ [(key, v)].
Proof.
  induction d as [|[k x] d IH]; intros H; [reflexivity|].
  cbn [dict_set]. simpl in H. rewrite str_eqb_neq by tauto.
  rewrite IH by tauto. reflexivity.
Qed.

Lemma dict_of_pairs_distinct (pairs : list (list N * json)) :
  NoDup (map fst pairs) -> dict_of_pairs pairs = pairs.
Proof.
  unfold dict_of_pairs.
  assert (H : forall acc, NoDup (map fst (acc ++ pairs)) ->
            fold_left (fun d kv => dict_set d (fst kv) (snd kv)) pairs acc
            = acc ++ pairs).
  { induction pairs as [|[k v] ps IH]; intros acc Hnd.
    - rewrite app_nil_r. reflexivity.
    - cbn [fold_left fst snd]. rewrite dict_set_fresh.
      + rewrite IH; rewrite <- app_assoc; [reflexivity|exact Hnd].
      + rewrite map_app in Hnd. apply NoDup_app in Hnd as (_ & Hd & _).
        intros Hin. apply (Hd k); [apply list_elem_of_In; exact Hin|].
        simpl. left. }
  intros Hnd. apply (H []). exact Hnd.
Qed.

(** ** Reading back a whole object *)

Lemma scan_once_number (f : nat) (c : N) (r : list N) :
  is_digit c = true \/ c = 45 ->
  scan_once (S f) (c :: r)
  = match match_number (c :: r) with
    | Some (z, r') => Some (JInt z, r')
    | None => None
    end.
Proof.
  intros H.
  assert (Hc : 45 <= c <= 57)
    by (destruct H as [H| ->]; [apply is_digit_spec in H|]; lia).
  cbn [scan_once].
  replace (c =? 34) with false by (symmetry; apply N.eqb_neq; lia).
  replace (c =? 123) with false by (symmetry; apply N.eqb_neq; lia).
  replace (c =? 91) with false by (symmetry; apply N.eqb_neq; lia).
  change (py "null") with [110; 117; 108; 108].
  change (py "true") with [116; 114; 117; 101].
  change (py "false") with [102; 97; 108; 115; 101].
  cbn [startswith].
  replace (110 =? c) with false by (symmetry; apply N.eqb_neq; lia).
  replace (116 =? c) with false by (symmetry; apply N.eqb_neq; lia).
  replace (102 =? c) with false by (symmetry; apply N.eqb_neq; lia).
  reflexivity.
Qed.

Lemma json_size_pos (o : json) : (1 <= json_size o)%nat.
Proof. destruct o; simpl; lia. Qed.

Lemma list_sum_bounds {A : Type} (size : A -> nat) (l : list A) :
  (forall x, 1 <= size x)%nat ->
  (length l <= list_sum (map size l))%nat
  /\ forall x, In x l -> (size x <= list_sum (map size l))%nat.
Proof.
  intros Hpos. induction l as [|a l [IH1 IH2]]; simpl.
  - split; [lia|tauto].
  - specialize (Hpos a). split; [lia|].
    intros x [<-|Hin]; [lia|]. specialize (IH2 x Hin). lia.
Qed.

Lemma join_head (k : nat) (x : json) (xs : list json) (tail : list N) :
  exists c r,
    join (44 :: newline_indent k) (map (iterencode k) (x :: xs)) ++ tail = c :: r
    /\ value_head c.
Proof.
  destruct (iterencode_head k x) as (c & r & E & Hc).
  cbn [map]. destruct (map (iterencode k) xs) as [|c' chunks].
  - rewrite join_one_app, E. eauto.
  - rewrite join_more_app, E. eauto.
Qed.

(** [scan_once] reads back what [_iterencode] writes, at every nesting
    level, given fuel for the values of the object. *)
Lemma scan_once_iterencode (o : json) :
  json_ok o = true ->
  forall (fuel level : nat) (rest : list N),
    (json_size o <= fuel)%nat -> delimited rest = true ->
    scan_once fuel (iterencode level o ++ rest) = Some (o, rest).
Proof.
  induction o as [|b|z|s|items IH|pairs IH] using json_nested_ind;
    intros Hok fuel level rest Hfuel Hrest;
    (destruct fuel as [|f]; [pose proof (json_size_pos JNull); simpl in Hfuel; lia|]).
  - reflexivity.
  - destruct b; reflexivity.
  - destruct (intstr_head z) as (c & r & E & Hc).
    cbn [iterencode]. rewrite E. cbn [app].
    rewrite scan_once_number by exact Hc.
    change (c :: r ++ rest) with ((c :: r) ++ rest). rewrite <- E.
    rewrite match_number_intstr by exact Hrest. reflexivity.
  - cbn [iterencode]. unfold encode_basestring_ascii.
    cbn [app]. rewrite <- app_assoc. cbn [app scan_once].
    change (34 =? 34) with true. cbv iota.
    rewrite scanstring_encoded by exact Hok. reflexivity.
  - destruct items as [|x xs]; [reflexivity|].
    rewrite iterencode_list. cbn [app]. rewrite <- !app_assoc. cbn [app scan_once].
    change (91 =? 34) with false. change (91 =? 123) with false.
    change (91 =? 91) with true. cbv iota.
    unfold JSONArray. rewrite skip_ws_indent.
    destruct (join_head (S level) x xs (newline_indent level ++ 93 :: rest))
      as (c & r & E & Hws & H93 & _).
    pose proof (array_items_join (scan_once f) (S level) level rest
                  (x :: xs) f) as Hitems.
    rewrite E in Hitems |- *. rewrite skip_ws_head by exact Hws.
    apply N.eqb_neq in H93. rewrite H93.
    cbn [json_size] in Hfuel.
    destruct (list_sum_bounds json_size (x :: xs) json_size_pos) as [Hlen Hsz].
    rewrite Hitems; [reflexivity|discriminate|lia|].
    intros x' rest' Hin Hd.
    rewrite Forall_forall in IH. apply IH.
    + apply list_elem_of_In. exact Hin.
    + cbn [json_ok] in Hok. rewrite forallb_forall in Hok. apply Hok. exact Hin.
    + specialize (Hsz x' Hin). lia.
    + exact Hd.
  - destruct pairs as [|kv kvs]; [reflexivity|].
    rewrite iterencode_dict. cbn [app]. rewrite <- !app_assoc. cbn [app scan_once].
    change (123 =? 34) with false. change (123 =? 123) with true. cbv iota.
    unfold JSONObject. rewrite skip_ws_indent.
    cbn [json_ok] in Hok. apply andb_true_iff in Hok as [Hnd Hok].
    apply bool_decide_eq_true in Hnd. rewrite forallb_forall in Hok.
    cbn [json_size] in Hfuel.
    destruct (list_sum_bounds (fun kv => json_size (snd kv)) (kv :: kvs)
                (fun kv => json_size_pos (snd kv))) as [Hlen Hsz].
    destruct (object_items_join (scan_once f) (S level) level rest
                (kv :: kvs) f) as (body & Hbody & Hitems).
    + discriminate.
    + lia.
    + intros kv' rest' Hin Hd. specialize (Hok kv' Hin).
      apply andb_true_iff in Hok as [Hk Hv]. split; [exact Hk|].
      rewrite Forall_forall in IH. apply (IH kv').
      * apply list_elem_of_In. exact Hin.
      * exact Hv.
      * specialize (Hsz kv' Hin). cbv beta in Hsz. lia.
      * exact Hd.
    + rewrite Hbody. cbn [skip_ws]. change (is_ws 34) with false. cbv iota.
      change (34 =? 125) with false. change (34 =? 34) with true. cbv iota.
      rewrite Hitems. rewrite dict_of_pairs_distinct by exact Hnd. reflexivity.
Qed.

Lemma list_sum_cons (a : nat) (l : list nat) :
  list_sum (a :: l) = (a + list_sum l)%nat.
Proof. reflexivity. Qed.

Lemma join_length (sep : list N) (chunks : list (list N)) :
  (list_sum (map length chunks) <= length (join sep chunks))%nat.
Proof.
  induction chunks as [|c [|c' chunks] IH]; simpl in *; [lia|lia|].
  rewrite !length_app. lia.
Qed.

Lemma json_size_length (o : json) :
  forall level, (json_size o <= length (iterencode level o))%nat.
Proof.
  induction o as [|b|z|s|items IH|pairs IH] using json_nested_ind; intros level.
  - simpl. lia.
  - destruct b; simpl; lia.
  - destruct (intstr_head z) as (c & r & E & _). cbn [iterencode json_size].
    rewrite E. simpl. lia.
  - simpl. lia.
  - destruct items as [|x xs]; [simpl; lia|].
    rewrite iterencode_list. cbn [json_size length]. rewrite !length_app.
    pose proof (join_length (44 :: newline_indent (S level))
                  (map (iterencode (S level)) (x :: xs))) as Hj.
    assert (Hs : (list_sum (map json_size (x :: xs))
                  <= list_sum (map length (map (iterencode (S level)) (x :: xs))))%nat).
    { clear Hj. induction IH as [|y ys Hy _ IHys]; [simpl; lia|].
      cbn [map]. rewrite !list_sum_cons. specialize (Hy (S level)). lia. }
    lia.
  - destruct pairs as [|kv kvs]; [simpl; lia|].
    rewrite iterencode_dict. cbn [json_size length]. rewrite !length_app.
    pose proof (join_length (44 :: newline_indent (S level))
                  (map (encode_pair (S level)) (kv :: kvs))) as Hj.
    assert (Hs : (list_sum (map (fun kv => json_size (snd kv)) (kv :: kvs))
                  <= list_sum (map length (map (encode_pair (S level)) (kv :: kvs))))%nat).
    { clear Hj. induction IH as [|y ys Hy _ IHys]; [simpl; lia|].
      cbn [map]. rewrite !list_sum_cons. specialize (Hy (S level)).
      unfold encode_pair at 1. rewrite length_app. cbn [length]. lia. }
    lia.
Qed.

(** [json.loads(json.dumps(o, indent=2))] is [o]. *)
Lemma json_loads_dumps (o : json) :
  json_ok o = true -> json_loads (json_dumps o) = Some o.
Proof.
  intros Hok. unfold json_loads, json_dumps.
  destruct (iterencode_head 0 o) as (c & r & E & Hws & _).
  rewrite E at 2. rewrite skip_ws_head by exact Hws. rewrite <- E.
  rewrite <- (app_nil_r (iterencode 0 o)) at 2.
  rewrite scan_once_iterencode; [reflexivity|exact Hok| |reflexivity].
  pose proof (json_size_length o 0). lia.
Qed.

(** ** The stores the handlers build can be saved and read back *)

Lemma text_ok_below (s : list N) :
  Forall (fun c => c < 55296) s -> text_ok s = true.
Proof.
  induction 1 as [|c s Hc _ IH]; [reflexivity|].
  cbn [text_ok]. rewrite IH, andb_true_r.
  apply andb_true_iff. split; [apply N.ltb_lt; lia|].
  apply negb_true_iff, andb_false_iff. left.
  unfold is_high_surrogate. apply andb_false_iff. left. apply N.leb_gt. exact Hc.
Qed.

Lemma digit_below (n : N) : digit n < 55296.
Proof.
  unfold digit. assert (n mod 10 < 10) by (apply N.mod_lt; discriminate).
  set (r := n mod 10) in *. clearbody r. lia.
Qed.

Lemma strftime_stamp_ok (t : datetime) : text_ok (strftime_stamp t) = true.
Proof.
  apply text_ok_below. unfold strftime_stamp, dec4, dec2.
  repeat (apply Forall_app; split);
    repeat (apply Forall_cons; split; [try apply digit_below; reflexivity|]);
    apply Forall_nil; exact I.
Qed.

Lemma strftime_compact_ok (t : datetime) :
  text_ok (strftime_compact t ++ py ".jpg") = true.
Proof.
  apply text_ok_below. unfold strftime_compact, dec4, dec2.
  repeat (apply Forall_app; split);
    repeat (apply Forall_cons; split; [try apply digit_below; reflexivity|]);
    apply Forall_nil; exact I.
Qed.

Lemma classify_message_ok (m : list N) : text_ok (classify_message m) = true.
Proof.
  pose proof (classify_message_label m) as H. unfold alert_labels in H. simpl in H.
  repeat (destruct H as [<-|H]; [reflexivity|]). contradiction.
Qed.

Lemma json_ok_append (l : list json) (a : json) :
  json_ok (JList l) = true -> json_ok a = true -> json_ok (JList (l ++ [a])) = true.
Proof.
  cbn [json_ok]. intros Hl Ha. rewrite forallb_app, Hl. cbn [forallb].
  rewrite Ha. reflexivity.
Qed.

Lemma alert_ok (n : Z) (device_id alert_type message stamp image : list N) :
  text_ok device_id = true -> text_ok alert_type = true ->
  text_ok message = true -> text_ok stamp = true -> text_ok image = true ->
  json_ok (JDict
    [ (py "id", JInt n);
      (py "device_id", JStr device_id);
      (py "alert_type", JStr alert_type);
      (py "message", JStr message);
      (py "timestamp", JStr stamp);
      (py "image", JStr image) ]) = true.
Proof.
  intros H1 H2 H3 H4 H5. cbn [json_ok forallb fst snd map].
  rewrite H1, H2, H3, H4, H5.
  apply andb_true_iff. split; [|reflexivity].
  apply bool_decide_eq_true. vm_compute.
  repeat (constructor; [rewrite list_elem_of_In; simpl; intuition discriminate|]).
  constructor.
Qed.

#[local] Opaque json_dumps strftime_stamp strftime_compact classify_message
  os_path_join text_ok.

Lemma serve_json_ok (c : call) (w : world) :
  json_ok (alerts w) = true -> call_ok c = true ->
  json_ok (alerts (snd (serve c w))) = true.
Proof.
  intros Hok Hc. rewrite serve_snd.
  destruct c as [r|r|r|d|d|].
  - simpl in Hc. unfold request_ok in Hc. apply andb_true_iff in Hc as [Hd Hm].
    simpl. unfold receive_from_esp32. destruct (method r); [exact Hok|].
    destruct w as [a p f b c t e d]. simpl in Hok.
    destruct (bool_decide (content_type r = Some (py "image/jpeg"))).
    + destruct a; try exact Hok. simpl.
      apply json_ok_append; [exact Hok|].
      apply alert_ok; auto using strftime_stamp_ok, strftime_compact_ok.
    + destruct (bool_decide (content_type r
                  = Some (py "application/x-www-form-urlencoded"))); [|exact Hok].
      destruct a; try exact Hok. simpl.
      apply json_ok_append; [exact Hok|].
      apply alert_ok; auto using strftime_stamp_ok, classify_message_ok.
  - simpl. destruct (update_power_status_store r w) as (-> & _). exact Hok.
  - simpl. destruct (simulate_power_change_store r w) as (-> & _). exact Hok.
  - pose proof (read_routes_world (GetPowerStatus d) w) as H. simpl in H.
    simpl. rewrite H. exact Hok.
  - pose proof (read_routes_world (GetDeviceAlerts d) w) as H. simpl in H.
    simpl. rewrite H. exact Hok.
  - exact Hok.
Qed.

#[local] Transparent json_dumps strftime_stamp strftime_compact classify_message
  os_path_join text_ok.

Lemma run_json_ok (calls : list call) :
  forall w : world,
    json_ok (alerts w) = true -> forallb call_ok calls = true ->
    json_ok (alerts (run calls w)) = true.
Proof.
  induction calls as [|c calls IH]; intros w Hok Hc; [exact Hok|].
  cbn [forallb] in Hc. apply andb_true_iff in Hc as [Hc Hcs].
  change (run (c :: calls) w) with (run calls (snd (serve c w))).
  apply IH; [apply serve_json_ok; assumption|exact Hcs].
Qed.

(** ** What the decoder returns *)

Lemma cons_char_inv (x : N) (o : option (list N * list N)) (str rest : list N) :
  cons_char x o = Some (str, rest) ->
  exists str', o = Some (str', rest) /\ str = x :: str'.
Proof.
  destruct o as [[str' rest']|]; simpl; intros H; inversion H; eauto.
Qed.

(** Every successful run of [scanstring] ends at the closing quote or
    reads one character and goes on. *)
Lemma scanstring_inv (s str rest : list N) :
  scanstring s = Some (str, rest) ->
  (s = 34 :: rest /\ str = [])
  \/ exists x k s' str',
       s = k ++ s' /\ str = x :: str'
       /\ scanstring s' = Some (str', rest) /\ read_as k x s'.
Proof.
  destruct s as [|c r]; [discriminate|].
  cbn [scanstring].
  destruct (c =? 34) eqn:E34.
  { intros H. inversion H; subst. apply N.eqb_eq in E34. subst. left. auto. }
  apply N.eqb_neq in E34.
  destruct (c =? 92) eqn:E92.
  - apply N.eqb_eq in E92. subst c.
    destruct r as [|e r1]; [discriminate|].
    destruct (e =? 117) eqn:Eu.
    + apply N.eqb_eq in Eu. subst e.
      destruct r1 as [|a [|b [|c [|d r2]]]]; try discriminate.
      destruct (unhex4 a b c d) as [uni|] eqn:Eh; [|discriminate].
      assert (Hlone : cons_char uni (scanstring r2) = Some (str, rest) ->
                      is_high_surrogate uni && pairs_with_low r2 = false ->
                      exists x k s' str',
                        92 :: 117 :: a :: b :: c :: d :: r2 = k ++ s'
                        /\ str = x :: str'
                        /\ scanstring s' = Some (str', rest) /\ read_as k x s').
      { intros H Hp. apply cons_char_inv in H as (str' & Hs & ->).
        exists uni, [92; 117; a; b; c; d], r2, str'.
        repeat split; try assumption.
        right. right. left. exists a, b, c, d. auto. }
      destruct (is_high_surrogate uni) eqn:Ehigh;
        [|intros H; right; apply Hlone; [exact H|reflexivity]].
      destruct r2 as [|bs [|u [|a2 [|b2 [|c2 [|d2 r3]]]]]];
        try (intros H; right; apply Hlone; [exact H|];
             cbn [pairs_with_low andb];
             repeat match goal with
                    | |- context [?x =? ?y] => destruct (x =? y)
                    end; reflexivity).
      destruct ((bs =? 92) && (u =? 117)) eqn:Ebu.
      * apply andb_true_iff in Ebu as [Eb Eu]. apply N.eqb_eq in Eb, Eu. subst bs u.
        destruct (unhex4 a2 b2 c2 d2) as [uni2|] eqn:Eh2; [|discriminate].
        destruct (is_low_surrogate uni2) eqn:Elow.
        -- intros H. apply cons_char_inv in H as (str' & Hs & ->). right.
           exists (join_surrogates uni uni2),
             [92; 117; a; b; c; d; 92; 117; a2; b2; c2; d2], r3, str'.
           repeat split; try assumption.
           right. right. right. exists a, b, c, d, a2, b2, c2, d2, uni, uni2. repeat split; auto.
        -- intros H. right. apply Hlone; [exact H|].
           cbn [pairs_with_low andb]. change (92 =? 92) with true.
           change (117 =? 117) with true. cbn [andb]. rewrite Eh2. exact Elow.
      * intros H. right. apply Hlone; [exact H|].
        cbn [pairs_with_low andb].
        destruct (bs =? 92); [|reflexivity]. destruct (u =? 117); [discriminate|].
        reflexivity.
    + apply N.eqb_neq in Eu.
      destruct (unescape e) as [ch|] eqn:Ee; [|discriminate].
      intros H. apply cons_char_inv in H as (str' & Hs & ->). right.
      exists ch, [92; e], r1, str'. repeat split; try assumption.
      right. left. exists e. auto.
  - apply N.eqb_neq in E92.
    destruct (c <? 32) eqn:E32; [discriminate|]. apply N.ltb_ge in E32.
    intros H. apply cons_char_inv in H as (str' & Hs & ->). right.
    exists c, [c], r, str'. repeat split; try assumption.
    left. auto.
Qed.

(** ** Every read consumes text *)

Lemma list_length_ind {A : Type} (P : list A -> Prop) :
  (forall s, (forall t, (length t < length s)%nat -> P t) -> P s) ->
  forall s, P s.
Proof.
  intros H s. remember (length s) as n eqn:E. revert s E.
  induction n as [n IH] using lt_wf_ind. intros s ->.
  apply H. intros t Ht. apply (IH (length t) Ht t eq_refl).
Qed.

Lemma consumed_app (k rest : list N) : k <> [] -> consumed rest (k ++ rest).
Proof.
  intros Hk. split; [apply suffix_app_r; reflexivity|].
  rewrite length_app. destruct k; [contradiction|simpl; lia].
Qed.

Lemma consumed_cons (c : N) (rest : list N) : consumed rest (c :: rest).
Proof. apply (consumed_app [c]). discriminate. Qed.

Lemma consumed_suffix_l (a b c : list N) :
  a `suffix_of` b -> consumed b c -> consumed a c.
Proof.
  intros Hab [Hbc Hlen]. split; [etrans; eassumption|].
  apply suffix_length in Hab. lia.
Qed.

Lemma consumed_suffix_r (a b c : list N) :
  consumed a b -> b `suffix_of` c -> consumed a c.
Proof.
  intros [Hab Hlen] Hbc. split; [etrans; eassumption|].
  apply suffix_length in Hbc. lia.
Qed.

Lemma consumed_trans (a b c : list N) : consumed a b -> consumed b c -> consumed a c.
Proof. intros [Hab _] Hbc. eapply consumed_suffix_l; eassumption. Qed.

Lemma skip_ws_suffix (s : list N) : skip_ws s `suffix_of` s.
Proof.
  induction s as [|c s IH]; [reflexivity|].
  cbn [skip_ws]. destruct (is_ws c); [|reflexivity].
  apply suffix_cons_r. exact IH.
Qed.

Lemma read_as_nonempty (k : list N) (x : N) (s' : list N) : read_as k x s' -> k <> [].
Proof.
  intros [(-> & _) | [(e & -> & _) | [(a & b & c & d & -> & _)
    | (a & b & c & d & a2 & b2 & c2 & d2 & u1 & u2 & -> & _)]]]; discriminate.
Qed.

Lemma scanstring_consumed (s : list N) :
  forall str rest, scanstring s = Some (str, rest) -> consumed rest s.
Proof.
  induction s as [s IH] using list_length_ind. intros str rest H.
  apply scanstring_inv in H as [(-> & _) | (x & k & s' & str' & -> & _ & Hs & Hk)].
  - apply consumed_cons.
  - apply read_as_nonempty in Hk.
    pose proof (consumed_app k s' Hk) as Hc.
    eapply consumed_trans; [|exact Hc].
    apply (IH s' (proj2 Hc) str' rest Hs).
Qed.

Lemma scan_digits_suffix (s : list N) :
  forall a n r, scan_digits s a = (n, r) -> r `suffix_of` s.
Proof.
  induction s as [|c s IH]; intros a n r H; cbn [scan_digits] in H.
  - inversion H. reflexivity.
  - destruct (is_digit c).
    + apply suffix_cons_r. eapply IH. exact H.
    + inversion H. reflexivity.
Qed.

Lemma match_number_consumed (s : list N) (z : Z) (rest : list N) :
  match_number s = Some (z, rest) -> consumed rest s.
Proof.
  unfold match_number.
  assert (Hbody : forall (neg : bool) (s1 : list N),
    match s1 with
    | [] => None
    | c :: r =>
        if c =? 48
        then if starts_fraction r || starts_exponent r then None
             else Some (if neg then (- Z.of_N 0)%Z else Z.of_N 0, r)
        else if is_digit c
             then let '(n, r') := scan_digits r (c - 48) in
                  if starts_fraction r' || starts_exponent r' then None
                  else Some (if neg then (- Z.of_N n)%Z else Z.of_N n, r')
             else None
    end = Some (z, rest) -> consumed rest s1).
  { intros neg [|c r]; [discriminate|].
    destruct (c =? 48).
    - destruct (_ || _); [discriminate|]. intros H. inversion H. apply consumed_cons.
    - destruct (is_digit c); [|discriminate].
      destruct (scan_digits r (c - 48)) as [n r'] eqn:E.
      destruct (_ || _); [discriminate|]. intros H. inversion H; subst.
      eapply consumed_suffix_l; [eapply scan_digits_suffix; exact E|].
      apply consumed_cons. }
  destruct s as [|c r]; [discriminate|].
  destruct (c =? 45).
  - intros H. apply (Hbody true) in H. eapply consumed_suffix_r; [exact H|].
    apply suffix_cons_r. reflexivity.
  - exact (Hbody false (c :: r)).
Qed.

Section ContainersConsume.

Variable scan : list N -> option (json * list N).
Hypothesis scan_consumes : forall s v r, scan s = Some (v, r) -> consumed r s.

Lemma array_items_consumed (fuel : nat) :
  forall s vs rest, array_items scan fuel s = Some (vs, rest) -> consumed rest s.
Proof.
  induction fuel as [|f IH]; intros s vs rest; [discriminate|].
  cbn [array_items].
  destruct (scan s) as [[v r]|] eqn:Ev; [|discriminate].
  apply scan_consumes in Ev.
  pose proof (skip_ws_suffix r) as Hws.
  destruct (skip_ws r) as [|c r'] eqn:Er; [discriminate|].
  assert (Hr' : consumed r' s).
  { eapply consumed_trans; [apply consumed_cons|].
    eapply consumed_suffix_l; eassumption. }
  destruct (c =? 93).
  - intros H. inversion H; subst. exact Hr'.
  - destruct (c =? 44); [|discriminate].
    destruct (array_items scan f (skip_ws r')) as [[vs' r'']|] eqn:Ei; [|discriminate].
    intros H. inversion H; subst.
    apply IH in Ei. eapply consumed_trans; [exact Ei|].
    eapply consumed_suffix_l; [apply skip_ws_suffix|exact Hr'].
Qed.

Lemma JSONArray_suffix (fuel : nat) (s : list N) (v : json) (rest : list N) :
  JSONArray scan fuel s = Some (v, rest) -> rest `suffix_of` s.
Proof.
  unfold JSONArray. pose proof (skip_ws_suffix s) as Hws.
  destruct (skip_ws s) as [|c r]; [discriminate|].
  destruct (c =? 93).
  - intros H. inversion H; subst. etrans; [|exact Hws]. apply suffix_cons_r. reflexivity.
  - destruct (array_items scan fuel (c :: r)) as [[vs r']|] eqn:E; [|discriminate].
    intros H. inversion H; subst.
    apply array_items_consumed in E. etrans; [exact (proj1 E)|exact Hws].
Qed.

Lemma object_items_consumed (fuel : nat) :
  forall s kvs rest, object_items scan fuel s = Some (kvs, rest) -> consumed rest s.
Proof.
  induction fuel as [|f IH]; intros s kvs rest; [discriminate|].
  cbn [object_items].
  destruct (scanstring s) as [[key r]|] eqn:Ek; [|discriminate].
  apply scanstring_consumed in Ek.
  pose proof (skip_ws_suffix r) as Hws.
  destruct (skip_ws r) as [|c r1]; [discriminate|].
  destruct (c =? 58); [|discriminate].
  assert (Hr1 : consumed r1 s).
  { eapply consumed_trans; [apply consumed_cons|].
    eapply consumed_suffix_l; eassumption. }
  destruct (scan (skip_ws r1)) as [[v r2]|] eqn:Ev; [|discriminate].
  apply scan_consumes in Ev.
  assert (Hr2 : consumed r2 s).
  { eapply consumed_trans; [exact Ev|].
    eapply consumed_suffix_l; [apply skip_ws_suffix|exact Hr1]. }
  pose proof (skip_ws_suffix r2) as Hws2.
  destruct (skip_ws r2) as [|c2 r3]; [discriminate|].
  assert (Hr3 : consumed r3 s).
  { eapply consumed_trans; [apply consumed_cons|].
    eapply consumed_suffix_l; eassumption. }
  destruct (c2 =? 125).
  - intros H. inversion H; subst. exact Hr3.
  - destruct (c2 =? 44); [|discriminate].
    pose proof (skip_ws_suffix r3) as Hws3.
    destruct (skip_ws r3) as [|q r4]; [discriminate|].
    destruct (q =? 34); [|discriminate].
    destruct (object_items scan f r4) as [[kvs' r5]|] eqn:Ei; [|discriminate].
    intros H. inversion H; subst.
    apply IH in Ei. eapply consumed_trans; [exact Ei|].
    eapply consumed_trans; [apply consumed_cons|].
    eapply consumed_suffix_l; eassumption.
Qed.

Lemma JSONObject_suffix (fuel : nat) (s : list N) (v : json) (rest : list N) :
  JSONObject scan fuel s = Some (v, rest) -> rest `suffix_of` s.
Proof.
  unfold JSONObject. pose proof (skip_ws_suffix s) as Hws.
  destruct (skip_ws s) as [|c r]; [discriminate|].
  destruct (c =? 125).
  - intros H. inversion H; subst. etrans; [|exact Hws]. apply suffix_cons_r. reflexivity.
  - destruct (c =? 34); [|discriminate].
    destruct (object_items scan fuel r) as [[kvs r']|] eqn:E; [|discriminate].
    intros H. inversion H; subst.
    apply object_items_consumed in E.
    etrans; [exact (proj1 E)|]. etrans; [|exact Hws]. apply suffix_cons_r. reflexivity.
Qed.

End ContainersConsume.

Lemma scan_once_consumed (fuel : nat) :
  forall s v rest, scan_once fuel s = Some (v, rest) -> consumed rest s.
Proof.
  induction fuel as [|f IH]; intros s v rest; [discriminate|].
  cbn [scan_once]. destruct s as [|c r]; [discriminate|].
  destruct (c =? 34).
  { destruct (scanstring r) as [[str r']|] eqn:E; [|discriminate].
    intros H. inversion H; subst. apply scanstring_consumed in E.
    eapply consumed_suffix_r; [exact E|]. apply suffix_cons_r. reflexivity. }
  destruct (c =? 123).
  { intros H. apply (JSONObject_suffix _ IH) in H.
    eapply consumed_suffix_l; [exact H|apply consumed_cons]. }
  destruct (c =? 91).
  { intros H. apply (JSONArray_suffix _ IH) in H.
    eapply consumed_suffix_l; [exact H|apply consumed_cons]. }
  assert (Hdrop : forall n, (0 < n)%nat -> (n <= length (c :: r))%nat ->
                            consumed (drop n (c :: r)) (c :: r)).
  { intros n Hn Hl. split; [apply suffix_drop|]. rewrite length_drop. lia. }
  destruct (startswith (py "null") (c :: r)) eqn:E1.
  { intros H. inversion H; subst. apply (Hdrop 4%nat); [lia|].
    apply startswith_inv in E1 as [post ->]. rewrite length_app. simpl. lia. }
  destruct (startswith (py "true") (c :: r)) eqn:E2.
  { intros H. inversion H; subst. apply (Hdrop 4%nat); [lia|].
    apply startswith_inv in E2 as [post ->]. rewrite length_app. simpl. lia. }
  destruct (startswith (py "false") (c :: r)) eqn:E3.
  { intros H. inversion H; subst. apply (Hdrop 5%nat); [lia|].
    apply startswith_inv in E3 as [post ->]. rewrite length_app. simpl. lia. }
  destruct (match_number (c :: r)) as [[z r']|] eqn:E; [|discriminate].
  intros H. inversion H; subst. eapply match_number_consumed. exact E.
Qed.

(** ** The fuel of the decoder is never what stops it *)

Section ContainersFuel.

Variables scan scan' : list N -> option (json * list N).
Hypothesis scan_consumes : forall s v r, scan s = Some (v, r) -> consumed r s.

Lemma array_items_fuel (n : nat) :
  forall (n' : nat) (s : list N),
    (length s < n)%nat -> (length s < n')%nat ->
    (forall x, x `suffix_of` s -> scan x = scan' x) ->
    array_items scan n s = array_items scan' n' s.
Proof.
  induction n as [|n IH]; intros n' s Hn Hn' Hag; [lia|].
  destruct n' as [|n']; [lia|].
  cbn [array_items]. rewrite <- (Hag s) by reflexivity.
  destruct (scan s) as [[v r]|] eqn:E; [|reflexivity].
  apply scan_consumes in E as [Hrs Hrl].
  pose proof (skip_ws_suffix r) as Hws.
  destruct (skip_ws r) as [|c r']; [reflexivity|].
  destruct (c =? 93); [reflexivity|].
  destruct (c =? 44); [|reflexivity].
  assert (Hsuf : skip_ws r' `suffix_of` s).
  { etrans; [apply skip_ws_suffix|]. etrans; [|exact Hrs].
    etrans; [|exact Hws]. apply suffix_cons_r. reflexivity. }
  assert (Hlen : (length (skip_ws r') < length s - 1)%nat).
  { pose proof (suffix_length _ _ (skip_ws_suffix r')).
    apply suffix_length in Hws. simpl in Hws. lia. }
  rewrite (IH n' (skip_ws r')); [reflexivity|lia|lia|].
  intros x Hx. apply Hag. etrans; eassumption.
Qed.

Lemma object_items_fuel (n : nat) :
  forall (n' : nat) (s : list N),
    (length s < n)%nat -> (length s < n')%nat ->
    (forall x, x `suffix_of` s -> scan x = scan' x) ->
    object_items scan n s = object_items scan' n' s.
Proof.
  induction n as [|n IH]; intros n' s Hn Hn' Hag; [lia|].
  destruct n' as [|n']; [lia|].
  cbn [object_items].
  destruct (scanstring s) as [[key r]|] eqn:Ek; [|reflexivity].
  apply scanstring_consumed in Ek as [Hrs Hrl].
  pose proof (skip_ws_suffix r) as Hws.
  destruct (skip_ws r) as [|c r1]; [reflexivity|].
  destruct (c =? 58); [|reflexivity].
  assert (Hr1 : r1 `suffix_of` s).
  { etrans; [|exact Hrs]. etrans; [|exact Hws]. apply suffix_cons_r. reflexivity. }
  rewrite <- (Hag (skip_ws r1)) by (etrans; [apply skip_ws_suffix|exact Hr1]).
  destruct (scan (skip_ws r1)) as [[v r2]|] eqn:Ev; [|reflexivity].
  apply scan_consumes in Ev as [Hr2 Hl2].
  pose proof (skip_ws_suffix r2) as Hws2.
  destruct (skip_ws r2) as [|c2 r3]; [reflexivity|].
  destruct (c2 =? 125); [reflexivity|].
  destruct (c2 =? 44); [|reflexivity].
  pose proof (skip_ws_suffix r3) as Hws3.
  destruct (skip_ws r3) as [|q r4]; [reflexivity|].
  destruct (q =? 34); [|reflexivity].
  assert (Hr4 : r4 `suffix_of` s).
  { etrans; [apply (suffix_cons_r r4 r4 q); reflexivity|]. etrans; [exact Hws3|].
    etrans; [apply (suffix_cons_r r3 r3 c2); reflexivity|]. etrans; [exact Hws2|].
    etrans; [exact Hr2|]. etrans; [apply skip_ws_suffix|exact Hr1]. }
  assert (Hlen : (length r4 < length s - 1)%nat).
  { apply suffix_length in Hws, Hws2, Hws3.
    pose proof (suffix_length _ _ (skip_ws_suffix r1)).
    simpl in Hws, Hws2, Hws3. lia. }
  rewrite (IH n' r4); [reflexivity|lia|lia|].
  intros x Hx. apply Hag. etrans; eassumption.
Qed.

End ContainersFuel.

Lemma scan_once_fuel (f : nat) :
  forall (f' : nat) (s : list N),
    (length s < f)%nat -> (length s < f')%nat ->
    scan_once f s = scan_once f' s.
Proof.
  induction f as [|f IH]; intros f' s Hf Hf'; [lia|].
  destruct f' as [|f']; [lia|].
  cbn [scan_once]. destruct s as [|c r]; [reflexivity|]. simpl in Hf, Hf'.
  destruct (c =? 34); [reflexivity|].
  destruct (c =? 123).
  { unfold JSONObject. pose proof (skip_ws_suffix r) as Hws.
    destruct (skip_ws r) as [|c' r']; [reflexivity|].
    destruct (c' =? 125); [reflexivity|]. destruct (c' =? 34); [|reflexivity].
    apply suffix_length in Hws. simpl in Hws.
    rewrite (object_items_fuel (scan_once f) (scan_once f')
               (scan_once_consumed f) f f' r'); [reflexivity|lia|lia|].
    intros x Hx. apply suffix_length in Hx. apply IH; lia. }
  destruct (c =? 91).
  { unfold JSONArray. pose proof (skip_ws_suffix r) as Hws.
    destruct (skip_ws r) as [|c' r']; [reflexivity|].
    destruct (c' =? 93); [reflexivity|].
    apply suffix_length in Hws.
    rewrite (array_items_fuel (scan_once f) (scan_once f')
               (scan_once_consumed f) f f' (c' :: r')); [reflexivity|lia|lia|].
    intros x Hx. apply suffix_length in Hx. apply IH; lia. }
  reflexivity.
Qed.

(** More fuel than [json_loads] takes changes nothing: [None] is a text
    the decoder rejects. *)
Lemma json_loads_fuel (text : list N) (fuel : nat) :
  (length text < fuel)%nat ->
  scan_once fuel (skip_ws text) = scan_once (S (length text)) (skip_ws text).
Proof.
  intros H. pose proof (suffix_length _ _ (skip_ws_suffix text)).
  apply scan_once_fuel; lia.
Qed.

(** ** What the decoder returns can be written and read back *)

Lemma decoded_text_suffix (r s : list N) :
  r `suffix_of` s -> decoded_text s -> decoded_text r.
Proof.
  intros [k ->] H. unfold decoded_text in *. apply Forall_app in H. tauto.
Qed.

Lemma scalar_spec (c : N) :
  scalar c = true ->
  c < 1114112 /\ is_high_surrogate c = false /\ is_low_surrogate c = false.
Proof.
  unfold scalar, is_high_surrogate, is_low_surrogate. intros H.
  apply orb_true_iff in H as [H|H].
  - apply N.ltb_lt in H. split; [lia|].
    split; apply andb_false_iff; left; apply N.leb_gt; lia.
  - apply andb_true_iff in H as [H1 H2]. apply N.ltb_lt in H1, H2.
    split; [lia|].
    split; apply andb_false_iff; right; apply N.leb_gt; lia.
Qed.

Lemma not_surrogate_below (x : N) :
  x < 55296 -> is_high_surrogate x = false /\ is_low_surrogate x = false.
Proof.
  intros H. unfold is_high_surrogate, is_low_surrogate.
  split; apply andb_false_iff; left; apply N.leb_gt; lia.
Qed.

Lemma not_surrogate_above (x : N) :
  57343 < x -> is_high_surrogate x = false /\ is_low_surrogate x = false.
Proof.
  intros H. unfold is_high_surrogate, is_low_surrogate.
  split; apply andb_false_iff; right; apply N.leb_gt; lia.
Qed.

Lemma unhex_lt (c d : N) : unhex c = Some d -> d < 16.
Proof.
  unfold unhex, is_digit.
  destruct ((48 <=? c) && (c <=? 57)) eqn:E1.
  { apply andb_true_iff in E1 as [H1 H2]. apply N.leb_le in H1, H2.
    intros H. inversion H. lia. }
  destruct ((97 <=? c) && (c <=? 102)) eqn:E2.
  { apply andb_true_iff in E2 as [H1 H2]. apply N.leb_le in H1, H2.
    intros H. inversion H. lia. }
  destruct ((65 <=? c) && (c <=? 70)) eqn:E3; [|discriminate].
  apply andb_true_iff in E3 as [H1 H2]. apply N.leb_le in H1, H2.
  intros H. inversion H. lia.
Qed.

Lemma unhex4_lt (a b c d u : N) : unhex4 a b c d = Some u -> u < 65536.
Proof.
  unfold unhex4.
  destruct (unhex a) as [x|] eqn:Ea; [|discriminate].
  destruct (unhex b) as [y|] eqn:Eb; [|discriminate].
  destruct (unhex c) as [z|] eqn:Ec; [|discriminate].
  destruct (unhex d) as [t|] eqn:Ed; [|discriminate].
  apply unhex_lt in Ea, Eb, Ec, Ed. intros H. inversion H. lia.
Qed.

Lemma unescape_lt (e x : N) : unescape e = Some x -> x < 128.
Proof.
  unfold unescape.
  repeat match goal with
         | |- context [if ?b then _ else _] => destruct b
         end; intros H; inversion H; reflexivity.
Qed.

Lemma join_surrogates_range (u1 u2 : N) :
  is_high_surrogate u1 = true -> is_low_surrogate u2 = true ->
  65536 <= join_surrogates u1 u2 < 1114112.
Proof.
  unfold is_high_surrogate, is_low_surrogate, join_surrogates.
  intros H1 H2.
  apply andb_true_iff in H1 as [H1 H1']. apply andb_true_iff in H2 as [H2 H2'].
  apply N.leb_le in H1, H1', H2, H2'.
  rewrite lor_shiftl_low by (change (2 ^ 10) with 1024; lia).
  change (2 ^ 10) with 1024. lia.
Qed.

(** The character read is a code point; a high surrogate is read only
    when no low-surrogate escape follows it, a low surrogate only from
    its own escape. *)
Lemma read_as_facts (k : list N) (x : N) (s' : list N) :
  read_as k x s' -> decoded_text (k ++ s') ->
  x < 1114112
  /\ is_high_surrogate x && pairs_with_low s' = false
  /\ (is_low_surrogate x = true -> pairs_with_low (k ++ s') = true).
Proof.
  intros [(-> & _) | [(e & -> & _ & He) | [(a & b & c & d & -> & Hu & Hp)
    | (a & b & c & d & a2 & b2 & c2 & d2 & u1 & u2 & -> & _ & H1 & _ & H2 & ->)]]] Hdec.
  - inversion Hdec as [|? ? Hx _]; subst.
    apply scalar_spec in Hx as (Hx & Hh & Hl). rewrite Hh, Hl.
    repeat split; [exact Hx|discriminate].
  - apply unescape_lt in He.
    destruct (not_surrogate_below x) as [Hh Hl]; [lia|]. rewrite Hh, Hl.
    repeat split; [lia|discriminate].
  - pose proof (unhex4_lt _ _ _ _ _ Hu).
    split; [lia|]. split; [exact Hp|].
    intros Hl. cbn [app pairs_with_low]. rewrite Hu. exact Hl.
  - destruct (join_surrogates_range u1 u2 H1 H2) as [Hlo Hhi].
    destruct (not_surrogate_above (join_surrogates u1 u2)) as [Hh Hl]; [lia|].
    rewrite Hh, Hl. repeat split; [exact Hhi|discriminate].
Qed.

Lemma scanstring_text_ok (s : list N) :
  forall str rest,
    decoded_text s -> scanstring s = Some (str, rest) -> text_ok str = true.
Proof.
  induction s as [s IH] using list_length_ind. intros str rest Hdec H.
  apply scanstring_inv in H as [(_ & ->) | (x & k & s' & str' & -> & -> & Hs & Hk)];
    [reflexivity|].
  destruct (read_as_facts k x s' Hk Hdec) as (Hx & Hp & _).
  pose proof (consumed_app k s' (read_as_nonempty _ _ _ Hk)) as [Hsuf Hlen].
  pose proof (decoded_text_suffix _ _ Hsuf Hdec) as Hdec'.
  cbn [text_ok]. rewrite (IH s' Hlen str' rest Hdec' Hs), andb_true_r.
  apply andb_true_iff. split; [apply N.ltb_lt; exact Hx|].
  apply negb_true_iff.
  destruct (is_high_surrogate x); [|reflexivity]. simpl in Hp |- *.
  destruct str' as [|d str'']; [reflexivity|].
  destruct (is_low_surrogate d) eqn:Hd; [|reflexivity].
  apply scanstring_inv in Hs
    as [(_ & Hnil) | (x' & k' & s'' & str3 & -> & Heq & _ & Hk')];
    [discriminate|].
  inversion Heq; subst x' str3.
  destruct (read_as_facts k' d s'' Hk' Hdec') as (_ & _ & Hlow).
  rewrite (Hlow Hd) in Hp. discriminate.
Qed.

(** ** [dict(pairs)] *)

Lemma dict_set_keys_old (d : list (list N * json)) (key : list N) (v : json) :
  In key (map fst d) -> map fst (dict_set d key v) = map fst d.
Proof.
  induction d as [|[k x] d IH]; intros Hin; [contradiction|].
  cbn [dict_set]. destruct (str_eqb k key) eqn:E; [reflexivity|].
  cbn [map fst]. rewrite IH; [reflexivity|].
  destruct Hin as [Heq|Hin]; [|exact Hin].
  simpl in Heq. subst. rewrite str_eqb_refl in E. discriminate.
Qed.

Lemma dict_set_keys_new (d : list (list N * json)) (key : list N) (v : json) :
  ~ In key (map fst d) -> map fst (dict_set d key v) = map fst d ++ [key].
Proof. intros H. rewrite dict_set_fresh by exact H. apply map_app. Qed.

Lemma dict_set_Forall (P : list N * json -> Prop) (d : list (list N * json))
    (key : list N) (v : json) :
  Forall P d -> P (key, v) -> Forall P (dict_set d key v).
Proof.
  intros Hd Hkv. induction Hd as [|[k x] d Hx Hd IH]; cbn [dict_set].
  - constructor; [exact Hkv|constructor].
  - destruct (str_eqb k key) eqn:E.
    + apply str_eqb_eq in E. subst. constructor; assumption.
    + constructor; assumption.
Qed.

Lemma dict_of_pairs_ok (P : list N * json -> Prop) (pairs : list (list N * json)) :
  Forall P pairs ->
  NoDup (map fst (dict_of_pairs pairs)) /\ Forall P (dict_of_pairs pairs).
Proof.
  unfold dict_of_pairs.
  assert (H : forall acc, NoDup (map fst acc) -> Forall P acc -> Forall P pairs ->
    NoDup (map fst (fold_left (fun d kv => dict_set d (fst kv) (snd kv)) pairs acc))
    /\ Forall P (fold_left (fun d kv => dict_set d (fst kv) (snd kv)) pairs acc)).
  { induction pairs as [|[k v] ps IH]; intros acc Hnd Hacc Hps; [auto|].
    apply Forall_cons in Hps as [Hkv Hps].
    cbn [fold_left fst snd]. apply IH; [|apply dict_set_Forall; assumption|exact Hps].
    destruct (decide (k ∈ map fst acc)) as [E|E].
    - rewrite dict_set_keys_old by (apply list_elem_of_In; exact E). exact Hnd.
    - rewrite dict_set_keys_new by (rewrite <- list_elem_of_In; exact E).
      apply NoDup_app. split; [exact Hnd|]. split; [|apply NoDup_singleton].
      intros y Hy Hin. apply list_elem_of_singleton in Hin. subst.
      apply E. exact Hy. }
  intros Hps. apply H; [constructor|constructor|exact Hps].
Qed.

Lemma forallb_of_Forall {A : Type} (f : A -> bool) (l : list A) :
  Forall (fun x => f x = true) l -> forallb f l = true.
Proof.
  induction 1 as [|x l Hx _ IH]; [reflexivity|].
  cbn [forallb]. rewrite Hx, IH. reflexivity.
Qed.

Section ContainersOk.

Variable scan : list N -> option (json * list N).
Hypothesis scan_consumes : forall s v r, scan s = Some (v, r) -> consumed r s.
Hypothesis scan_ok :
  forall s v r, decoded_text s -> scan s = Some (v, r) -> json_ok v = true.

Lemma array_items_ok (fuel : nat) :
  forall s vs rest,
    decoded_text s -> array_items scan fuel s = Some (vs, rest) ->
    forallb json_ok vs = true.
Proof.
  induction fuel as [|f IH]; intros s vs rest Hdec; [discriminate|].
  cbn [array_items].
  destruct (scan s) as [[v r]|] eqn:Ev; [|discriminate].
  pose proof (scan_ok _ _ _ Hdec Ev) as Hv.
  apply scan_consumes in Ev as [Hrs _].
  pose proof (skip_ws_suffix r) as Hws.
  destruct (skip_ws r) as [|c r']; [discriminate|].
  destruct (c =? 93).
  - intros H. inversion H; subst. cbn [forallb]. rewrite Hv. reflexivity.
  - destruct (c =? 44); [|discriminate].
    destruct (array_items scan f (skip_ws r')) as [[vs' r'']|] eqn:Ei; [|discriminate].
    intros H. inversion H; subst. cbn [forallb]. rewrite Hv.
    apply (IH (skip_ws r') vs' rest); [|exact Ei].
    apply (decoded_text_suffix _ s); [|exact Hdec].
    etrans; [apply skip_ws_suffix|]. etrans; [|exact Hrs].
    etrans; [|exact Hws]. apply suffix_cons_r. reflexivity.
Qed.

Lemma object_items_ok (fuel : nat) :
  forall s kvs rest,
    decoded_text s -> object_items scan fuel s = Some (kvs, rest) ->
    Forall (fun kv => text_ok (fst kv) && json_ok (snd kv) = true) kvs.
Proof.
  induction fuel as [|f IH]; intros s kvs rest Hdec; [discriminate|].
  cbn [object_items].
  destruct (scanstring s) as [[key r]|] eqn:Ek; [|discriminate].
  pose proof (scanstring_text_ok _ _ _ Hdec Ek) as Hkey.
  apply scanstring_consumed in Ek as [Hrs _].
  pose proof (skip_ws_suffix r) as Hws.
  destruct (skip_ws r) as [|c r1]; [discriminate|].
  destruct (c =? 58); [|discriminate].
  assert (Hr1 : r1 `suffix_of` s).
  { etrans; [|exact Hrs]. etrans; [|exact Hws]. apply suffix_cons_r. reflexivity. }
  assert (Hs1 : skip_ws r1 `suffix_of` s)
    by (etrans; [apply skip_ws_suffix|exact Hr1]).
  destruct (scan (skip_ws r1)) as [[v r2]|] eqn:Ev; [|discriminate].
  pose proof (scan_ok _ _ _ (decoded_text_suffix _ _ Hs1 Hdec) Ev) as Hv.
  apply scan_consumes in Ev as [Hr2 _].
  pose proof (skip_ws_suffix r2) as Hws2.
  destruct (skip_ws r2) as [|c2 r3]; [discriminate|].
  assert (Hkv : text_ok (fst (key, v)) && json_ok (snd (key, v)) = true)
    by (cbn [fst snd]; rewrite Hkey, Hv; reflexivity).
  destruct (c2 =? 125).
  - intros H. inversion H; subst. constructor; [exact Hkv|constructor].
  - destruct (c2 =? 44); [|discriminate].
    pose proof (skip_ws_suffix r3) as Hws3.
    destruct (skip_ws r3) as [|q r4]; [discriminate|].
    destruct (q =? 34); [|discriminate].
    destruct (object_items scan f r4) as [[kvs' r5]|] eqn:Ei; [|discriminate].
    intros H. inversion H; subst. constructor; [exact Hkv|].
    apply (IH r4 kvs' rest); [|exact Ei].
    apply (decoded_text_suffix _ s); [|exact Hdec].
    etrans; [apply (suffix_cons_r r4 r4 q); reflexivity|]. etrans; [exact Hws3|].
    etrans; [apply (suffix_cons_r r3 r3 c2); reflexivity|]. etrans; [exact Hws2|].
    etrans; [exact Hr2|]. exact Hs1.
Qed.

End ContainersOk.

Lemma scan_once_ok (fuel : nat) :
  forall s v rest,
    decoded_text s -> scan_once fuel s = Some (v, rest) -> json_ok v = true.
Proof.
  induction fuel as [|f IH]; intros s v rest Hdec; [discriminate|].
  cbn [scan_once]. destruct s as [|c r]; [discriminate|].
  assert (Hr : decoded_text r)
    by (apply (decoded_text_suffix _ (c :: r)); [apply suffix_cons_r; reflexivity|exact Hdec]).
  destruct (c =? 34).
  { destruct (scanstring r) as [[str r']|] eqn:E; [|discriminate].
    intros H. inversion H; subst. cbn [json_ok].
    eapply scanstring_text_ok; eassumption. }
  destruct (c =? 123).
  { unfold JSONObject. pose proof (skip_ws_suffix r) as Hws.
    destruct (skip_ws r) as [|c' r']; [discriminate|].
    destruct (c' =? 125); [intros H; inversion H; reflexivity|].
    destruct (c' =? 34); [|discriminate].
    destruct (object_items (scan_once f) f r') as [[kvs r'']|] eqn:E; [|discriminate].
    intros H. inversion H; subst.
    apply (object_items_ok _ (scan_once_consumed f) IH) in E.
    - destruct (dict_of_pairs_ok _ kvs E) as [Hnd Hall].
      cbn [json_ok]. apply andb_true_iff. split.
      + apply bool_decide_eq_true. exact Hnd.
      + apply forallb_of_Forall. exact Hall.
    - apply (decoded_text_suffix _ r); [|exact Hr].
      etrans; [|exact Hws]. apply suffix_cons_r. reflexivity. }
  destruct (c =? 91).
  { unfold JSONArray. pose proof (skip_ws_suffix r) as Hws.
    destruct (skip_ws r) as [|c' r']; [discriminate|].
    destruct (c' =? 93); [intros H; inversion H; reflexivity|].
    destruct (array_items (scan_once f) f (c' :: r')) as [[vs r'']|] eqn:E;
      [|discriminate].
    intros H. inversion H; subst. cbn [json_ok].
    apply (array_items_ok _ (scan_once_consumed f) IH) in E; [exact E|].
    apply (decoded_text_suffix _ r); assumption. }
  destruct (startswith (py "null") (c :: r)); [intros H; inversion H; reflexivity|].
  destruct (startswith (py "true") (c :: r)); [intros H; inversion H; reflexivity|].
  destruct (startswith (py "false") (c :: r)); [intros H; inversion H; reflexivity|].
  destruct (match_number (c :: r)) as [[z r']|]; [|discriminate].
  intros H. inversion H. reflexivity.
Qed.

(** Whatever [json.load] reads from a decoded text can be written and
    read back. *)
Lemma json_loads_ok (text : list N) (v : json) :
  decoded_text text -> json_loads text = Some v -> json_ok v = true.
Proof.
  intros Hdec. unfold json_loads.
  destruct (scan_once (S (length text)) (skip_ws text)) as [[v' r]|] eqn:E;
    [|discriminate].
  destruct (skip_ws r); [|discriminate]. intros H. inversion H; subst.
  apply scan_once_ok in E; [exact E|].
  apply (decoded_text_suffix _ text); [apply skip_ws_suffix|exact Hdec].
Qed.

(** ** Saving and loading the history *)

Lemma save_alerts_to_file_world (w : world) :
  save_alerts_to_file w
  = (Return tt, with_files (<[ALERTS_FILE := json_dumps (alerts w)]> (files w)) w).
Proof. reflexivity. Qed.

Lemma startup_json_ok (fs : gmap (list N) (list N))
    (bs : gmap (list N) (list Byte.byte))
    (clk : nat -> datetime) (ent : nat -> nat) :
  history_decoded fs -> json_ok (alerts (startup fs bs clk ent)) = true.
Proof.
  intros Hdec. rewrite startup_alerts.
  destruct (fs !! ALERTS_FILE) as [text|] eqn:E; [|reflexivity].
  destruct (json_loads text) as [v|] eqn:Ev; [|reflexivity].
  eapply json_loads_ok; [|exact Ev]. apply Hdec. exact E.
Qed.

(** The one shape of string the JSON text does not carry. *)
Lemma split_pair_joined :
  json_ok split_pair = false
  /\ json_loads (json_dumps split_pair) = Some (JStr [128512]).
Proof. split; vm_compute; reflexivity. Qed.

(** C8: once the store is saved, the history file holds its JSON text,
    and loading the file gives the same sequence of records back,
    whatever the memory held in between: the load overwrites the store
    with what the file holds, and so does a start of the server from
    these files.  This holds for every store whose strings the JSON text
    can carry ([json_ok]: no high surrogate directly before a low one),
    and every store the server can hold is such: whatever history file it
    started from and whatever requests it served. *)
Theorem save_then_load :
  (forall (w : world) (x : json),
     json_ok (alerts w) = true ->
     files (snd (save_alerts_to_file w)) !! ALERTS_FILE = Some (json_dumps (alerts w))
     /\ json_loads (json_dumps (alerts w)) = Some (alerts w)
     /\ load_alerts_from_file (with_alerts x (snd (save_alerts_to_file w)))
        = (Return (alerts w), snd (save_alerts_to_file w))
     /\ (forall (bs : gmap (list N) (list Byte.byte))
           (clk : nat -> datetime) (ent : nat -> nat),
           alerts (startup (files (snd (save_alerts_to_file w))) bs clk ent)
           = alerts w))
  /\ (forall (fs : gmap (list N) (list N)) (bs : gmap (list N) (list Byte.byte))
        (clk : nat -> datetime) (ent : nat -> nat) (calls : list call),
        history_decoded fs -> forallb call_ok calls = true ->
        json_ok (alerts (run calls (startup fs bs clk ent))) = true).
Proof.
  split.
  - intros w x Hok. rewrite save_alerts_to_file_world. cbn [snd].
    pose proof (json_loads_dumps (alerts w) Hok) as Hrt.
    split; [apply lookup_insert_eq|]. split; [exact Hrt|]. split.
    + rewrite load_alerts_from_file_run. cbn [files with_files with_alerts].
      rewrite lookup_insert_eq, Hrt. destruct w; reflexivity.
    + intros bs clk ent. rewrite startup_alerts. cbn [files with_files].
      rewrite lookup_insert_eq, Hrt. reflexivity.
  - intros fs bs clk ent calls Hdec Hcalls.
    apply run_json_ok; [apply startup_json_ok; exact Hdec|exact Hcalls].
Qed.

Lemma save_then_load_witness :
  load_alerts_from_file
    (with_alerts (JList [])
       (snd (save_alerts_to_file (run [Old door_post; Old image_post] fresh_world))))
  = (Return (alerts (run [Old door_post; Old image_post] fresh_world)),
     snd (save_alerts_to_file (run [Old door_post; Old image_post] fresh_world))).
Proof.
  destruct save_then_load as [Hround Hreach].
  apply (Hround (run [Old door_post; Old image_post] fresh_world) (JList [])).
  apply (Hreach ∅ ∅ (fun _ => noon) (fun n => n) [Old door_post; Old image_post]).
  - intros text H. rewrite lookup_empty in H. discriminate.
  - vm_compute. reflexivity.
Defined.

(** * Further properties of the routes *)

(** ** What the routes leave alone *)

(** X1: the reading routes (power status, alerts of a device, alert
    history, the page served on GET) leave the whole state as it was,
    whatever they answer. *)
Theorem read_routes_change_nothing (c : call) (w : world) :
  reads_only c = true -> snd (serve c w) = w.
Proof.
  intros H. rewrite serve_snd.
  pose proof (read_routes_world c w) as Hr.
  destruct c as [r|r|r|d|d|]; try discriminate; try exact Hr.
  simpl in H |- *. unfold receive_from_esp32.
  destruct (method r); [reflexivity|discriminate].
Qed.

Lemma read_routes_change_nothing_witness :
  snd (serve (GetDeviceAlerts (py "DEV001")) (run [Old door_post] fresh_world))
  = run [Old door_post] fresh_world
  /\ snd (serve (Old get_page) fresh_world) = fresh_world.
Proof.
  split; apply read_routes_change_nothing; reflexivity.
Defined.

Lemma receive_from_esp32_power (r : request) (w : world) :
  power_status (snd (receive_from_esp32 r w)) = power_status w
  /\ draws (snd (receive_from_esp32 r w)) = draws w.
Proof.
  unfold receive_from_esp32. destruct (method r); [split; reflexivity|].
  destruct w as [a p f b c t e d].
  destruct (bool_decide (content_type r = Some (py "image/jpeg"))).
  { destruct a; split; reflexivity. }
  destruct (bool_decide (content_type r
              = Some (py "application/x-www-form-urlencoded")));
    [|split; reflexivity].
  destruct a; split; reflexivity.
Qed.

Lemma power_routes_rejected (r : request) (w : world) (resp : response) :
  rejection w r = Some resp ->
  serve (UpdatePowerStatus r) w = (resp, w)
  /\ serve (SimulatePowerChange r) w = (resp, w).
Proof.
  unfold rejection, serve, dispatch, update_power_status, simulate_power_change,
    request_json, lift, py_get, registered, mbind, M_bind, mret, M_ret.
  destruct (json_body r) as [[| | | |l|d]|e]; simpl;
    try (intros H; inversion H; split; reflexivity).
  destruct (dict_get d (py "device_id") JNull) as [| | |key|l|d']; simpl;
    try (intros H; inversion H; split; reflexivity).
  destruct (power_status w !! key); simpl; [discriminate|].
  intros H; inversion H; split; reflexivity.
Qed.

Lemma rejection_none (r : request) (w : world) :
  rejection w r = None ->
  exists d key,
    json_body r = Return (JDict d) /\ dict_get d (py "device_id") JNull = JStr key
    /\ is_Some (power_status w !! key).
Proof.
  unfold rejection.
  destruct (json_body r) as [[| | | |l|d]|e]; try discriminate.
  destruct (dict_get d (py "device_id") JNull) as [| | |key|l|d'] eqn:E;
    try discriminate.
  destruct (power_status w !! key) eqn:Ek; [|discriminate].
  intros _. exists d, key. eauto.
Qed.

(** X2: the two power routes answer alike to a request they do not act
    on.  When [request.json] raises, the answer is the one of the
    framework: the status of the [HTTPException] (415 for a content type
    that is not JSON, 400 for a body that does not parse).  When it
    returns, the answer is 500 for a body that is no JSON object or a
    [device_id] that is a list or an object, and 404 for a [device_id]
    that is missing, null, a boolean, a number or an unregistered string.
    In each of these cases nothing changes, not even the clock and
    generator counters.  Every other request is answered with status
    200. *)
Theorem power_routes_accept_or_reject (r : request) (w : world) :
  match rejection w r with
  | Some resp =>
      serve (UpdatePowerStatus r) w = (resp, w)
      /\ serve (SimulatePowerChange r) w = (resp, w)
  | None =>
      status (fst (serve (UpdatePowerStatus r) w)) = 200
      /\ status (fst (serve (SimulatePowerChange r) w)) = 200
  end
  /\ (forall code, json_body r = Raise (HTTPException code) ->
        serve (UpdatePowerStatus r) w = ({| body := ErrorPage; status := code |}, w)
        /\ serve (SimulatePowerChange r) w
           = ({| body := ErrorPage; status := code |}, w)).
Proof.
  split.
  - destruct (rejection w r) as [resp|] eqn:E.
    + apply power_routes_rejected. exact E.
    + apply rejection_none in E as (d & key & Hb & Hd & Hk).
      rewrite (update_power_status_ok r w d key Hb Hd Hk).
      unfold serve. simpl dispatch.
      rewrite (simulate_power_change_ok r w d key Hb Hd Hk). split; reflexivity.
  - intros code Hb. apply power_routes_rejected.
    unfold rejection. rewrite Hb. reflexivity.
Qed.

Lemma power_routes_accept_or_reject_witness :
  serve (UpdatePowerStatus text_plain_post) fresh_world
    = ({| body := ErrorPage; status := 415 |}, fresh_world)
  /\ serve (SimulatePowerChange malformed_json_post) fresh_world
     = ({| body := ErrorPage; status := 400 |}, fresh_world).
Proof.
  split.
  - apply (power_routes_accept_or_reject text_plain_post fresh_world). reflexivity.
  - apply (power_routes_accept_or_reject malformed_json_post fresh_world). reflexivity.
Defined.

(** ** The registered devices *)

Lemma insert_existing_dom (p : gmap (list N) power_entry) (key : list N)
    (e : power_entry) :
  is_Some (p !! key) -> dom (<[key := e]> p) = dom p.
Proof.
  intros H. rewrite dom_insert_L. apply subseteq_union_1_L.
  apply singleton_subseteq_l, elem_of_dom. exact H.
Qed.

Lemma serve_power_status (c : call) (w : world) :
  power_status (snd (serve c w)) = power_status w
  \/ exists key e,
       is_Some (power_status w !! key)
       /\ power_status (snd (serve c w)) = <[key := e]> (power_status w)
       /\ match c with
          | UpdatePowerStatus r | SimulatePowerChange r =>
              exists d, json_body r = Return (JDict d)
                        /\ dict_get d (py "device_id") JNull = JStr key
          | _ => False
          end.
Proof.
  destruct c as [r|r|r|d|d|].
  - left. rewrite serve_snd. apply receive_from_esp32_power.
  - destruct (rejection w r) as [resp|] eqn:E.
    + left. destruct (power_routes_rejected r w resp E) as [-> _]. reflexivity.
    + apply rejection_none in E as (d & key & Hb & Hd & Hk). right.
      rewrite (update_power_status_ok r w d key Hb Hd Hk). cbn [snd power_status with_power_status].
      eexists key, _. split; [exact Hk|]. split; [reflexivity|]. eauto.
  - destruct (rejection w r) as [resp|] eqn:E.
    + left. destruct (power_routes_rejected r w resp E) as [_ ->]. reflexivity.
    + apply rejection_none in E as (d & key & Hb & Hd & Hk). right.
      unfold serve. simpl dispatch.
      rewrite (simulate_power_change_ok r w d key Hb Hd Hk).
      cbn [snd power_status with_power_status].
      eexists key, _. split; [exact Hk|]. split; [reflexivity|]. eauto.
  - left. rewrite serve_snd.
    pose proof (read_routes_world (GetPowerStatus d) w) as H. simpl in H.
    simpl dispatch. rewrite H. reflexivity.
  - left. rewrite serve_snd.
    pose proof (read_routes_world (GetDeviceAlerts d) w) as H. simpl in H.
    simpl dispatch. rewrite H. reflexivity.
  - left. reflexivity.
Qed.

(** X3: no sequence of requests registers or removes a device: the keys
    of [power_status] stay the ones it started with. *)
Theorem registered_devices_fixed (calls : list call) (w : world) :
  dom (power_status (run calls w)) = dom (power_status w).
Proof.
  revert w. induction calls as [|c calls IH]; intros w; [reflexivity|].
  change (run (c :: calls) w) with (run calls (snd (serve c w))).
  rewrite IH.
  destruct (serve_power_status c w) as [-> | (key & e & Hk & -> & _)];
    [reflexivity|].
  apply insert_existing_dom. exact Hk.
Qed.

(** X4: a request changes the power entry of no device other than the
    one its body names: the entry of every other device is what it was. *)
Theorem other_devices_untouched (c : call) (w : world) (other : list N) :
  match c with
  | UpdatePowerStatus r | SimulatePowerChange r =>
      forall d, json_body r = Return (JDict d) ->
                dict_get d (py "device_id") JNull <> JStr other
  | _ => True
  end ->
  power_status (snd (serve c w)) !! other = power_status w !! other.
Proof.
  intros Hother.
  destruct (serve_power_status c w) as [-> | (key & e & Hk & -> & Hc)];
    [reflexivity|].
  apply lookup_insert_ne. intros ->.
  destruct c as [r|r|r|d|d|]; try contradiction;
    destruct Hc as (d & Hb & Hd); exact (Hother d Hb Hd).
Qed.

Lemma other_devices_untouched_witness :
  power_status (snd (serve (UpdatePowerStatus update_dev001) two_devices))
    !! py "DEV002" = power_status two_devices !! py "DEV002".
Proof.
  apply (other_devices_untouched (UpdatePowerStatus update_dev001) two_devices
           (py "DEV002")).
  intros d Hb. inversion Hb; subst. vm_compute. discriminate.
Defined.

(** ** Updates as the status route shows them *)

Lemma get_power_status_report (w : world) (device_id : list N) (e : power_entry) :
  power_status w !! device_id = Some e ->
  serve (GetPowerStatus device_id) w = (power_report device_id e, w).
Proof.
  intros He.
  unfold serve, dispatch, get_power_status, registered, get_power_entry,
    mbind, M_bind, mret, M_ret, power_report.
  rewrite He. simpl. rewrite He.
  destruct (power_state (main e) (backup e)). reflexivity.
Qed.

Lemma power_state_truthy (m b : json) :
  power_state m b = power_state (JBool (truthy m)) (JBool (truthy b)).
Proof. reflexivity. Qed.

(** X5: after an accepted update the status route reports the submitted
    values by their truth value only: the label and severity are those of
    the pair of truth values, each supply is "ON" exactly when its value is
    truthy (so the string "false" counts as on, 0 and null as off), and
    the time shown is the clock reading of the update. *)
Theorem update_then_status (r : request) (w : world)
    (d : list (list N * json)) (key : list N) :
  json_body r = Return (JDict d) ->
  dict_get d (py "device_id") JNull = JStr key ->
  is_Some (power_status w !! key) ->
  let m := dict_get d (py "main_supply") JNull in
  let b := dict_get d (py "backup_supply") JNull in
  let w' := snd (serve (UpdatePowerStatus r) w) in
  serve (GetPowerStatus key) w'
  = ({| body := Jsonify (JDict
          [ (py "device_id", JStr key);
            (py "main_supply", JStr (if truthy m then py "ON" else py "OFF"));
            (py "backup_supply", JStr (if truthy b then py "ON" else py "OFF"));
            (py "state", JStr (fst (power_state (JBool (truthy m)) (JBool (truthy b)))));
            (py "state_class",
             JStr (snd (power_state (JBool (truthy m)) (JBool (truthy b)))));
            (py "last_update", JStr (strftime_stamp (clock w (ticks w)))) ]);
        status := 200 |}, w').
Proof.
  intros Hb Hd Hk m b w'. subst w'.
  rewrite (update_power_status_ok r w d key Hb Hd Hk). cbn [snd].
  rewrite (get_power_status_report _ key
             {| main := m; backup := b; last_update := clock w (ticks w) |});
    [reflexivity|].
  cbn [power_status with_power_status]. apply lookup_insert_eq.
Qed.

Lemma update_then_status_witness :
  fst (serve (GetPowerStatus (py "DEV001"))
         (snd (serve (UpdatePowerStatus update_words) fresh_world)))
  = {| body := Jsonify (JDict
         [ (py "device_id", JStr (py "DEV001"));
           (py "main_supply", JStr (py "ON"));
           (py "backup_supply", JStr (py "OFF"));
           (py "state", JStr (py "Main supply active, backup offline"));
           (py "state_class", JStr (py "info"));
           (py "last_update", JStr (py "2024-03-07 12:00:00")) ]);
       status := 200 |}.
Proof.
  rewrite (update_then_status update_words fresh_world _ (py "DEV001")
             eq_refl eq_refl).
  - reflexivity.
  - vm_compute. eexists. reflexivity.
Defined.

(** X6: a run of the simulator for a registered device overwrites
    whatever was stored: the status route then reports both supplies on,
    "Normal - Both supplies active", severity "success", and the clock
    reading of the run. *)
Theorem simulate_then_status (r : request) (w : world)
    (d : list (list N * json)) (key : list N) :
  json_body r = Return (JDict d) ->
  dict_get d (py "device_id") JNull = JStr key ->
  is_Some (power_status w !! key) ->
  let w' := snd (serve (SimulatePowerChange r) w) in
  serve (GetPowerStatus key) w'
  = ({| body := Jsonify (JDict
          [ (py "device_id", JStr key);
            (py "main_supply", JStr (py "ON"));
            (py "backup_supply", JStr (py "ON"));
            (py "state", JStr (py "Normal - Both supplies active"));
            (py "state_class", JStr (py "success"));
            (py "last_update", JStr (strftime_stamp (clock w (ticks w)))) ]);
        status := 200 |}, w').
Proof.
  intros Hb Hd Hk w'. subst w'.
  assert (E : snd (serve (SimulatePowerChange r) w)
              = snd (simulate_power_change r w)) by apply serve_snd.
  rewrite E, (simulate_power_change_ok r w d key Hb Hd Hk). cbn [snd].
  rewrite (get_power_status_report _ key
             {| main := JBool true; backup := JBool true;
                last_update := clock w (ticks w) |});
    [reflexivity|].
  cbn [power_status with_power_status]. apply lookup_insert_eq.
Qed.

Lemma simulate_then_status_witness :
  status (fst (serve (GetPowerStatus (py "DEV001"))
     (snd (serve (SimulatePowerChange simulate_dev001)
        (snd (serve (UpdatePowerStatus update_both_off) fresh_world))))))
  = 200.
Proof.
  rewrite (simulate_then_status simulate_dev001
             (snd (serve (UpdatePowerStatus update_both_off) fresh_world))
             _ (py "DEV001") eq_refl eq_refl).
  - reflexivity.
  - vm_compute. eexists. reflexivity.
Defined.

(** ** What an ingestion request does to a list store *)

Lemma content_types_differ :
  Some (py "application/x-www-form-urlencoded") <> Some (py "image/jpeg").
Proof. intros H. vm_compute in H. discriminate. Qed.

Lemma files_differ : ALERTS_FILE <> MSG_FILE.
Proof. intros H. vm_compute in H. discriminate. Qed.

Lemma is_form_post_inv (r : request) :
  is_form_post r = true ->
  method r = POST /\ content_type r = Some (py "application/x-www-form-urlencoded").
Proof.
  unfold is_form_post. destruct (method r); [discriminate|].
  intros H. apply bool_decide_eq_true in H. auto.
Qed.

Lemma is_image_post_inv (r : request) :
  is_image_post r = true ->
  method r = POST /\ content_type r = Some (py "image/jpeg").
Proof.
  unfold is_image_post. destruct (method r); [discriminate|].
  intros H. apply bool_decide_eq_true in H. auto.
Qed.

#[local] Opaque json_dumps strftime_stamp strftime_compact classify_message
  os_path_join multi_get.

Lemma form_post_world (r : request) (w : world) (l : list json) :
  is_form_post r = true -> alerts w = JList l ->
  let stamp := strftime_stamp (clock w (ticks w)) in
  let store := JList (l ++ [form_alert r (length l) stamp]) in
  receive_from_esp32 r w
  = (Return {| body := Text (py "Message received"); status := 200 |},
     {| alerts := store;
        power_status := power_status w;
        files :=
          <[MSG_FILE :=
              default [] (<[ALERTS_FILE := json_dumps store]> (files w) !! MSG_FILE)
              ++ audit_line stamp (device_of_request r) (message_of_request r)]>
            (<[ALERTS_FILE := json_dumps store]> (files w));
        blobs := blobs w; clock := clock w; ticks := S (ticks w);
        entropy := entropy w; draws := draws w |}).
Proof.
  intros Hr Hl. apply is_form_post_inv in Hr as [Hm Hc].
  unfold receive_from_esp32. rewrite Hm, Hc.
  rewrite (bool_decide_eq_false_2 _ content_types_differ).
  rewrite (bool_decide_eq_true_2 _ eq_refl).
  destruct w as [a p f b c t e d]. simpl in Hl. subst a. reflexivity.
Qed.

Lemma image_post_world (r : request) (w : world) (l : list json) :
  is_image_post r = true -> alerts w = JList l ->
  let fname := image_name (clock w (ticks w)) in
  let stamp := strftime_stamp (clock w (S (ticks w))) in
  let store := JList (l ++ [image_alert r (length l) stamp fname]) in
  receive_from_esp32 r w
  = (Return {| body := Text (py "Image received"); status := 200 |},
     {| alerts := store;
        power_status := power_status w;
        files := <[ALERTS_FILE := json_dumps store]> (files w);
        blobs := <[os_path_join SAVE_DIR fname := data r]> (blobs w);
        clock := clock w; ticks := S (S (ticks w));
        entropy := entropy w; draws := draws w |}).
Proof.
  intros Hr Hl. apply is_image_post_inv in Hr as [Hm Hc].
  unfold receive_from_esp32. rewrite Hm, Hc.
  rewrite (bool_decide_eq_true_2 _ eq_refl).
  destruct w as [a p f b c t e d]. simpl in Hl. subst a. reflexivity.
Qed.

#[local] Transparent json_dumps strftime_stamp strftime_compact classify_message
  os_path_join multi_get.

Lemma serve_old (r : request) (w : world) (resp : response) (w' : world) :
  receive_from_esp32 r w = (Return resp, w') -> serve (Old r) w = (resp, w').
Proof. intros H. unfold serve. simpl dispatch. rewrite H. reflexivity. Qed.

Lemma image_path (t : datetime) :
  os_path_join SAVE_DIR (image_name t) = py "received_images/" ++ image_name t.
Proof.
  unfold os_path_join, image_name, strftime_compact, dec4.
  cbn [app startswith py map list_ascii_of_string].
  assert (H : (N.of_nat (nat_of_ascii "/") =? digit (year t / 1000)) = false).
  { apply N.eqb_neq. pose proof (digit_below (year t / 1000)).
    unfold digit in *. change (N.of_nat (nat_of_ascii "/")) with 47.
    set (q := (year t / 1000) mod 10) in *. clearbody q. lia. }
  rewrite H. reflexivity.
Qed.

(** X7: a form message sent to a list store is answered with 200; the
    record appended carries the next position as id, the device of the
    query string (or "UNKNOWN"), the label of the classifier, the message
    (or the empty string), the time read and the placeholder image; the
    history file then holds the whole new store, and the message file has
    one more line "time | device | message" with the same time. *)
Theorem form_post_effect (r : request) (w : world) (l : list json) :
  is_form_post r = true -> alerts w = JList l ->
  let stamp := strftime_stamp (clock w (ticks w)) in
  let store := JList (l ++ [form_alert r (length l) stamp]) in
  let w' := snd (serve (Old r) w) in
  fst (serve (Old r) w) = {| body := Text (py "Message received"); status := 200 |}
  /\ alerts w' = store
  /\ files w' !! ALERTS_FILE = Some (json_dumps store)
  /\ files w' !! MSG_FILE
     = Some (default [] (files w !! MSG_FILE)
             ++ audit_line stamp (device_of_request r) (message_of_request r))
  /\ blobs w' = blobs w /\ power_status w' = power_status w.
Proof.
  intros Hr Hl stamp store w'. subst w'.
  rewrite (serve_old _ _ _ _ (form_post_world r w l Hr Hl)).
  cbn [fst snd alerts files blobs power_status].
  repeat split.
  - rewrite lookup_insert_ne by (apply not_eq_sym, files_differ).
    apply lookup_insert_eq.
  - rewrite lookup_insert_eq.
    rewrite lookup_insert_ne by exact files_differ. reflexivity.
Qed.

Lemma form_post_effect_witness :
  alerts (snd (serve (Old bare_form_post) fresh_world))
  = JList [JDict
      [ (py "id", JInt 1);
        (py "device_id", JStr (py "UNKNOWN"));
        (py "alert_type", JStr (py "General Alert"));
        (py "message", JStr []);
        (py "timestamp", JStr (py "2024-03-07 12:00:00"));
        (py "image", JStr (py "placeholder.jpg")) ]]
  /\ files (snd (serve (Old bare_form_post) fresh_world)) !! MSG_FILE
     = Some (py "2024-03-07 12:00:00 | UNKNOWN | " ++ [10]).
Proof.
  destruct (form_post_effect bare_form_post fresh_world [] eq_refl eq_refl)
    as (_ & Ha & _ & Hm & _).
  split; [exact Ha|exact Hm].
Defined.

(** X8: an image sent to a list store is answered with 200; its bytes
    are written to "received_images/<time>.jpg", named after the first
    clock reading to the second, and the record appended names that same
    file, carries the next position as id and the second clock reading as
    timestamp; the history file then holds the whole new store, and the
    message file is not touched. *)
Theorem image_post_effect (r : request) (w : world) (l : list json) :
  is_image_post r = true -> alerts w = JList l ->
  let fname := image_name (clock w (ticks w)) in
  let stamp := strftime_stamp (clock w (S (ticks w))) in
  let store := JList (l ++ [image_alert r (length l) stamp fname]) in
  let w' := snd (serve (Old r) w) in
  fst (serve (Old r) w) = {| body := Text (py "Image received"); status := 200 |}
  /\ alerts w' = store
  /\ blobs w' = <[py "received_images/" ++ fname := data r]> (blobs w)
  /\ files w' !! ALERTS_FILE = Some (json_dumps store)
  /\ files w' !! MSG_FILE = files w !! MSG_FILE
  /\ power_status w' = power_status w.
Proof.
  intros Hr Hl fname stamp store w'. subst w'.
  rewrite (serve_old _ _ _ _ (image_post_world r w l Hr Hl)).
  cbn [fst snd alerts files blobs power_status].
  repeat split.
  - unfold fname. rewrite image_path. reflexivity.
  - apply lookup_insert_eq.
  - apply lookup_insert_ne. exact files_differ.
Qed.

Lemma image_post_effect_witness :
  blobs (snd (serve (Old image_post) fresh_world))
    !! py "received_images/20240307_120000.jpg"
  = Some [Byte.xff; Byte.xd8; Byte.xff; Byte.xd9].
Proof.
  destruct (image_post_effect image_post fresh_world [] eq_refl eq_refl)
    as (_ & _ & Hb & _).
  rewrite Hb. apply lookup_insert_eq.
Defined.

(** X9: two images that arrive within the same clock second are both
    answered with 200 and both recorded, but they are written to the same
    file: only the bytes of the second remain, and both records name that
    file. *)
Theorem images_in_one_second (r1 r2 : request) (w : world) (l : list json) :
  is_image_post r1 = true -> is_image_post r2 = true -> alerts w = JList l ->
  strftime_compact (clock w (ticks w)) = strftime_compact (clock w (S (S (ticks w)))) ->
  let fname := image_name (clock w (ticks w)) in
  let w' := run [Old r1; Old r2] w in
  fst (serve (Old r1) w) = {| body := Text (py "Image received"); status := 200 |}
  /\ fst (serve (Old r2) (snd (serve (Old r1) w)))
     = {| body := Text (py "Image received"); status := 200 |}
  /\ blobs w' = <[py "received_images/" ++ fname := data r2]> (blobs w)
  /\ alerts w'
     = JList (l ++ [ image_alert r1 (length l)
                       (strftime_stamp (clock w (S (ticks w)))) fname;
                     image_alert r2 (S (length l))
                       (strftime_stamp (clock w (S (S (S (ticks w)))))) fname ]).
Proof.
  intros H1 H2 Hl Hsame fname w'. subst w'.
  change (run [Old r1; Old r2] w)
    with (snd (serve (Old r2) (snd (serve (Old r1) w)))).
  rewrite (serve_old _ _ _ _ (image_post_world r1 w l H1 Hl)). cbn [fst snd].
  split; [reflexivity|].
  match goal with
  | |- context [serve (Old r2) ?w1] =>
      rewrite (serve_old _ _ _ _
                 (image_post_world r2 w1
                    (l ++ [image_alert r1 (length l)
                             (strftime_stamp (clock w (S (ticks w))))
                             (image_name (clock w (ticks w)))]) H2 eq_refl))
  end.
  cbn [fst snd alerts blobs clock ticks].
  split; [reflexivity|].
  assert (Hname : image_name (clock w (S (S (ticks w)))) = fname)
    by (unfold fname, image_name; rewrite Hsame; reflexivity).
  rewrite Hname. unfold fname. split.
  - rewrite image_path. apply insert_insert_eq.
  - rewrite length_app, <- app_assoc. cbn [length app].
    replace (length l + 1)%nat with (S (length l)) by lia. reflexivity.
Qed.

Lemma images_in_one_second_witness :
  blobs (run [Old image_post; Old second_image_post] fresh_world)
    !! py "received_images/20240307_120000.jpg"
  = Some [Byte.x00; Byte.x01].
Proof.
  destruct (images_in_one_second image_post second_image_post fresh_world []
              eq_refl eq_refl eq_refl eq_refl) as (_ & _ & Hb & _).
  rewrite Hb. apply lookup_insert_eq.
Defined.

(** ** The store over a sequence of requests *)

(** X10: whatever list the store starts as (the history a restart
    loaded, say), a sequence of requests only appends to it: the records
    it had stay first and unchanged, one record is added per image or form
    submission, and the ids of the added records are their positions in
    the store. *)
Theorem store_is_append_only (calls : list call) (w : world) (l0 : list json) :
  alerts w = JList l0 ->
  exists new,
    alerts (run calls w) = JList (l0 ++ new)
    /\ length new = length (List.filter creates_alert calls)
    /\ map alert_id new = id_range (S (length l0)) (length new).
Proof. apply run_alerts. Qed.

Lemma store_is_append_only_witness :
  exists new,
    alerts (run [Old door_post; GetAlertsHistory; Old image_post] pruned_world)
    = JList ([ form_alert door_post 0 (py "2024-03-07 11:00:00");
               form_alert door_post 2 (py "2024-03-07 11:30:00") ] ++ new)
    /\ map alert_id new = [Some (JInt 3); Some (JInt 4)].
Proof.
  destruct (store_is_append_only
              [Old door_post; GetAlertsHistory; Old image_post] pruned_world
              [ form_alert door_post 0 (py "2024-03-07 11:00:00");
                form_alert door_post 2 (py "2024-03-07 11:30:00") ])
    as (new & Ha & Hlen & Hids).
  - vm_compute. reflexivity.
  - exists new. split; [exact Ha|]. rewrite Hids, Hlen. reflexivity.
Defined.

(** X11: an id is a position, not a counter: when the store holds a
    record whose id is already the number of records plus one (a history
    file from which a record was removed), the next submission stores a
    second record with that id. *)
Theorem pruned_history_repeats_id (c : call) (w : world) (l0 : list json) (a : json) :
  alerts w = JList l0 ->
  In a l0 -> alert_id a = Some (JInt (Z.of_nat (length l0) + 1)) ->
  creates_alert c = true ->
  exists l',
    alerts (snd (serve c w)) = JList l' /\ ~ NoDup (map alert_id l').
Proof.
  intros Hl Hin Hid Hc.
  pose proof (serve_alerts c w l0 Hl) as H. rewrite Hc in H.
  destruct H as (a' & Ha' & Hid').
  exists (l0 ++ [a']). split; [exact Ha'|].
  rewrite map_app. intros Hnd. apply NoDup_app in Hnd as (_ & Hdisj & _).
  apply (Hdisj (alert_id a)).
  - apply list_elem_of_In, in_map, Hin.
  - rewrite Hid, <- Hid'. simpl. left.
Qed.

Lemma pruned_history_repeats_id_witness :
  exists l',
    alerts (snd (serve (Old door_post) pruned_world)) = JList l'
    /\ ~ NoDup (map alert_id l').
Proof.
  apply (pruned_history_repeats_id (Old door_post) pruned_world
           [ form_alert door_post 0 (py "2024-03-07 11:00:00");
             form_alert door_post 2 (py "2024-03-07 11:30:00") ]
           (form_alert door_post 2 (py "2024-03-07 11:30:00"))).
  - vm_compute. reflexivity.
  - right. left. reflexivity.
  - reflexivity.
  - reflexivity.
Defined.

Lemma receive_from_esp32_not_a_list (r : request) (w : world) :
  (forall l, alerts w <> JList l) ->
  alerts (snd (receive_from_esp32 r w)) = alerts w
  /\ files (snd (receive_from_esp32 r w)) = files w
  /\ (creates_alert (Old r) = true ->
      exists e, fst (receive_from_esp32 r w) = Raise e
                /\ error_response e = internal_error).
Proof.
  intros Hnl. unfold receive_from_esp32, creates_alert.
  destruct (method r); [repeat split; discriminate|].
  destruct w as [a p f b c t e d]. cbn [alerts] in Hnl.
  destruct (bool_decide (content_type r = Some (py "image/jpeg"))).
  { destruct a as [| | | |l|];
      try (repeat split; eexists; split; reflexivity).
    exfalso. exact (Hnl l eq_refl). }
  destruct (bool_decide (content_type r
              = Some (py "application/x-www-form-urlencoded")));
    [|repeat split; discriminate].
  destruct a as [| | | |l|]; try (repeat split; eexists; split; reflexivity).
  exfalso. exact (Hnl l eq_refl).
Qed.

Lemma serve_not_a_list (c : call) (w : world) :
  (forall l, alerts w <> JList l) ->
  alerts (snd (serve c w)) = alerts w
  /\ files (snd (serve c w)) = files w
  /\ (creates_alert c = true -> fst (serve c w) = internal_error).
Proof.
  intros Hnl. destruct c as [r|r|r|d|d|].
  - destruct (receive_from_esp32_not_a_list r w Hnl) as (Ha & Hf & Hr).
    rewrite serve_snd. simpl dispatch. split; [exact Ha|]. split; [exact Hf|].
    intros Hc. destruct (Hr Hc) as (e & He & Hresp). unfold serve. simpl dispatch.
    destruct (receive_from_esp32 r w) as [o w']. simpl in He. subst o. exact Hresp.
  - rewrite serve_snd. simpl dispatch.
    destruct (update_power_status_store r w) as (Ha & Hf & _).
    repeat split; [exact Ha|exact Hf|discriminate].
  - rewrite serve_snd. simpl dispatch.
    destruct (simulate_power_change_store r w) as (Ha & Hf & _).
    repeat split; [exact Ha|exact Hf|discriminate].
  - rewrite serve_snd. pose proof (read_routes_world (GetPowerStatus d) w) as H.
    simpl in H. simpl dispatch. rewrite H. repeat split; discriminate.
  - rewrite serve_snd. pose proof (read_routes_world (GetDeviceAlerts d) w) as H.
    simpl in H. simpl dispatch. rewrite H. repeat split; discriminate.
  - repeat split; discriminate.
Qed.

(** X12: a history file that parses to something other than a list is
    taken as the store as it is, and from then on every image or form
    submission is answered with status 500; no sequence of requests
    changes the store or any text file. *)
Theorem store_not_a_list (calls : list call) (c : call) (w : world) :
  (forall l, alerts w <> JList l) ->
  alerts (run calls w) = alerts w
  /\ files (run calls w) = files w
  /\ (creates_alert c = true -> fst (serve c (run calls w)) = internal_error).
Proof.
  intros Hnl.
  assert (H : alerts (run calls w) = alerts w /\ files (run calls w) = files w).
  { revert w Hnl. induction calls as [|c' calls IH]; intros w Hnl; [auto|].
    change (run (c' :: calls) w) with (run calls (snd (serve c' w))).
    destruct (serve_not_a_list c' w Hnl) as (Ha & Hf & _).
    destruct (IH (snd (serve c' w))) as [Ha' Hf'].
    - intros l. rewrite Ha. apply Hnl.
    - split; congruence. }
  destruct H as [Ha Hf]. split; [exact Ha|]. split; [exact Hf|].
  apply serve_not_a_list. intros l. rewrite Ha. apply Hnl.
Qed.

Lemma store_not_a_list_witness :
  alerts object_world = JDict []
  /\ fst (serve (Old door_post) (run [Old image_post] object_world)) = internal_error.
Proof.
  split; [reflexivity|].
  apply (store_not_a_list [Old image_post] (Old door_post) object_world).
  - intros l H. vm_compute in H. discriminate.
  - reflexivity.
Defined.

(** ** The files and the store *)

Lemma creates_alert_kind (r : request) :
  creates_alert (Old r) = is_image_post r || is_form_post r.
Proof. unfold creates_alert, is_image_post, is_form_post. destruct (method r); reflexivity. Qed.

Lemma receive_from_esp32_ignored (r : request) (w : world) :
  creates_alert (Old r) = false -> snd (receive_from_esp32 r w) = w.
Proof.
  unfold creates_alert, receive_from_esp32. destruct (method r); [reflexivity|].
  intros H. apply orb_false_iff in H as [-> ->]. reflexivity.
Qed.

(** A request either leaves the store and the history file alone or
    leaves the history file holding the text of the store. *)
Lemma serve_history (c : call) (w : world) :
  (alerts (snd (serve c w)) = alerts w
   /\ files (snd (serve c w)) !! ALERTS_FILE = files w !! ALERTS_FILE)
  \/ files (snd (serve c w)) !! ALERTS_FILE
     = Some (json_dumps (alerts (snd (serve c w)))).
Proof.
  assert (Hsame : snd (serve c w) = w \/
                  (alerts (snd (serve c w)) = alerts w
                   /\ files (snd (serve c w)) = files w) ->
                  alerts (snd (serve c w)) = alerts w
                  /\ files (snd (serve c w)) !! ALERTS_FILE = files w !! ALERTS_FILE).
  { intros [-> | [-> ->]]; split; reflexivity. }
  destruct c as [r|r|r|d|d|].
  - destruct (creates_alert (Old r)) eqn:Hc.
    + destruct (alerts w) as [| | | |l|] eqn:Ha;
        try (left; apply Hsame; right;
             destruct (serve_not_a_list (Old r) w) as (H1 & H2 & _);
             [intros l; rewrite Ha; discriminate|rewrite Ha in H1; auto]).
      right. rewrite creates_alert_kind in Hc. apply orb_true_iff in Hc as [Hi|Hf].
      * rewrite (serve_old _ _ _ _ (image_post_world r w l Hi Ha)).
        cbn [snd files alerts]. apply lookup_insert_eq.
      * rewrite (serve_old _ _ _ _ (form_post_world r w l Hf Ha)).
        cbn [snd files alerts].
        rewrite lookup_insert_ne by (apply not_eq_sym, files_differ).
        apply lookup_insert_eq.
    + left. apply Hsame. left. rewrite serve_snd. simpl dispatch.
      apply receive_from_esp32_ignored. exact Hc.
  - left. apply Hsame. right. rewrite serve_snd. simpl dispatch.
    destruct (update_power_status_store r w) as (Ha & Hf & _). auto.
  - left. apply Hsame. right. rewrite serve_snd. simpl dispatch.
    destruct (simulate_power_change_store r w) as (Ha & Hf & _). auto.
  - left. apply Hsame. left. rewrite serve_snd.
    exact (read_routes_world (GetPowerStatus d) w).
  - left. apply Hsame. left. rewrite serve_snd.
    exact (read_routes_world (GetDeviceAlerts d) w).
  - left. apply Hsame. left. reflexivity.
Qed.

Lemma startup_files (fs : gmap (list N) (list N))
    (bs : gmap (list N) (list Byte.byte))
    (clk : nat -> datetime) (ent : nat -> nat) :
  files (startup fs bs clk ent) = fs.
Proof.
  unfold startup. rewrite load_alerts_from_file_run. cbn [files module_globals].
  destruct (fs !! ALERTS_FILE) as [text|]; [|reflexivity].
  destruct (json_loads text); reflexivity.
Qed.

Lemma run_reload (calls : list call) :
  forall w : world,
    json_ok (alerts w) = true -> reload (files w) = alerts w ->
    forallb call_ok calls = true ->
    reload (files (run calls w)) = alerts (run calls w).
Proof.
  induction calls as [|c calls IH]; intros w Hok Hre Hcalls; [exact Hre|].
  cbn [forallb] in Hcalls. apply andb_true_iff in Hcalls as [Hc Hcs].
  change (run (c :: calls) w) with (run calls (snd (serve c w))).
  pose proof (serve_json_ok c w Hok Hc) as Hok'.
  apply IH; [exact Hok'| |exact Hcs].
  destruct (serve_history c w) as [[Ha Hf]|Hf].
  - unfold reload in *. rewrite Hf, Ha. exact Hre.
  - unfold reload. rewrite Hf, (json_loads_dumps _ Hok'). reflexivity.
Qed.

(** X13: the history file always holds what the store holds: after any
    sequence of requests, a server started again from the files on disk
    loads exactly the store the running server had. *)
Theorem restart_recovers_store (fs : gmap (list N) (list N))
    (bs bs' : gmap (list N) (list Byte.byte))
    (clk clk' : nat -> datetime) (ent ent' : nat -> nat) (calls : list call) :
  history_decoded fs -> forallb call_ok calls = true ->
  alerts (startup (files (run calls (startup fs bs clk ent))) bs' clk' ent')
  = alerts (run calls (startup fs bs clk ent)).
Proof.
  intros Hdec Hcalls. rewrite startup_alerts.
  apply (run_reload calls (startup fs bs clk ent)).
  - apply startup_json_ok. exact Hdec.
  - rewrite startup_files, startup_alerts. reflexivity.
  - exact Hcalls.
Qed.

Lemma restart_recovers_store_witness :
  alerts (startup
            (files (run [Old door_post; Old image_post; Old bare_form_post] fresh_world))
            ∅ (fun _ => noon) (fun n => n))
  = alerts (run [Old door_post; Old image_post; Old bare_form_post] fresh_world).
Proof.
  apply (restart_recovers_store ∅ ∅ ∅ (fun _ => noon) (fun _ => noon)
           (fun n => n) (fun n => n)
           [Old door_post; Old image_post; Old bare_form_post]).
  - intros text H. rewrite lookup_empty in H. discriminate.
  - vm_compute. reflexivity.
Defined.

Lemma serve_message_log (c : call) (w : world) :
  message_log w `prefix_of` message_log (snd (serve c w))
  /\ (logs_message c = false ->
      files (snd (serve c w)) !! MSG_FILE = files w !! MSG_FILE).
Proof.
  assert (Hsame : files (snd (serve c w)) = files w ->
                  message_log w `prefix_of` message_log (snd (serve c w))
                  /\ (logs_message c = false ->
                      files (snd (serve c w)) !! MSG_FILE = files w !! MSG_FILE)).
  { intros H. unfold message_log. rewrite H. split; reflexivity. }
  destruct c as [r|r|r|d|d|].
  - destruct (creates_alert (Old r)) eqn:Hc.
    + destruct (alerts w) as [| | | |l|] eqn:Ha;
        try (apply Hsame;
             destruct (serve_not_a_list (Old r) w) as (_ & H2 & _);
             [intros l; rewrite Ha; discriminate|exact H2]).
      rewrite creates_alert_kind in Hc. apply orb_true_iff in Hc as [Hi|Hf].
      * assert (Hm : files (snd (serve (Old r) w)) !! MSG_FILE = files w !! MSG_FILE).
        { rewrite (serve_old _ _ _ _ (image_post_world r w l Hi Ha)).
          cbn [snd files]. apply lookup_insert_ne. exact files_differ. }
        unfold message_log. rewrite Hm. split; [reflexivity|auto].
      * unfold message_log, logs_message.
        rewrite (serve_old _ _ _ _ (form_post_world r w l Hf Ha)).
        cbn [snd files]. rewrite lookup_insert_eq. cbn [default].
        rewrite lookup_insert_ne by exact files_differ.
        split; [apply prefix_app_r; reflexivity|]. rewrite Hf. discriminate.
    + apply Hsame. rewrite serve_snd. simpl dispatch.
      rewrite receive_from_esp32_ignored by exact Hc. reflexivity.
  - apply Hsame. rewrite serve_snd. simpl dispatch.
    destruct (update_power_status_store r w) as (_ & Hf & _). exact Hf.
  - apply Hsame. rewrite serve_snd. simpl dispatch.
    destruct (simulate_power_change_store r w) as (_ & Hf & _). exact Hf.
  - apply Hsame. rewrite serve_snd.
    rewrite (read_routes_world (GetPowerStatus d) w). reflexivity.
  - apply Hsame. rewrite serve_snd.
    rewrite (read_routes_world (GetDeviceAlerts d) w). reflexivity.
  - apply Hsame. reflexivity.
Qed.

(** X14: the message file is only ever appended to: after any sequence
    of requests its old text is still the beginning of its text, and a
    sequence without form messages leaves it exactly as it was. *)
Theorem message_log_append_only (calls : list call) (w : world) :
  message_log w `prefix_of` message_log (run calls w)
  /\ (forallb (fun c => negb (logs_message c)) calls = true ->
      files (run calls w) !! MSG_FILE = files w !! MSG_FILE).
Proof.
  revert w. induction calls as [|c calls IH]; intros w; [split; reflexivity|].
  change (run (c :: calls) w) with (run calls (snd (serve c w))).
  destruct (serve_message_log c w) as [Hp Hs].
  destruct (IH (snd (serve c w))) as [Hp' Hs'].
  split; [etrans; eassumption|].
  cbn [forallb]. intros H. apply andb_true_iff in H as [Hc Hcs].
  apply negb_true_iff in Hc. rewrite (Hs' Hcs). apply Hs. exact Hc.
Qed.

Lemma message_log_append_only_witness :
  files (run [Old image_post; SimulatePowerChange simulate_dev001;
              Old text_plain_post]
           (run [Old door_post] fresh_world)) !! MSG_FILE
  = files (run [Old door_post] fresh_world) !! MSG_FILE.
Proof.
  apply (message_log_append_only
           [Old image_post; SimulatePowerChange simulate_dev001; Old text_plain_post]
           (run [Old door_post] fresh_world)).
  reflexivity.
Defined.

(** ** The alerts of a device *)

Lemma py_getitem_device (a : json) (w : world) :
  py_getitem a (py "device_id") w
  = match device_id_of a with
    | Some x => (Return x, w)
    | None =>
        (Raise match a with JDict _ => KeyError | _ => TypeError end, w)
    end.
Proof.
  unfold py_getitem, device_id_of. destruct a; try reflexivity.
  destruct (list_find _ pairs) as [[i kv]|]; reflexivity.
Qed.

Lemma filter_device_all (device_id : list N) (l : list json) (w : world) :
  Forall (fun a => is_Some (device_id_of a)) l ->
  filter_device device_id l w = (Return (List.filter (from_device device_id) l), w).
Proof.
  induction 1 as [|a l [x Hx] _ IH]; [reflexivity|].
  cbn [filter_device List.filter]. unfold mbind, M_bind.
  rewrite py_getitem_device, Hx, IH. unfold from_device. rewrite Hx.
  destruct (eq_str x device_id); reflexivity.
Qed.

Lemma filter_device_raises (device_id : list N) (l : list json) (w : world) :
  Exists (fun a => device_id_of a = None) l ->
  exists e, filter_device device_id l w = (Raise e, w)
            /\ error_response e = internal_error.
Proof.
  induction l as [|a l IH]; intros H; [inversion H|].
  cbn [filter_device]. unfold mbind, M_bind. rewrite py_getitem_device.
  destruct (device_id_of a) as [x|] eqn:Hx.
  - apply Exists_cons in H as [H|H]; [congruence|].
    destruct (IH H) as (e & He & Hresp). rewrite He. eauto.
  - eexists. split; [reflexivity|]. destruct a; reflexivity.
Qed.

(** X15: when every record of a list store has a [device_id], the route
    of a device answers 200 with exactly the records whose [device_id] is
    the string asked for, in the order of the store, and changes nothing;
    a device without records gets the empty list, not a 404. *)
Theorem device_alerts_filtered (device_id : list N) (w : world) (l : list json) :
  alerts w = JList l ->
  Forall (fun a => is_Some (device_id_of a)) l ->
  serve (GetDeviceAlerts device_id) w
  = ({| body := Jsonify (JList (List.filter (from_device device_id) l));
        status := 200 |}, w).
Proof.
  intros Hl Hall.
  unfold serve, dispatch, get_device_alerts, get_alerts, mbind, M_bind, mret, M_ret.
  rewrite Hl. cbn [py_iter mret M_ret].
  rewrite (filter_device_all device_id l w Hall). reflexivity.
Qed.

Lemma device_alerts_filtered_witness :
  serve (GetDeviceAlerts (py "DEV001"))
    (run [Old door_post; Old bare_form_post; Old image_post] fresh_world)
  = ({| body := Jsonify (JList
          [ form_alert door_post 0 (py "2024-03-07 12:00:00");
            image_alert image_post 2 (py "2024-03-07 12:00:00")
              (py "20240307_120000.jpg") ]);
        status := 200 |},
     run [Old door_post; Old bare_form_post; Old image_post] fresh_world)
  /\ fst (serve (GetDeviceAlerts (py "DEV777"))
            (run [Old door_post; Old bare_form_post; Old image_post] fresh_world))
     = {| body := Jsonify (JList []); status := 200 |}.
Proof.
  split.
  - rewrite (device_alerts_filtered (py "DEV001") _
               [ form_alert door_post 0 (py "2024-03-07 12:00:00");
                 form_alert bare_form_post 1 (py "2024-03-07 12:00:00");
                 image_alert image_post 2 (py "2024-03-07 12:00:00")
                   (py "20240307_120000.jpg") ]).
    + reflexivity.
    + vm_compute. reflexivity.
    + repeat constructor; vm_compute; eexists; reflexivity.
  - rewrite (device_alerts_filtered (py "DEV777") _
               [ form_alert door_post 0 (py "2024-03-07 12:00:00");
                 form_alert bare_form_post 1 (py "2024-03-07 12:00:00");
                 image_alert image_post 2 (py "2024-03-07 12:00:00")
                   (py "20240307_120000.jpg") ]).
    + reflexivity.
    + vm_compute. reflexivity.
    + repeat constructor; vm_compute; eexists; reflexivity.
Defined.

(** X16: one record without a [device_id] anywhere in the store makes the
    route of every device fail with status 500, also for devices none of
    whose records is affected; nothing changes. *)
Theorem device_alerts_need_every_record (device_id : list N) (w : world)
    (l : list json) :
  alerts w = JList l ->
  Exists (fun a => device_id_of a = None) l ->
  serve (GetDeviceAlerts device_id) w = (internal_error, w).
Proof.
  intros Hl Hex.
  unfold serve, dispatch, get_device_alerts, get_alerts, mbind, M_bind, mret, M_ret.
  rewrite Hl. cbn [py_iter mret M_ret].
  destruct (filter_device_raises device_id l w Hex) as (e & -> & ->). reflexivity.
Qed.

Lemma device_alerts_need_every_record_witness :
  serve (GetDeviceAlerts (py "DEV001")) nameless_world
  = (internal_error, nameless_world).
Proof.
  apply (device_alerts_need_every_record (py "DEV001") nameless_world
           [ form_alert door_post 0 (py "2024-03-07 11:00:00");
             JDict [(py "id", JInt 2)] ]).
  - vm_compute. reflexivity.
  - apply Exists_cons. right. apply Exists_cons. left. reflexivity.
Defined.

(** ** The shape of the records *)

Lemma ingested_form_alert (r : request) (n : nat) (stamp : list N) :
  ingested_record (form_alert r n stamp) = true.
Proof.
  unfold ingested_record, form_alert.
  cbn [map fst snd forallb is_str andb].
  rewrite bool_decide_eq_true_2 by reflexivity. cbn [andb].
  change (dict_get _ (py "alert_type") JNull)
    with (JStr (classify_message (message_of_request r))).
  apply bool_decide_eq_true, list_elem_of_In.
  right. apply classify_message_label.
Qed.

Lemma ingested_image_alert (r : request) (n : nat) (stamp fname : list N) :
  ingested_record (image_alert r n stamp fname) = true.
Proof.
  unfold ingested_record, image_alert.
  cbn [map fst snd forallb is_str andb].
  rewrite bool_decide_eq_true_2 by reflexivity. cbn [andb].
  change (dict_get _ (py "alert_type") JNull) with (JStr (py "Image Captured")).
  apply bool_decide_eq_true, list_elem_of_In. left. reflexivity.
Qed.

Lemma serve_ingested (c : call) (w : world) (l : list json) :
  alerts w = JList l -> forallb ingested_record l = true ->
  exists l', alerts (snd (serve c w)) = JList l'
             /\ forallb ingested_record l' = true.
Proof.
  intros Hl Hall.
  destruct (creates_alert c) eqn:Hc.
  - destruct c as [r| | | | |]; try discriminate.
    rewrite creates_alert_kind in Hc. apply orb_true_iff in Hc as [Hi|Hf].
    + rewrite (serve_old _ _ _ _ (image_post_world r w l Hi Hl)).
      cbn [snd alerts]. eexists. split; [reflexivity|].
      rewrite forallb_app, Hall. cbn [forallb].
      rewrite ingested_image_alert. reflexivity.
    + rewrite (serve_old _ _ _ _ (form_post_world r w l Hf Hl)).
      cbn [snd alerts]. eexists. split; [reflexivity|].
      rewrite forallb_app, Hall. cbn [forallb].
      rewrite ingested_form_alert. reflexivity.
  - pose proof (serve_alerts c w l Hl) as H. rewrite Hc in H.
    exists l. auto.
Qed.

Lemma run_ingested (calls : list call) :
  forall (w : world) (l : list json),
    alerts w = JList l -> forallb ingested_record l = true ->
    exists l', alerts (run calls w) = JList l'
               /\ forallb ingested_record l' = true.
Proof.
  induction calls as [|c calls IH]; intros w l Hl Hall; [eauto|].
  change (run (c :: calls) w) with (run calls (snd (serve c w))).
  destruct (serve_ingested c w l Hl Hall) as (l1 & Hl1 & Hall1).
  exact (IH _ _ Hl1 Hall1).
Qed.

(** X17: every record the ingestion route stores has the six keys id,
    device_id, alert_type, message, timestamp and image in this order, an
    integer id and strings elsewhere, and its alert type is "Image
    Captured" or one of the five labels of the classifier, never a power
    alert: a store of such records stays one under any sequence of
    requests. *)
Theorem records_keep_their_shape (calls : list call) (w : world) (l : list json) :
  alerts w = JList l -> forallb ingested_record l = true ->
  exists l', alerts (run calls w) = JList l'
             /\ forallb ingested_record l' = true.
Proof. apply run_ingested. Qed.

Lemma records_keep_their_shape_witness :
  exists l',
    alerts (run [Old door_post; SimulatePowerChange simulate_dev001; Old image_post]
              fresh_world) = JList l'
    /\ forallb ingested_record l' = true.
Proof.
  apply (records_keep_their_shape
           [Old door_post; SimulatePowerChange simulate_dev001; Old image_post]
           fresh_world []); reflexivity.
Defined.

Lemma ingested_record_device (a : json) :
  ingested_record a = true -> exists s, device_id_of a = Some (JStr s).
Proof.
  unfold ingested_record. destruct a as [| | | | |d]; try discriminate.
  intros H. apply andb_true_iff in H as [H _]. apply andb_true_iff in H as [Hk Hv].
  apply bool_decide_eq_true in Hk.
  destruct d as [|[k1 v1] [|[k2 v2] [|[k3 v3] [|[k4 v4] [|[k5 v5] [|[k6 v6] [|]]]]]]];
    try discriminate.
  cbn [map fst] in Hk. inversion Hk; subst.
  cbn [map snd] in Hv. destruct v1; try discriminate.
  cbn [forallb] in Hv. apply andb_true_iff in Hv as [Hv _].
  destruct v2; try discriminate. eexists. reflexivity.
Qed.

(** X18: on a store of records of the ingestion route (so, on every store
    built up from the empty one), the route of a device never fails: after
    any sequence of requests it answers 200 with records that all carry
    the device asked for. *)
Theorem device_alerts_after_ingestion (calls : list call) (device_id : list N)
    (w : world) (l : list json) :
  alerts w = JList l -> forallb ingested_record l = true ->
  exists found,
    serve (GetDeviceAlerts device_id) (run calls w)
    = ({| body := Jsonify (JList found); status := 200 |}, run calls w)
    /\ Forall (fun a => device_id_of a = Some (JStr device_id)) found.
Proof.
  intros Hl Hall.
  destruct (run_ingested calls w l Hl Hall) as (l' & Hl' & Hall').
  assert (Hdev : Forall (fun a => is_Some (device_id_of a)) l').
  { apply Forall_forall. intros a Ha. apply list_elem_of_In in Ha.
    rewrite forallb_forall in Hall'.
    destruct (ingested_record_device a (Hall' a Ha)) as [s ->]. eauto. }
  exists (List.filter (from_device device_id) l'). split.
  - unfold serve, dispatch, get_device_alerts, get_alerts, mbind, M_bind, mret, M_ret.
    rewrite Hl'. cbn [py_iter mret M_ret].
    rewrite (filter_device_all device_id l' _ Hdev). reflexivity.
  - apply Forall_forall. intros a Ha. apply list_elem_of_In, filter_In in Ha as [Ha Hf].
    rewrite forallb_forall in Hall'.
    destruct (ingested_record_device a (Hall' a Ha)) as [s Hs].
    unfold from_device in Hf. rewrite Hs in Hf. cbn [eq_str] in Hf.
    apply str_eqb_eq in Hf. subst. exact Hs.
Qed.

Lemma device_alerts_after_ingestion_witness :
  exists found,
    serve (GetDeviceAlerts (py "DEV001"))
      (run [Old door_post; Old bare_form_post] fresh_world)
    = ({| body := Jsonify (JList found); status := 200 |},
       run [Old door_post; Old bare_form_post] fresh_world)
    /\ Forall (fun a => device_id_of a = Some (JStr (py "DEV001"))) found.
Proof.
  apply (device_alerts_after_ingestion [Old door_post; Old bare_form_post]
           (py "DEV001") fresh_world []); reflexivity.
Defined.

(** ** The classifier, label by label *)

(** X19: the exact condition of each label.  Access Status Change: the
    message contains "Access status changed".  Vibration Alert: it does
    not, and contains "Vibration detected".  Critical Alert: neither, and
    it contains both "ALERT:" and "Access Denied" (anywhere, in any
    order).  Door Alert: none of these, and it contains "Door opened".
    General Alert: none of the four rules matches. *)
Theorem classify_message_decision (m : list N) :
  let access := substring (py "Access status changed") m in
  let vibration := substring (py "Vibration detected") m in
  let denied := substring (py "ALERT:") m /\ substring (py "Access Denied") m in
  let door := substring (py "Door opened") m in
  (classify_message m = py "Access Status Change" <-> access)
  /\ (classify_message m = py "Vibration Alert" <-> ~ access /\ vibration)
  /\ (classify_message m = py "Critical Alert"
      <-> ~ access /\ ~ vibration /\ denied)
  /\ (classify_message m = py "Door Alert"
      <-> ~ access /\ ~ vibration /\ ~ denied /\ door)
  /\ (classify_message m = py "General Alert"
      <-> ~ access /\ ~ vibration /\ ~ denied /\ ~ door).
Proof.
  cbv zeta. rewrite <- !contains_substring. unfold classify_message.
  destruct (contains (py "Access status changed") m);
    destruct (contains (py "Vibration detected") m);
    destruct (contains (py "ALERT:") m);
    destruct (contains (py "Access Denied") m);
    destruct (contains (py "Door opened") m);
    vm_compute; intuition discriminate.
Qed.

(** ** The messages of the page *)

Lemma translate_newlines_one_line (s : list N) :
  Forall (fun c => c <> 13) s -> translate_newlines s = s.
Proof.
  induction 1 as [|c s Hc _ IH]; [reflexivity|].
  cbn [translate_newlines]. apply N.eqb_neq in Hc. rewrite Hc, IH. reflexivity.
Qed.

Lemma readlines_line (l rest : list N) :
  Forall (fun c => c <> 10) l ->
  readlines (l ++ 10 :: rest) = (l ++ [10]) :: readlines rest.
Proof.
  induction 1 as [|c l Hc _ IH]; [reflexivity|].
  cbn [app readlines]. apply N.eqb_neq in Hc. rewrite Hc, IH. reflexivity.
Qed.

Lemma readlines_lines (ls : list (list N)) :
  Forall one_line ls ->
  readlines (lines_text ls) = map (fun l => l ++ [10]) ls.
Proof.
  unfold lines_text. induction 1 as [|l ls Hl _ IH]; [reflexivity|].
  cbn [map concat]. rewrite <- app_assoc. cbn [app].
  rewrite readlines_line, IH; [reflexivity|].
  eapply Forall_impl; [exact Hl|]. intros c [H _]. exact H.
Qed.

Lemma lines_text_no_return (ls : list (list N)) :
  Forall one_line ls -> Forall (fun c => c <> 13) (lines_text ls).
Proof.
  unfold lines_text. induction 1 as [|l ls Hl _ IH]; [constructor|].
  cbn [map concat]. rewrite <- app_assoc. apply Forall_app. split.
  - eapply Forall_impl; [exact Hl|]. intros c [_ H]. exact H.
  - constructor; [discriminate|exact IH].
Qed.

Lemma strip_newline (l : list N) : strip (l ++ [10]) = strip l.
Proof. unfold strip, rstrip. rewrite rev_unit. reflexivity. Qed.

Lemma recent_messages_lines (w : world) (ls : list (list N)) :
  files w !! MSG_FILE = Some (lines_text ls) -> Forall one_line ls ->
  recent_messages w = take 5 (map strip (rev ls)).
Proof.
  intros Hf Hls. unfold recent_messages. rewrite Hf.
  rewrite translate_newlines_one_line by (apply lines_text_no_return; exact Hls).
  rewrite readlines_lines by exact Hls.
  rewrite <- map_rev, map_map. f_equal.
  apply map_ext. intros l. apply strip_newline.
Qed.

(** X20: when the message file is made of lines, the page shows its last
    five lines, newest first, each without the white space around it;
    with no message file it shows none. *)
Theorem page_shows_last_five (w : world) (ls : list (list N)) :
  (files w !! MSG_FILE = None -> recent_messages w = [])
  /\ (files w !! MSG_FILE = Some (lines_text ls) -> Forall one_line ls ->
      recent_messages w = take 5 (map strip (rev ls))).
Proof.
  split.
  - intros H. unfold recent_messages. rewrite H. reflexivity.
  - apply recent_messages_lines.
Qed.

Lemma page_shows_last_five_witness :
  recent_messages (run (repeat (Old door_post) 6) fresh_world)
  = repeat (py "2024-03-07 12:00:00 | DEV001 | Door opened at front gate") 5.
Proof.
  destruct (page_shows_last_five (run (repeat (Old door_post) 6) fresh_world)
              (repeat (py "2024-03-07 12:00:00 | DEV001 | Door opened at front gate") 6))
    as [_ H].
  rewrite H.
  - reflexivity.
  - vm_compute. reflexivity.
  - repeat constructor; discriminate.
Defined.

Lemma one_line_app (a b : list N) : one_line a -> one_line b -> one_line (a ++ b).
Proof. intros Ha Hb. apply Forall_app. auto. Qed.

Lemma one_line_below (s : list N) :
  Forall (fun c => 32 <= c) s -> one_line s.
Proof.
  intros H. eapply Forall_impl; [exact H|]. intros c Hc. cbv beta in Hc. lia.
Qed.

Lemma digit_above (n : N) : 32 <= digit n.
Proof. unfold digit. set (r := n mod 10). clearbody r. lia. Qed.

Lemma strftime_stamp_one_line (t : datetime) : one_line (strftime_stamp t).
Proof.
  apply one_line_below. unfold strftime_stamp, dec4, dec2.
  repeat (apply Forall_app; split);
    repeat (apply Forall_cons; split; [try apply digit_above; discriminate|]);
    apply Forall_nil; exact I.
Qed.

Lemma audit_entry_one_line (stamp device message : list N) :
  one_line stamp -> one_line device -> one_line message ->
  one_line (audit_entry stamp device message).
Proof.
  intros Hs Hd Hm. unfold audit_entry.
  assert (Hsep : one_line (py " | ")) by (apply one_line_below; repeat constructor; discriminate).
  repeat (apply one_line_app; try assumption).
Qed.

Lemma lines_text_app (ls ls' : list (list N)) :
  lines_text (ls ++ ls') = lines_text ls ++ lines_text ls'.
Proof. unfold lines_text. rewrite map_app. apply concat_app. Qed.

Lemma form_post_log (r : request) (w : world) (l : list json) :
  is_form_post r = true -> alerts w = JList l ->
  files (snd (serve (Old r) w)) !! MSG_FILE
  = Some (message_log w
          ++ audit_line (strftime_stamp (clock w (ticks w)))
               (device_of_request r) (message_of_request r)).
Proof.
  intros Hr Hl.
  rewrite (serve_old _ _ _ _ (form_post_world r w l Hr Hl)).
  cbn [snd files]. rewrite lookup_insert_eq.
  rewrite lookup_insert_ne by exact files_differ. reflexivity.
Qed.

(** X21: a form message without line breaks is the first entry of the
    page right after it was sent: when the message file is made of lines,
    the page then shows "time | device | message" (stripped) followed by
    the older lines, newest first, five entries at most. *)
Theorem newest_message_first (r : request) (w : world) (l : list json)
    (ls : list (list N)) :
  is_form_post r = true -> alerts w = JList l ->
  message_log w = lines_text ls -> Forall one_line ls ->
  one_line (device_of_request r) -> one_line (message_of_request r) ->
  recent_messages (snd (serve (Old r) w))
  = take 5 (strip (audit_entry (strftime_stamp (clock w (ticks w)))
                     (device_of_request r) (message_of_request r))
            :: map strip (rev ls)).
Proof.
  intros Hr Hl Hlog Hls Hd Hm.
  rewrite (recent_messages_lines _
             (ls ++ [audit_entry (strftime_stamp (clock w (ticks w)))
                       (device_of_request r) (message_of_request r)])).
  - rewrite rev_unit. reflexivity.
  - rewrite (form_post_log r w l Hr Hl), Hlog, lines_text_app. f_equal. f_equal.
    unfold lines_text, audit_line, audit_entry. cbn [map concat].
    rewrite app_nil_r, <- !app_assoc. reflexivity.
  - apply Forall_app. split; [exact Hls|]. constructor; [|constructor].
    apply audit_entry_one_line; [apply strftime_stamp_one_line|exact Hd|exact Hm].
Qed.

Lemma newest_message_first_witness :
  recent_messages (snd (serve (Old door_post) (run [Old bare_form_post] fresh_world)))
  = [ py "2024-03-07 12:00:00 | DEV001 | Door opened at front gate";
      py "2024-03-07 12:00:00 | UNKNOWN |" ].
Proof.
  rewrite (newest_message_first door_post (run [Old bare_form_post] fresh_world)
             [form_alert bare_form_post 0 (py "2024-03-07 12:00:00")]
             [py "2024-03-07 12:00:00 | UNKNOWN | "]).
  - reflexivity.
  - reflexivity.
  - reflexivity.
  - reflexivity.
  - repeat constructor; discriminate.
  - repeat constructor; discriminate.
  - repeat constructor; discriminate.
Defined.

(** X22: a line break inside a form message is written to the message
    file as it is, so the page shows one message as two entries: the text
    after the line break stands as an entry of its own, before the entry
    that carries the time and the device. *)
Theorem line_break_splits_message (r : request) (w : world) (l : list json)
    (ls : list (list N)) (first second : list N) :
  is_form_post r = true -> alerts w = JList l ->
  message_log w = lines_text ls -> Forall one_line ls ->
  one_line (device_of_request r) ->
  message_of_request r = first ++ 10 :: second ->
  one_line first -> one_line second ->
  recent_messages (snd (serve (Old r) w))
  = take 5 (strip second
            :: strip (audit_entry (strftime_stamp (clock w (ticks w)))
                        (device_of_request r) first)
            :: map strip (rev ls)).
Proof.
  intros Hr Hl Hlog Hls Hd Hmsg H1 H2.
  rewrite (recent_messages_lines _
             (ls ++ [audit_entry (strftime_stamp (clock w (ticks w)))
                       (device_of_request r) first; second])).
  - rewrite rev_app_distr. reflexivity.
  - rewrite (form_post_log r w l Hr Hl), Hlog, lines_text_app. f_equal. f_equal.
    unfold lines_text, audit_line, audit_entry. rewrite Hmsg. cbn [map concat].
    rewrite app_nil_r, <- !app_assoc. reflexivity.
  - apply Forall_app. split; [exact Hls|].
    constructor; [|constructor; [exact H2|constructor]].
    apply audit_entry_one_line; [apply strftime_stamp_one_line|exact Hd|exact H1].
Qed.

Lemma line_break_splits_message_witness :
  recent_messages (snd (serve (Old two_line_post) fresh_world))
  = [ py "2024-01-01 00:00:00 | DEV009 | forged";
      py "2024-03-07 12:00:00 | DEV001 | Door opened" ].
Proof.
  rewrite (line_break_splits_message two_line_post fresh_world [] []
             (py "Door opened") (py "2024-01-01 00:00:00 | DEV009 | forged")).
  - reflexivity.
  - reflexivity.
  - reflexivity.
  - reflexivity.
  - constructor.
  - repeat constructor; discriminate.
  - reflexivity.
  - repeat constructor; discriminate.
  - repeat constructor; discriminate.
Defined.

(** ** The text of the history file *)

Lemma hexdigit_plain (n : N) : plain_ascii (hexdigit (n mod 16)).
Proof.
  unfold plain_ascii, hexdigit.
  assert (H : n mod 16 < 16) by (apply N.mod_lt; discriminate).
  set (d := n mod 16) in *. clearbody d. right.
  destruct (d <? 10) eqn:E; [apply N.ltb_lt in E|apply N.ltb_ge in E]; lia.
Qed.

Lemma hex4_plain (n : N) : Forall plain_ascii (hex4 n).
Proof.
  unfold hex4. repeat (apply Forall_cons; split; [apply hexdigit_plain|]).
  apply Forall_nil; exact I.
Qed.

Lemma plain_literal (l : list N) :
  forallb (fun x => (32 <=? x) && (x <=? 126)) l = true -> Forall plain_ascii l.
Proof.
  intros H. apply Forall_forall. intros x Hx. apply list_elem_of_In in Hx.
  rewrite forallb_forall in H. specialize (H x Hx).
  apply andb_true_iff in H as [H1 H2]. apply N.leb_le in H1, H2. right. lia.
Qed.

Lemma ascii_escape_plain (c : N) : Forall plain_ascii (ascii_escape c).
Proof.
  pose proof plain_literal as Hlit.
  unfold ascii_escape.
  repeat match goal with
         | |- context [if ?x =? ?k then _ else _] =>
             destruct (x =? k); [apply Hlit; reflexivity|]
         end.
  destruct ((32 <=? c) && (c <=? 126)) eqn:E.
  - apply Hlit. cbn [forallb]. rewrite E. reflexivity.
  - destruct (c <? 65536).
    + apply Forall_cons; split; [right; lia|].
      apply Forall_cons; split; [right; lia|]. apply hex4_plain.
    + cbv zeta. apply Forall_app. split;
        (apply Forall_cons; split; [right; lia|];
         apply Forall_cons; split; [right; lia|]; apply hex4_plain).
Qed.

Lemma encode_basestring_plain (s : list N) :
  Forall plain_ascii (encode_basestring_ascii s).
Proof.
  unfold encode_basestring_ascii.
  apply Forall_cons; split; [right; lia|]. apply Forall_app. split.
  - induction s as [|c s IH]; [constructor|].
    cbn [flat_map]. apply Forall_app. split; [apply ascii_escape_plain|exact IH].
  - apply Forall_cons; split; [right; lia|]. constructor.
Qed.

Lemma intstr_plain (z : Z) : Forall plain_ascii (intstr z).
Proof.
  assert (Hdec : forall n, Forall plain_ascii (decimal n)).
  { intros n. destruct (decimal_spec n) as (d & ds & -> & Hd & Hds & _).
    apply Forall_forall. intros x Hx. apply list_elem_of_In in Hx.
    assert (Hx' : is_digit x = true).
    { destruct Hx as [<-|Hx]; [exact Hd|].
      rewrite forallb_forall in Hds. apply Hds. exact Hx. }
    apply is_digit_spec in Hx'. right. lia. }
  unfold intstr. destruct z; try apply Hdec.
  apply Forall_cons; split; [right; lia|apply Hdec].
Qed.

Lemma newline_indent_plain (level : nat) : Forall plain_ascii (newline_indent level).
Proof.
  unfold newline_indent. apply Forall_cons; split; [left; reflexivity|].
  induction (2 * level)%nat as [|n IH]; [constructor|].
  cbn [repeat]. apply Forall_cons; split; [right; lia|exact IH].
Qed.

Lemma join_plain (sep : list N) (chunks : list (list N)) :
  Forall plain_ascii sep -> Forall (Forall plain_ascii) chunks ->
  Forall plain_ascii (join sep chunks).
Proof.
  intros Hsep. induction 1 as [|c chunks Hc Hcs IH]; [constructor|].
  destruct chunks as [|c' chunks]; [exact Hc|].
  cbn [join]. cbn [join] in IH.
  apply Forall_app. split; [exact Hc|]. apply Forall_app. split; [exact Hsep|exact IH].
Qed.

Lemma iterencode_plain (o : json) :
  forall level, Forall plain_ascii (iterencode level o).
Proof.
  induction o as [|b|z|s|items IH|pairs IH] using json_nested_ind; intros level.
  - apply plain_literal. reflexivity.
  - destruct b; apply plain_literal; reflexivity.
  - apply intstr_plain.
  - apply encode_basestring_plain.
  - destruct items as [|x xs].
    { apply plain_literal. reflexivity. }
    rewrite iterencode_list.
    apply Forall_cons; split; [right; lia|].
    apply Forall_app. split; [apply newline_indent_plain|].
    apply Forall_app. split.
    + apply join_plain.
      * apply Forall_cons; split; [right; lia|apply newline_indent_plain].
      * apply Forall_fmap. eapply Forall_impl; [exact IH|].
        intros o Ho. apply Ho.
    + apply Forall_app. split; [apply newline_indent_plain|].
      apply Forall_cons; split; [right; lia|constructor].
  - destruct pairs as [|kv kvs].
    { apply plain_literal. reflexivity. }
    rewrite iterencode_dict.
    apply Forall_cons; split; [right; lia|].
    apply Forall_app. split; [apply newline_indent_plain|].
    apply Forall_app. split.
    + apply join_plain.
      * apply Forall_cons; split; [right; lia|apply newline_indent_plain].
      * apply Forall_fmap. eapply Forall_impl; [exact IH|].
        intros kv' Hkv. unfold encode_pair. cbn [compose].
        apply Forall_app. split; [apply encode_basestring_plain|].
        apply Forall_cons; split; [right; lia|].
        apply Forall_cons; split; [right; lia|]. apply Hkv.
    + apply Forall_app. split; [apply newline_indent_plain|].
      apply Forall_cons; split; [right; lia|constructor].
Qed.

(** X23: whatever characters the messages and device names contain, the
    history file a submission leaves behind is plain ASCII: printable
    characters and newlines only. *)
Theorem history_file_is_ascii (c : call) (w : world) (l : list json) :
  creates_alert c = true -> alerts w = JList l ->
  exists text,
    files (snd (serve c w)) !! ALERTS_FILE = Some text
    /\ Forall plain_ascii text.
Proof.
  intros Hc Hl. exists (json_dumps (alerts (snd (serve c w)))).
  split; [|apply iterencode_plain].
  destruct c as [r| | | | |]; try discriminate.
  rewrite creates_alert_kind in Hc. apply orb_true_iff in Hc as [Hi|Hf].
  - rewrite (serve_old _ _ _ _ (image_post_world r w l Hi Hl)).
    cbn [snd files alerts]. apply lookup_insert_eq.
  - rewrite (serve_old _ _ _ _ (form_post_world r w l Hf Hl)).
    cbn [snd files alerts].
    rewrite lookup_insert_ne by (apply not_eq_sym, files_differ).
    apply lookup_insert_eq.
Qed.

Lemma history_file_is_ascii_witness :
  exists text,
    files (snd (serve (Old unicode_post) fresh_world)) !! ALERTS_FILE = Some text
    /\ Forall plain_ascii text.
Proof.
  apply (history_file_is_ascii (Old unicode_post) fresh_world []); reflexivity.
Defined.

(** X24: a history file on which [json.load] raises is not kept: the
    server starts with the empty store, the file still as it was, and its
    first image or form submission replaces the file by the text of a
    store with that one record, id 1.  As in the load itself, [load]
    stands for [json.load]: the statement holds whatever the library
    rejects. *)
Theorem unreadable_history_is_overwritten (load : list N -> outcome json)
    (fs : gmap (list N) (list N)) (bs : gmap (list N) (list Byte.byte))
    (clk : nat -> datetime) (ent : nat -> nat) (text : list N) (e : exn)
    (c : call) :
  fs !! ALERTS_FILE = Some text -> load text = Raise e ->
  creates_alert c = true ->
  alerts (startup_using load fs bs clk ent) = JList []
  /\ files (startup_using load fs bs clk ent) !! ALERTS_FILE = Some text
  /\ exists a,
       alerts (snd (serve c (startup_using load fs bs clk ent))) = JList [a]
       /\ alert_id a = Some (JInt 1)
       /\ files (snd (serve c (startup_using load fs bs clk ent))) !! ALERTS_FILE
          = Some (json_dumps (JList [a])).
Proof.
  intros Hf Hbad Hc.
  assert (Hl : alerts (startup_using load fs bs clk ent) = JList []).
  { rewrite startup_using_world, Hf, Hbad. reflexivity. }
  split; [exact Hl|]. split.
  { rewrite startup_using_world. exact Hf. }
  destruct c as [r| | | | |]; try discriminate.
  rewrite creates_alert_kind in Hc. apply orb_true_iff in Hc as [Hi|Hm].
  - rewrite (serve_old _ _ _ _ (image_post_world r _ [] Hi Hl)).
    cbn [snd files alerts app]. eexists. split; [reflexivity|].
    split; [reflexivity|]. apply lookup_insert_eq.
  - rewrite (serve_old _ _ _ _ (form_post_world r _ [] Hm Hl)).
    cbn [snd files alerts app]. eexists. split; [reflexivity|].
    split; [reflexivity|].
    rewrite lookup_insert_ne by (apply not_eq_sym, files_differ).
    apply lookup_insert_eq.
Qed.

Lemma unreadable_history_is_overwritten_witness :
  exists a,
    alerts (snd (serve (Old door_post)
                   (startup_using json_load {[ ALERTS_FILE := corrupt_history ]} ∅
                      (fun _ => noon) (fun n => n)))) = JList [a]
    /\ alert_id a = Some (JInt 1)
    /\ files (snd (serve (Old door_post)
                     (startup_using json_load {[ ALERTS_FILE := corrupt_history ]} ∅
                        (fun _ => noon) (fun n => n)))) !! ALERTS_FILE
       = Some (json_dumps (JList [a])).
Proof.
  apply (unreadable_history_is_overwritten json_load
           {[ ALERTS_FILE := corrupt_history ]} ∅
           (fun _ => noon) (fun n => n) corrupt_history ValueError (Old door_post)).
  - vm_compute. reflexivity.
  - vm_compute. reflexivity.
  - reflexivity.
Defined.
